(** * Deep-MVLM PLY alignment pipeline: a shallow embedding

    The development follows four source files of the repository:

    - [anatomical_aligner.py]        (class [AnatomicalAligner])
    - [scale_free_aligner.py]        (class [ScaleFreeAligner])
    - [hybrid_scale_free_aligner.py] (class [HybridScaleFreeAligner])
    - [eyuptest.py]                  (class [ComprehensivePLYTestSuite])

    Python/numpy numbers are kept abstract behind the interface [Num],
    which has two instances: IEEE binary64 (Rocq's primitive floats, the
    arithmetic CPython and numpy really run, with NaN and infinities) and
    the real numbers (the exact arithmetic that the "within tolerance"
    statements idealise).  Every function of the pipeline is written once,
    over [Num], and read at either instance. *)

From Stdlib Require Import ZArith List String Ascii Bool DecimalString.
From Stdlib Require Import Reals Lra Psatz RNsatz.
From Stdlib Require Import Floats Uint63.
Import ListNotations.

Set Implicit Arguments.
Set Warnings "-inexact-float".

(* ------------------------------------------------------------------ *)
(** ** Numbers *)

(** The arithmetic the sources use on Python floats and numpy float64
    arrays.  [div] is numpy's total division (a zero divisor gives NaN or
    an infinity at binary64); Python's own [/] on floats raises and is
    [pydiv] below.  Comparisons are boolean, as in the sources. *)
Class Num (T : Type) : Type := {
  of_Z : Z -> T;
  add : T -> T -> T;
  sub : T -> T -> T;
  mul : T -> T -> T;
  div : T -> T -> T;
  neg : T -> T;
  abs : T -> T;
  sqrt : T -> T;
  ltb : T -> T -> bool;
  leb : T -> T -> bool;
  eqb : T -> T -> bool
}.

Declare Scope num_scope.
Delimit Scope num_scope with num.
Infix "+" := add : num_scope.
Infix "-" := sub : num_scope.
Infix "*" := mul : num_scope.
Infix "/" := div : num_scope.
Notation "- x" := (neg x) : num_scope.
Infix "<?" := ltb : num_scope.
Infix "<=?" := leb : num_scope.
Infix "=?" := eqb : num_scope.
(** Python's [a > b] and [a >= b] are [b < a] and [b <= a] (also on NaN,
    where all four are false). *)
Notation "x >? y" := (ltb y x) (at level 70) : num_scope.
Notation "x >=? y" := (leb y x) (at level 70) : num_scope.

(** IEEE binary64.  [of_Z] is exact on the integers the sources write
    (all below 2^53). *)
#[export] Instance Num_float : Num float := {|
  of_Z := fun z => PrimFloat.of_uint63 (Uint63.of_Z z);
  add := PrimFloat.add;
  sub := PrimFloat.sub;
  mul := PrimFloat.mul;
  div := PrimFloat.div;
  neg := PrimFloat.opp;
  abs := PrimFloat.abs;
  sqrt := PrimFloat.sqrt;
  ltb := PrimFloat.ltb;
  leb := PrimFloat.leb;
  eqb := PrimFloat.eqb
|}.

Definition Rltb (x y : R) : bool := if Rlt_dec x y then true else false.
Definition Rleb (x y : R) : bool := if Rle_dec x y then true else false.
Definition Reqb (x y : R) : bool := if Req_dec_T x y then true else false.

(** Exact real arithmetic.  [Rdiv x 0] is [0] here, where binary64 gives
    NaN or an infinity: statements at this instance carry the hypotheses
    that keep every divisor away from zero. *)
#[export] Instance Num_R : Num R := {|
  of_Z := IZR;
  add := Rplus;
  sub := Rminus;
  mul := Rmult;
  div := Rdiv;
  neg := Ropp;
  abs := Rabs;
  sqrt := R_sqrt.sqrt;
  ltb := Rltb;
  leb := Rleb;
  eqb := Reqb
|}.

(** Python exceptions the modelled code can raise. *)
Inductive pyexc : Set :=
| ZeroDivisionError   (* float division by zero *)
| IndexError          (* too many indices for an array *)
| TypeError           (* a scalar where VTK expects three values *)
| AttributeError.     (* an attribute of [None] *)

Inductive result (A : Type) : Type :=
| Ok (a : A)
| Raise (e : pyexc).
Arguments Ok {A} a.
Arguments Raise {A} e.

Definition bind {A B : Type} (m : result A) (k : A -> result B) : result B :=
  match m with
  | Ok a => k a
  | Raise e => Raise e
  end.

Notation "x <- m ;; k" := (bind m (fun x => k))
  (at level 61, m at next level, right associativity).

(** ** Strings, as [hybrid_scale_free_aligner.py] uses them *)

(** [str.lower()] on the ASCII letters of a VTK array name. *)
Definition lower_ascii (c : ascii) : ascii :=
  let n := nat_of_ascii c in
  if (65 <=? n)%nat && (n <=? 90)%nat then ascii_of_nat (n + 32) else c.

Fixpoint lower (s : string) : string :=
  match s with
  | EmptyString => EmptyString
  | String c s' => String (lower_ascii c) (lower s')
  end.

(** [sub in s]. *)
Fixpoint contains (sub s : string) : bool :=
  String.prefix sub s ||
  match s with
  | EmptyString => false
  | String _ s' => contains sub s'
  end.

(** One array of a mesh's point data, as the hybrid aligner reads it:
    [GetNumberOfComponents()] and [GetName()] ([None] when the array has
    no name). *)
Record point_array : Type := {
  n_components : Z;
  array_name : option string
}.

(** [array.GetName() if array.GetName() else f"Array_{i}"]. *)
Definition array_display_name (i : nat) (a : point_array) : string :=
  match array_name a with
  | Some (String c s') => String c s'
  | _ => ("Array_" ++ NilZero.string_of_uint (Nat.to_uint i))%string
  end.

(** The loop over the point-data arrays: [(has_colors, has_normals)].
    The first test reads [(n >= 3 and 'color' in name) or 'rgb' in name],
    as Python's precedence has it. *)
Fixpoint scan_point_arrays (i : nat) (arrays : list point_array)
    (has_colors has_normals : bool) : bool * bool :=
  match arrays with
  | [] => (has_colors, has_normals)
  | a :: rest =>
      let name := lower (array_display_name i a) in
      if ((3 <=? n_components a)%Z && contains "color" name) || contains "rgb" name
      then scan_point_arrays (S i) rest true has_normals
      else if (n_components a =? 3)%Z && contains "normal" name
      then scan_point_arrays (S i) rest has_colors true
      else scan_point_arrays (S i) rest has_colors has_normals
  end.

Inductive orientation : Set := standard | z_up | x_up | unknown.

(** The two alignment strategies. *)
Inductive method : Set := anatomical | ultimate.

Definition method_eq_dec (a b : method) : {a = b} + {a <> b}.
Proof. decide equality. Defined.

Section Numeric.
Context {T : Type} {N : Num T}.
Local Open Scope num_scope.

(** [a / b] on two Python floats. *)
Definition pydiv (a b : T) : result T :=
  if b =? of_Z 0 then Raise ZeroDivisionError else Ok (a / b).

(** The builtins [max(a, b)] and [min(a, b)]: the first argument is kept
    unless the second is strictly better. *)
Definition pymax (a b : T) : T := if b >? a then b else a.
Definition pymin (a b : T) : T := if b <? a then b else a.

(* ------------------------------------------------------------------ *)
(** ** numpy vectors and 3x3 matrices *)

Record vec3 : Type := V3 { vx : T; vy : T; vz : T }.

(** A 3x3 array, by rows. *)
Record mat3 : Type := M3 { row0 : vec3; row1 : vec3; row2 : vec3 }.

Definition vec_of_Z (x y z : Z) : vec3 := V3 (of_Z x) (of_Z y) (of_Z z).

Definition vadd (a b : vec3) : vec3 :=
  V3 (vx a + vx b) (vy a + vy b) (vz a + vz b).
Definition vsub (a b : vec3) : vec3 :=
  V3 (vx a - vx b) (vy a - vy b) (vz a - vz b).
Definition vneg (a : vec3) : vec3 := V3 (- vx a) (- vy a) (- vz a).
Definition vscale (s : T) (a : vec3) : vec3 :=
  V3 (s * vx a) (s * vy a) (s * vz a).
(** [a / s] for an array [a] and a scalar [s]. *)
Definition vdiv (a : vec3) (s : T) : vec3 :=
  V3 (vx a / s) (vy a / s) (vz a / s).

Definition dot (a b : vec3) : T := vx a * vx b + vy a * vy b + vz a * vz b.

(** [np.linalg.norm] of a 1-D array. *)
Definition norm (a : vec3) : T := sqrt (dot a a).

(** [np.cross]. *)
Definition cross (a b : vec3) : vec3 :=
  V3 (vy a * vz b - vz a * vy b)
     (vz a * vx b - vx a * vz b)
     (vx a * vy b - vy a * vx b).

(** [np.column_stack([a, b, c])]. *)
Definition column_stack (a b c : vec3) : mat3 :=
  M3 (V3 (vx a) (vx b) (vx c))
     (V3 (vy a) (vy b) (vy c))
     (V3 (vz a) (vz b) (vz c)).

Definition col0 (m : mat3) : vec3 := V3 (vx (row0 m)) (vx (row1 m)) (vx (row2 m)).
Definition col1 (m : mat3) : vec3 := V3 (vy (row0 m)) (vy (row1 m)) (vy (row2 m)).
Definition col2 (m : mat3) : vec3 := V3 (vz (row0 m)) (vz (row1 m)) (vz (row2 m)).

(** [m.T]. *)
Definition transpose (m : mat3) : mat3 := M3 (col0 m) (col1 m) (col2 m).

(** [a @ b] on two 3x3 arrays. *)
Definition matmul (a b : mat3) : mat3 :=
  M3 (V3 (dot (row0 a) (col0 b)) (dot (row0 a) (col1 b)) (dot (row0 a) (col2 b)))
     (V3 (dot (row1 a) (col0 b)) (dot (row1 a) (col1 b)) (dot (row1 a) (col2 b)))
     (V3 (dot (row2 a) (col0 b)) (dot (row2 a) (col1 b)) (dot (row2 a) (col2 b))).

(** A 3x3 array applied to a vector. *)
Definition matvec (m : mat3) (v : vec3) : vec3 :=
  V3 (dot (row0 m) v) (dot (row1 m) v) (dot (row2 m) v).

Definition mscale (s : T) (m : mat3) : mat3 :=
  M3 (vscale s (row0 m)) (vscale s (row1 m)) (vscale s (row2 m)).

Definition identity3 : mat3 :=
  M3 (vec_of_Z 1 0 0) (vec_of_Z 0 1 0) (vec_of_Z 0 0 1).

Definition det (m : mat3) : T := dot (row0 m) (cross (row1 m) (row2 m)).

(** Euclidean distance between two points. *)
Definition dist (p q : vec3) : T := norm (vsub p q).

Definition msub (a b : mat3) : mat3 :=
  M3 (vsub (row0 a) (row0 b)) (vsub (row1 a) (row1 b)) (vsub (row2 a) (row2 b)).

(** The Frobenius norm, [np.linalg.norm] of a 2-D array. *)
Definition frobenius (m : mat3) : T :=
  sqrt (dot (row0 m) (row0 m) + dot (row1 m) (row1 m) + dot (row2 m) (row2 m)).

(** NaN is the one value that differs from itself. *)
Definition is_nan (x : T) : bool := negb (x =? x).
Definition vec_has_nan (v : vec3) : bool :=
  is_nan (vx v) || is_nan (vy v) || is_nan (vz v).
Definition mat_has_nan (m : mat3) : bool :=
  vec_has_nan (row0 m) || vec_has_nan (row1 m) || vec_has_nan (row2 m).

Definition vec_eqb (a b : vec3) : bool :=
  (vx a =? vx b) && (vy a =? vy b) && (vz a =? vz b).
Definition mat_eqb (a b : mat3) : bool :=
  vec_eqb (row0 a) (row0 b) && vec_eqb (row1 a) (row1 b) && vec_eqb (row2 a) (row2 b).

(* ------------------------------------------------------------------ *)
(** ** [anatomical_aligner.py] *)

(** [AnatomicalAligner.__init__]: the target frame. *)
Record anatomical_frame : Type := {
  center : vec3;
  nose_direction : vec3;
  up_direction : vec3;
  right_direction : vec3
}.

Definition anatomical_standard : anatomical_frame := {|
  center := vec_of_Z 0 0 0;
  nose_direction := vec_of_Z 0 0 1;
  up_direction := vec_of_Z 0 1 0;
  right_direction := vec_of_Z 1 0 0
|}.

(** [AnatomicalAligner.calculate_rotation_matrix]. *)
Definition calculate_rotation_matrix (from_nose from_up to_nose to_up : vec3) : mat3 :=
  (* Normalize vectors *)
  let from_nose := vdiv from_nose (norm from_nose) in
  let from_up := vdiv from_up (norm from_up) in
  let to_nose := vdiv to_nose (norm to_nose) in
  let to_up := vdiv to_up (norm to_up) in
  (* Create orthogonal coordinate systems *)
  let from_right := cross from_up from_nose in
  let from_right := vdiv from_right (norm from_right) in
  let from_up := cross from_nose from_right in
  let to_right := cross to_up to_nose in
  let to_right := vdiv to_right (norm to_right) in
  let to_up := cross to_nose to_right in
  (* Build transformation matrices *)
  let from_matrix := column_stack from_right from_up from_nose in
  let to_matrix := column_stack to_right to_up to_nose in
  matmul to_matrix (transpose from_matrix).

(** The six numbers of [mesh.GetBounds()]:
    [bounds[0]] ... [bounds[5]] are [xmin xmax ymin ymax zmin zmax]. *)
Record bounds6 : Type := Bounds {
  xmin : T; xmax : T; ymin : T; ymax : T; zmin : T; zmax : T
}.

(** What the sources read from the [vtkPolyData] that [vtkPLYReader]
    returns: the points, [GetBounds()] and the point-data arrays.  VTK is
    outside the repository; its bounds are taken as reported. *)
Record mesh : Type := {
  points : list vec3;
  mesh_bounds : bounds6;
  point_data : list point_array
}.

Record extremal_points : Type := {
  x_min : vec3; x_max : vec3;
  y_min : vec3; y_max : vec3;
  z_min : vec3; z_max : vec3
}.

Record anatomy : Type := {
  orientation_guess : orientation;
  estimated_nose_dir : vec3;
  estimated_up_dir : vec3;
  nose_candidate : vec3;
  head_top_candidate : vec3;
  extremes : extremal_points;
  dimensions : vec3          (* 'x', 'y', 'z' ranges *)
}.

(** [vertices[np.argmin(vertices[:, k])]] and its [argmax] twin: the row
    at the first index where column [k] is extremal.  On the 1-D array
    that an empty point list gives, [vertices[:, k]] raises. *)
Fixpoint row_at_best (better : T -> T -> bool) (key : vec3 -> T)
    (best : vec3) (vs : list vec3) : vec3 :=
  match vs with
  | [] => best
  | v :: vs' =>
      row_at_best better key (if better (key v) (key best) then v else best) vs'
  end.

Definition row_at_argmin (key : vec3 -> T) (vertices : list vec3) : result vec3 :=
  match vertices with
  | [] => Raise IndexError
  | v :: vs => Ok (row_at_best (fun a b => a <? b) key v vs)
  end.

Definition row_at_argmax (key : vec3 -> T) (vertices : list vec3) : result vec3 :=
  match vertices with
  | [] => Raise IndexError
  | v :: vs => Ok (row_at_best (fun a b => a >? b) key v vs)
  end.

(** The orientation branch of [detect_anatomical_features] (step 3):
    guess, estimated nose direction, estimated up direction. *)
Definition estimate_orientation (x_range y_range z_range : T)
    : orientation * vec3 * vec3 :=
  if (y_range >? x_range) && (x_range >? z_range) then
    (standard, vec_of_Z 0 0 1, vec_of_Z 0 1 0)
  else if (z_range >? y_range) && (y_range >? x_range) then
    (z_up, vec_of_Z 1 0 0, vec_of_Z 0 0 1)
  else if (x_range >? z_range) && (z_range >? y_range) then
    (x_up, vec_of_Z 0 1 0, vec_of_Z 1 0 0)
  else
    (unknown, vec_of_Z 0 0 1, vec_of_Z 0 1 0).

(** [AnatomicalAligner.detect_anatomical_features]. *)
Definition detect_anatomical_features (vertices : list vec3) (bounds : bounds6)
    : result anatomy :=
  let x_range := xmax bounds - xmin bounds in
  let y_range := ymax bounds - ymin bounds in
  let z_range := zmax bounds - zmin bounds in
  (* Find extremal points *)
  e_x_min <- row_at_argmin vx vertices ;;
  e_x_max <- row_at_argmax vx vertices ;;
  e_y_min <- row_at_argmin vy vertices ;;
  e_y_max <- row_at_argmax vy vertices ;;
  e_z_min <- row_at_argmin vz vertices ;;
  e_z_max <- row_at_argmax vz vertices ;;
  (* Estimate current orientation *)
  let '(guess, nose_dir, up_dir) := estimate_orientation x_range y_range z_range in
  (* Find probable nose tip and top of head *)
  let '(nose, head_top) :=
    match guess with
    | standard => (e_z_max, e_y_max)
    | z_up => (e_x_max, e_z_max)
    | x_up => (e_y_max, e_x_max)
    | unknown => (e_z_max, e_y_max)
    end in
  Ok {| orientation_guess := guess;
        estimated_nose_dir := nose_dir;
        estimated_up_dir := up_dir;
        nose_candidate := nose;
        head_top_candidate := head_top;
        extremes := {| x_min := e_x_min; x_max := e_x_max;
                       y_min := e_y_min; y_max := e_y_max;
                       z_min := e_z_min; z_max := e_z_max |};
        dimensions := V3 x_range y_range z_range |}.

(** [np.mean(vertices, axis=0)]. *)
Definition vmean (vertices : list vec3) : vec3 :=
  vdiv (fold_left vadd vertices (vec_of_Z 0 0 0))
       (of_Z (Z.of_nat (List.length vertices))).

Record ply_analysis : Type := {
  pa_vertices : list vec3;
  pa_center : vec3;
  pa_bounds : bounds6;
  pa_anatomy : anatomy
}.

(** [AnatomicalAligner.analyze_ply_anatomy], from the loaded mesh on. *)
Definition analyze_ply_anatomy (m : mesh) : result ply_analysis :=
  let vertices := points m in
  let bounds := mesh_bounds m in
  let c := vmean vertices in
  a <- detect_anatomical_features vertices bounds ;;
  Ok {| pa_vertices := vertices;
        pa_center := c;
        pa_bounds := bounds;
        pa_anatomy := a |}.

Record transform_params : Type := {
  translation : vec3;
  rotation_matrix : mat3;
  scale_factor : T;
  anatomy_guess : orientation
}.

Definition target_face_height : T := of_Z 190.

(** [AnatomicalAligner.calculate_anatomical_transform].  The bounds are a
    tuple of Python floats, so the scale is a Python division. *)
Definition calculate_anatomical_transform (a : ply_analysis) : result transform_params :=
  let current_center := pa_center a in
  let an := pa_anatomy a in
  (* Step 1: Translation to center at origin *)
  let tr := vneg current_center in
  (* Step 2: Determine rotation needed *)
  let rot := calculate_rotation_matrix
               (estimated_nose_dir an) (estimated_up_dir an)
               (nose_direction anatomical_standard)
               (up_direction anatomical_standard) in
  (* Step 3: Calculate appropriate scale *)
  let bounds := pa_bounds a in
  let current_face_height := ymax bounds - ymin bounds in
  s <- pydiv target_face_height (abs current_face_height) ;;
  Ok {| translation := tr;
        rotation_matrix := rot;
        scale_factor := s;
        anatomy_guess := orientation_guess an |}.

(** *** [vtkTransform]

    VTK is outside the repository.  A [vtkTransform] is kept as the affine
    map [p |-> linear p + offset] that its homogeneous matrix denotes; in
    [PostMultiply] mode every new operation acts after the ones already
    recorded. *)
Record vtkTransform : Type := {
  linear : mat3;
  offset : vec3
}.

Definition vtk_new : vtkTransform :=
  {| linear := identity3; offset := vec_of_Z 0 0 0 |}.

Definition vtk_Translate (t : vec3) (tr : vtkTransform) : vtkTransform :=
  {| linear := linear tr; offset := vadd (offset tr) t |}.

(** [Concatenate] of the 4x4 matrix whose upper-left block is [m] and
    whose other entries are the identity's. *)
Definition vtk_Concatenate (m : mat3) (tr : vtkTransform) : vtkTransform :=
  {| linear := matmul m (linear tr); offset := matvec m (offset tr) |}.

Definition vtk_Scale (s : T) (tr : vtkTransform) : vtkTransform :=
  {| linear := mscale s (linear tr); offset := vscale s (offset tr) |}.

Definition vtk_TransformPoint (tr : vtkTransform) (p : vec3) : vec3 :=
  vadd (matvec (linear tr) p) (offset tr).

(** What the two alignment functions return, as far as it is modelled:
    the ['transform_params'].  The entries ['final_center'] and
    ['final_bounds'] are read back from the mesh that VTK's transform,
    cleaning and normal filters produce, which is outside the model. *)
Record alignment_result : Type := {
  ar_transform_params : transform_params
}.

(** The transform that [apply_anatomical_alignment] builds from the
    parameters: translate, then rotate, then scale. *)
Definition anatomical_vtk_transform (p : transform_params) : vtkTransform :=
  vtk_Scale (scale_factor p)
    (vtk_Concatenate (rotation_matrix p)
       (vtk_Translate (translation p) vtk_new)).

(** [AnatomicalAligner.apply_anatomical_alignment]: analysis and
    transform parameters.  The transform handed to the transform filter
    is [anatomical_vtk_transform] of the parameters; the filters and the
    writer that make the aligned file from it are not modelled. *)
Definition apply_anatomical_alignment (m : mesh) : result alignment_result :=
  a <- analyze_ply_anatomy m ;;
  p <- calculate_anatomical_transform a ;;
  Ok {| ar_transform_params := p |}.

(* ------------------------------------------------------------------ *)
(** ** [scale_free_aligner.py] *)

(** [ScaleFreeAligner.calculate_anatomical_transform_no_scale]. *)
Definition calculate_anatomical_transform_no_scale (a : ply_analysis) : transform_params :=
  let an := pa_anatomy a in
  let current_center := pa_center a in
  (* Step 1: Translation to center *)
  let target_center := center anatomical_standard in
  let tr := vsub target_center current_center in
  (* Step 2: Calculate rotation only *)
  let rot := calculate_rotation_matrix
               (estimated_nose_dir an) (estimated_up_dir an)
               (nose_direction anatomical_standard)
               (up_direction anatomical_standard) in
  {| translation := tr;
     rotation_matrix := rot;
     scale_factor := of_Z 1;
     anatomy_guess := orientation_guess an |}.

(** The transform of [apply_scale_free_alignment]: translation and
    rotation only, no [Scale] call. *)
Definition scale_free_vtk_transform (p : transform_params) : vtkTransform :=
  vtk_Concatenate (rotation_matrix p)
    (vtk_Translate (translation p) vtk_new).

(** [ScaleFreeAligner.apply_scale_free_alignment]: analysis and
    transform parameters.  The transform handed to the transform filter
    is [scale_free_vtk_transform] of the parameters; the filters and the
    writer that make the aligned file from it are not modelled. *)
Definition apply_scale_free_alignment (m : mesh) : result alignment_result :=
  a <- analyze_ply_anatomy m ;;
  let p := calculate_anatomical_transform_no_scale a in
  Ok {| ar_transform_params := p |}.


(* ------------------------------------------------------------------ *)
(** ** [hybrid_scale_free_aligner.py] *)

Record characteristics : Type := {
  ch_n_points : Z;
  ch_width : T;
  ch_height : T;
  ch_depth : T;
  ch_center : vec3;
  ch_diagonal : T;
  ch_aspect_ratios : T * T * T;
  ch_max_aspect_ratio : T;
  ch_is_standard_face : bool;
  ch_vertex_density : T;
  ch_n_arrays : nat;
  ch_has_colors : bool;
  ch_has_normals : bool;
  ch_bounds : bounds6
}.

(** [HybridScaleFreeAligner.analyze_ply_characteristics], from the loaded
    mesh on.  Width, height and depth are Python floats: the three aspect
    ratios are Python divisions.  The diagonal is a numpy scalar. *)
Definition analyze_ply_characteristics (m : mesh) : result characteristics :=
  let n_points := Z.of_nat (List.length (points m)) in
  let bounds := mesh_bounds m in
  let c := vmean (points m) in
  (* Calculate dimensions *)
  let width := xmax bounds - xmin bounds in
  let height := ymax bounds - ymin bounds in
  let depth := zmax bounds - zmin bounds in
  let diagonal := sqrt (width * width + height * height + depth * depth) in
  (* Analyze point data *)
  let n_arrays := List.length (point_data m) in
  let '(has_colors, has_normals) := scan_point_arrays 0 (point_data m) false false in
  (* Analyze shape characteristics *)
  r_wh <- pydiv (pymax width height) (pymin width height) ;;
  r_wd <- pydiv (pymax width depth) (pymin width depth) ;;
  r_hd <- pydiv (pymax height depth) (pymin height depth) ;;
  let max_aspect_ratio := pymax (pymax r_wh r_wd) r_hd in
  (* Face orientation analysis *)
  let is_standard_face :=
    ((height >? width) && (width >? depth)) && (max_aspect_ratio <? of_Z 2) in
  (* Complexity analysis *)
  let vertex_density :=
    if diagonal >? of_Z 0 then of_Z n_points / (diagonal * diagonal) else of_Z 0 in
  Ok {| ch_n_points := n_points;
        ch_width := width; ch_height := height; ch_depth := depth;
        ch_center := c;
        ch_diagonal := diagonal;
        ch_aspect_ratios := (r_wh, r_wd, r_hd);
        ch_max_aspect_ratio := max_aspect_ratio;
        ch_is_standard_face := is_standard_face;
        ch_vertex_density := vertex_density;
        ch_n_arrays := n_arrays;
        ch_has_colors := has_colors;
        ch_has_normals := has_normals;
        ch_bounds := bounds |}.

(** The entries of [factors['reasons']], one constructor per message. *)
Inductive reason : Set :=
| StandardFaceOrientation   (* Anatomical +3 *)
| NonStandardOrientation    (* Ultimate +2 *)
| GoodProportions           (* Anatomical +2 *)
| ExtremeProportions        (* Ultimate +3 *)
| HighVertexDensity         (* Anatomical +1 *)
| LowVertexDensity          (* Ultimate +1 *)
| RichData                  (* Anatomical +2 *)
| MinimalData               (* Ultimate +1 *)
| StandardFaceSize          (* Anatomical +1 *)
| UnusualSize.              (* Ultimate +2 *)

Record factors : Type := {
  anatomical_score : Z;
  ultimate_score : Z;
  reasons : list reason
}.

Definition anatomical_plus (k : Z) (r : reason) (f : factors) : factors :=
  {| anatomical_score := (anatomical_score f + k)%Z;
     ultimate_score := ultimate_score f;
     reasons := reasons f ++ [r] |}.

Definition ultimate_plus (k : Z) (r : reason) (f : factors) : factors :=
  {| anatomical_score := anatomical_score f;
     ultimate_score := (ultimate_score f + k)%Z;
     reasons := reasons f ++ [r] |}.

(** The five factors of [select_optimal_method], in the order applied. *)
Definition score_factors (a : characteristics) : factors :=
  let f := {| anatomical_score := 0%Z; ultimate_score := 0%Z; reasons := [] |} in
  (* Factor 1: Face orientation *)
  let f := if ch_is_standard_face a
           then anatomical_plus 3 StandardFaceOrientation f
           else ultimate_plus 2 NonStandardOrientation f in
  (* Factor 2: Aspect ratio *)
  let f := if ch_max_aspect_ratio a <? of_Z 3 / of_Z 2
           then anatomical_plus 2 GoodProportions f
           else if ch_max_aspect_ratio a >? of_Z 3
           then ultimate_plus 3 ExtremeProportions f
           else f in
  (* Factor 3: Point density *)
  let f := if ch_vertex_density a >? of_Z 100
           then anatomical_plus 1 HighVertexDensity f
           else if ch_vertex_density a <? of_Z 10
           then ultimate_plus 1 LowVertexDensity f
           else f in
  (* Factor 4: Data complexity *)
  let f := if ch_has_colors a && ch_has_normals a
           then anatomical_plus 2 RichData f
           else if Nat.eqb (ch_n_arrays a) 0
           then ultimate_plus 1 MinimalData f
           else f in
  (* Factor 5: Size (diagonal) *)
  let f := if (of_Z 100 <? ch_diagonal a) && (ch_diagonal a <? of_Z 300)
           then anatomical_plus 1 StandardFaceSize f
           else if (ch_diagonal a >? of_Z 500) || (ch_diagonal a <? of_Z 50)
           then ultimate_plus 2 UnusualSize f
           else f in
  f.

(** [HybridScaleFreeAligner.select_optimal_method]. *)
Definition select_optimal_method (a : characteristics) : method * factors :=
  let f := score_factors a in
  let selected_method :=
    if (ultimate_score f <=? anatomical_score f)%Z then anatomical else ultimate in
  (selected_method, f).

(* ------------------------------------------------------------------ *)
(** ** [eyuptest.py] *)

(** [ComprehensivePLYTestSuite.__init__]: performance thresholds. *)
Definition excellent_threshold : T := of_Z 10.
Definition good_threshold : T := of_Z 100.
Definition poor_threshold : T := of_Z 10000.

(** The status strings of [classify_performance]; the display label that
    is returned with each is a function of the status. *)
Inductive tier : Set := excellent | very_good | good | poor.

(** [ComprehensivePLYTestSuite.classify_performance]. *)
Definition classify_performance (ransac_error : T) : tier :=
  if ransac_error <? excellent_threshold then excellent
  else if ransac_error <? good_threshold then very_good
  else if ransac_error <? poor_threshold then good
  else poor.

(** The ['performance_breakdown'] of [save_results] over the
    [best_ransac] values of the successful results: the numbers of
    excellent, very good, good and poor entries. *)
Definition performance_breakdown (ransac_errors : list T) : nat * nat * nat * nat :=
  let count (f : T -> bool) := List.length (filter f ransac_errors) in
  (count (fun r => r <? of_Z 10),
   count (fun r => (of_Z 10 <=? r) && (r <? of_Z 100)),
   count (fun r => (of_Z 100 <=? r) && (r <? of_Z 10000)),
   count (fun r => r >=? of_Z 10000)).

Record file_info : Type := {
  filename : string;
  file_number : Z;
  category : string
}.

(** What [test_anatomical_method] and [test_ultimate_method] return:
    ['success': True] with the parsed RANSAC error (and, for the
    anatomical method, the scale factor and orientation guess), or
    ['success': False] with an error message. *)
Inductive test_outcome : Type :=
| Succeeded (ransac_error : T) (details : option (T * orientation))
| Failed (error : string).

(** An entry ['anatomical_result'] or ['ultimate_result']. *)
Record attempt : Type := {
  at_ransac_error : T;
  at_status : tier;
  at_details : option (T * orientation)
}.

Inductive recommendation : Type :=
| UseAnatomicalExcellent
| UseAnatomical (ransac : T)
| UseUltimate (ransac improvement : T)
| UseAnatomicalUltimateFailed
| UseUltimateAnatomicalFailed
| BothMethodsFailed.

Record hybrid_result : Type := {
  hr_file : string;
  hr_file_number : Z;
  hr_category : string;
  hr_anatomical_result : option attempt;
  hr_ultimate_result : option attempt;
  hr_best_method : option method;
  hr_best_ransac : option T;
  hr_best_performance : option tier;
  hr_needs_optimization : bool;
  hr_recommendation : option recommendation
}.

Definition set_anatomical_result (a : attempt) (r : hybrid_result) : hybrid_result :=
  {| hr_file := hr_file r; hr_file_number := hr_file_number r;
     hr_category := hr_category r;
     hr_anatomical_result := Some a;
     hr_ultimate_result := hr_ultimate_result r;
     hr_best_method := hr_best_method r;
     hr_best_ransac := hr_best_ransac r;
     hr_best_performance := hr_best_performance r;
     hr_needs_optimization := hr_needs_optimization r;
     hr_recommendation := hr_recommendation r |}.

Definition set_ultimate_result (a : attempt) (r : hybrid_result) : hybrid_result :=
  {| hr_file := hr_file r; hr_file_number := hr_file_number r;
     hr_category := hr_category r;
     hr_anatomical_result := hr_anatomical_result r;
     hr_ultimate_result := Some a;
     hr_best_method := hr_best_method r;
     hr_best_ransac := hr_best_ransac r;
     hr_best_performance := hr_best_performance r;
     hr_needs_optimization := hr_needs_optimization r;
     hr_recommendation := hr_recommendation r |}.

Definition set_best (m : method) (ransac : T) (perf : tier) (rec : recommendation)
    (r : hybrid_result) : hybrid_result :=
  {| hr_file := hr_file r; hr_file_number := hr_file_number r;
     hr_category := hr_category r;
     hr_anatomical_result := hr_anatomical_result r;
     hr_ultimate_result := hr_ultimate_result r;
     hr_best_method := Some m;
     hr_best_ransac := Some ransac;
     hr_best_performance := Some perf;
     hr_needs_optimization := hr_needs_optimization r;
     hr_recommendation := Some rec |}.

Definition set_needs_optimization (r : hybrid_result) : hybrid_result :=
  {| hr_file := hr_file r; hr_file_number := hr_file_number r;
     hr_category := hr_category r;
     hr_anatomical_result := hr_anatomical_result r;
     hr_ultimate_result := hr_ultimate_result r;
     hr_best_method := hr_best_method r;
     hr_best_ransac := hr_best_ransac r;
     hr_best_performance := hr_best_performance r;
     hr_needs_optimization := true;
     hr_recommendation := hr_recommendation r |}.

Definition set_recommendation (rec : recommendation) (r : hybrid_result) : hybrid_result :=
  {| hr_file := hr_file r; hr_file_number := hr_file_number r;
     hr_category := hr_category r;
     hr_anatomical_result := hr_anatomical_result r;
     hr_ultimate_result := hr_ultimate_result r;
     hr_best_method := hr_best_method r;
     hr_best_ransac := hr_best_ransac r;
     hr_best_performance := hr_best_performance r;
     hr_needs_optimization := hr_needs_optimization r;
     hr_recommendation := Some rec |}.

(** "Determine best method" and "Check if needs optimization": the tail
    of [test_single_file_hybrid], run once both entries are settled. *)
Definition determine_best_method (r : hybrid_result) : hybrid_result :=
  let r :=
    match hr_anatomical_result r, hr_ultimate_result r with
    | Some a, Some u =>
        let anat_ransac := at_ransac_error a in
        let ult_ransac := at_ransac_error u in
        if anat_ransac <=? ult_ransac then
          set_best anatomical anat_ransac (at_status a) (UseAnatomical anat_ransac) r
        else
          let improvement :=
            if ult_ransac >? of_Z 0 then anat_ransac / ult_ransac else of_Z 1 in
          set_best ultimate ult_ransac (at_status u) (UseUltimate ult_ransac improvement) r
    | Some a, None =>
        set_best anatomical (at_ransac_error a) (at_status a) UseAnatomicalUltimateFailed r
    | None, Some u =>
        set_best ultimate (at_ransac_error u) (at_status u) UseUltimateAnatomicalFailed r
    | None, None =>
        set_needs_optimization (set_recommendation BothMethodsFailed r)
    end in
  (* a Python float is true unless it is zero *)
  match hr_best_ransac r with
  | Some b =>
      if negb (b =? of_Z 0) && (b >? good_threshold)
      then set_needs_optimization r else r
  | None => r
  end.

Section TestSuite.

(** The two method runs: alignment of the file, the external predictor
    and the parse of its output.  The predictor is outside the
    repository, so both are taken as given. *)
Variable test_anatomical_method : file_info -> test_outcome.
Variable test_ultimate_method : file_info -> test_outcome.

(** [ComprehensivePLYTestSuite.test_single_file_hybrid]: the result, and
    the methods that were run, in order. *)
Definition test_single_file_hybrid (fi : file_info) : hybrid_result * list method :=
  let result :=
    {| hr_file := filename fi; hr_file_number := file_number fi;
       hr_category := category fi;
       hr_anatomical_result := None; hr_ultimate_result := None;
       hr_best_method := None; hr_best_ransac := None;
       hr_best_performance := None;
       hr_needs_optimization := false; hr_recommendation := None |} in
  (* Test anatomical method first *)
  let anatomical_result := test_anatomical_method fi in
  let run := [anatomical] in
  let '(result, returned) :=
    match anatomical_result with
    | Succeeded ransac details =>
        let status := classify_performance ransac in
        let result :=
          set_anatomical_result
            {| at_ransac_error := ransac; at_status := status;
               at_details := details |} result in
        (* If anatomical is excellent, no need to test ultimate *)
        match status with
        | excellent =>
            (set_best anatomical ransac status UseAnatomicalExcellent result, true)
        | _ => (result, false)
        end
    | Failed _ => (result, false)
    end in
  if returned then (result, run) else
  (* Test ultimate method *)
  let ultimate_result := test_ultimate_method fi in
  let run := run ++ [ultimate] in
  let result :=
    match ultimate_result with
    | Succeeded ransac details =>
        set_ultimate_result
          {| at_ransac_error := ransac;
             at_status := classify_performance ransac;
             at_details := None |} result
    | Failed _ => result
    end in
  (determine_best_method result, run).

End TestSuite.

(* ------------------------------------------------------------------ *)
(** ** Vocabulary of the statements *)

(** The unit "right" vector that [calculate_rotation_matrix] derives from
    a normalised (nose, up) pair, and the up vector it re-derives from it. *)
Definition unit_right (nose up : vec3) : vec3 :=
  vdiv (cross up nose) (norm (cross up nose)).
Definition rederived_up (nose up : vec3) : vec3 :=
  cross nose (unit_right nose up).

(** Two directions are parallel when their cross product vanishes. *)
Definition parallel (a b : vec3) : Prop := cross a b = vec_of_Z 0 0 0.

(** The extent of a mesh along the axis [d] (one of the unit axes). *)
Definition extent_along (d : vec3) (b : bounds6) : T :=
  dot d (V3 (xmax b - xmin b) (ymax b - ymin b) (zmax b - zmin b)).

(** Length of the diagonal of the bounding box. *)
Definition bounding_diagonal (b : bounds6) : T :=
  norm (V3 (xmax b - xmin b) (ymax b - ymin b) (zmax b - zmin b)).

(* ------------------------------------------------------------------ *)
(** ** [ultimate_ply_preprocessor.py] *)

(** A fresh [vtkTransform] is in [PreMultiply] mode: every new operation
    acts before the ones already recorded, on the incoming point. *)
Definition vtk_Translate_pre (t : vec3) (tr : vtkTransform) : vtkTransform :=
  {| linear := linear tr; offset := vadd (matvec (linear tr) t) (offset tr) |}.

Definition vtk_Scale_pre (s : T) (tr : vtkTransform) : vtkTransform :=
  {| linear := mscale s (linear tr); offset := offset tr |}.

(** [obj_diagonal / ply_diagonal]: both are numpy scalars. *)
Definition ultimate_scale_factor (obj ply : mesh) : T :=
  bounding_diagonal (mesh_bounds obj) / bounding_diagonal (mesh_bounds ply).

(** The transform of [align_ply_to_obj_system]: [Translate(-ply_center)],
    [Scale], [Translate(obj_center)] on a transform left in its default
    mode. *)
Definition ultimate_vtk_transform (obj ply : mesh) : vtkTransform :=
  let obj_center := vmean (points obj) in
  let ply_center := vmean (points ply) in
  let tr := vtk_Translate_pre (vneg ply_center) vtk_new in
  let scale_factor := ultimate_scale_factor obj ply in
  let tr := vtk_Scale_pre scale_factor tr in
  vtk_Translate_pre obj_center tr.

(** [align_ply_to_obj_system], from the two loaded meshes on: the points
    of the mesh it writes.  The mean of an empty vertex array is a scalar
    NaN, which [Translate] refuses: [Translate(-ply_center)] comes first,
    [Translate(obj_center)] last. *)
Definition align_ply_to_obj_system (obj ply : mesh) : result (list vec3) :=
  match points ply, points obj with
  | [], _ => Raise TypeError
  | _ :: _, [] => Raise TypeError
  | _ :: _, _ :: _ =>
      Ok (map (vtk_TransformPoint (ultimate_vtk_transform obj ply)) (points ply))
  end.

(* ------------------------------------------------------------------ *)
(** ** [ultimate_scale_free_preprocessor.py] *)

(** [rotation_matrix[:, -1] *= -1]. *)
Definition flip_last_column (m : mat3) : mat3 :=
  let flip (r : vec3) := V3 (vx r) (vy r) (vz r * - of_Z 1) in
  M3 (flip (row0 m)) (flip (row1 m)) (flip (row2 m)).

(** The part of [estimate_rotation_alignment] that follows the two PCA
    calls: [R = obj_axes @ ply_axes.T], with the last column negated when
    the determinant is negative. *)
Definition rotation_from_axes (ply_axes obj_axes : mat3) : mat3 :=
  let rotation_matrix := matmul obj_axes (transpose ply_axes) in
  if det rotation_matrix <? of_Z 0 then flip_last_column rotation_matrix
  else rotation_matrix.

Section UltimateScaleFree.

(** [compute_pca_axes]: numpy's covariance and eigen-decomposition, taken
    as given; [None] stands for an exception raised inside it. *)
Variable compute_pca_axes : list vec3 -> option mat3.

(** [UltimateScaleFreePreprocessor.estimate_rotation_alignment]: any
    exception is caught and gives [None]. *)
Definition estimate_rotation_alignment (ply_vertices obj_vertices : list vec3)
    : option mat3 :=
  match compute_pca_axes ply_vertices with
  | None => None
  | Some ply_axes =>
      match compute_pca_axes obj_vertices with
      | None => None
      | Some obj_axes => Some (rotation_from_axes ply_axes obj_axes)
      end
  end.

(** The transform of [align_ply_to_obj_system_scale_free], in
    [PostMultiply] mode, for the rotation matrix that was estimated:
    centre the mesh, rotate, move to the reference centre.  (The branch
    of the source that skips the rotation is never reached: see below.) *)
Definition ultimate_scale_free_vtk_transform (obj ply : mesh) (rotation_matrix : mat3)
    : vtkTransform :=
  let obj_center := vmean (points obj) in
  let ply_center := vmean (points ply) in
  (* 1. Center PLY to origin *)
  let tr := vtk_Translate (vneg ply_center) vtk_new in
  (* 2. Apply rotation *)
  let tr := vtk_Concatenate rotation_matrix tr in
  (* 4. Translate to OBJ center *)
  vtk_Translate obj_center tr.

(** The entries of the returned dictionary that do not depend on the
    mesh VTK's filters produce. *)
Record scale_free_report : Type := {
  original_scale_factor : T;
  applied_scale_factor : T;
  sf_translation : vec3;
  rotation_applied : bool
}.

(** [UltimateScaleFreePreprocessor.align_ply_to_obj_system_scale_free],
    from the two loaded meshes on.  Right after the estimate the source
    prints [rotation_matrix.shape], which raises [AttributeError] when
    the estimate is [None]; on an empty vertex array the centre is a
    scalar NaN, which [Translate] refuses.  The filters and the writer
    that make the aligned file from the transform are not modelled. *)
Definition align_ply_to_obj_system_scale_free (obj ply : mesh) : result scale_free_report :=
  let obj_center := vmean (points obj) in
  let ply_center := vmean (points ply) in
  (* Estimate rotation by comparing orientations *)
  match estimate_rotation_alignment (points ply) (points obj) with
  | None => Raise AttributeError
  | Some rotation_matrix =>
      match points ply, points obj with
      | [], _ => Raise TypeError
      | _ :: _, [] => Raise TypeError
      | _ :: _, _ :: _ =>
          Ok {| original_scale_factor := ultimate_scale_factor obj ply;
                applied_scale_factor := of_Z 1;
                sf_translation := vsub obj_center ply_center;
                rotation_applied := true |}
      end
  end.

(* ------------------------------------------------------------------ *)
(** ** [hybrid_scale_free_aligner.py], the dispatch *)

Record hybrid_alignment : Type := {
  method_used : method;
  ha_scale_factor : T
}.

(** [HybridScaleFreeAligner.apply_hybrid_scale_free_alignment], from the
    loaded mesh and the loaded reference on: analysis, selection, and the
    selected scale-free alignment.  Exceptions of the steps propagate. *)
Definition apply_hybrid_scale_free_alignment (obj ply : mesh) : result hybrid_alignment :=
  (* Step 1: Analyze PLY characteristics *)
  analysis <- analyze_ply_characteristics ply ;;
  (* Step 2: Select optimal method *)
  let '(selected_method, scoring) := select_optimal_method analysis in
  (* Step 3: Apply selected method *)
  match selected_method with
  | anatomical =>
      r <- apply_scale_free_alignment ply ;;
      Ok {| method_used := anatomical;
            ha_scale_factor := scale_factor (ar_transform_params r) |}
  | ultimate =>
      r <- align_ply_to_obj_system_scale_free obj ply ;;
      Ok {| method_used := ultimate;
            ha_scale_factor := applied_scale_factor r |}
  end.

End UltimateScaleFree.

(* ------------------------------------------------------------------ *)
(** ** [eyuptest.py], the two method runs and the reports *)

(** [str(e)] of the exceptions above, abridged; the text is stored in
    the ['error'] entry and no decision reads it. *)
Definition exception_message (e : pyexc) : string :=
  match e with
  | ZeroDivisionError => "float division by zero"
  | IndexError => "too many indices for array"
  | TypeError => "Translate argument 1"
  | AttributeError => "'NoneType' object has no attribute 'shape'"
  end.

Section MethodRuns.

(** Reading a file into a mesh and the reference mesh
    [assets/testmeshA.obj], taken as given. *)
Variable load_ply : file_info -> mesh.
Variable obj_reference : mesh.

(** What follows the alignment in the anatomical run, taken as given:
    VTK's transform filter with the given transform on the given mesh,
    the cleaning and normal filters, the writer, [predict.py] under the
    anatomical configuration and the parse of its output ([None]: no
    RANSAC error could be extracted). *)
Variable predict_anatomical : mesh -> vtkTransform -> option T.

(** [predict.py] under the ultimate configuration on the written points
    and the parse of its output, taken as given. *)
Variable predict_ultimate : list vec3 -> option T.

(** [ComprehensivePLYTestSuite.test_anatomical_method]. *)
Definition test_anatomical_method (fi : file_info) : test_outcome :=
  match apply_anatomical_alignment (load_ply fi) with
  | Ok res =>
      match predict_anatomical (load_ply fi)
              (anatomical_vtk_transform (ar_transform_params res)) with
      | Some ransac_error =>
          Succeeded ransac_error
            (Some (scale_factor (ar_transform_params res),
                   anatomy_guess (ar_transform_params res)))
      | None => Failed "Could not extract RANSAC"
      end
  | Raise e => Failed (exception_message e)
  end.

(** [ComprehensivePLYTestSuite.test_ultimate_method]. *)
Definition test_ultimate_method (fi : file_info) : test_outcome :=
  match align_ply_to_obj_system obj_reference (load_ply fi) with
  | Ok aligned =>
      match predict_ultimate aligned with
      | Some ransac_error => Succeeded ransac_error None
      | None => Failed "Could not extract RANSAC"
      end
  | Raise e => Failed (exception_message e)
  end.

(** The loop of [run_comprehensive_test]: one result per file, in order. *)
Definition run_comprehensive_test (all_files : list file_info) : list hybrid_result :=
  map (fun fi => fst (test_single_file_hybrid test_anatomical_method
                        test_ultimate_method fi)) all_files.

End MethodRuns.

(** [successful_results] of [generate_final_report] and [save_results]. *)
Definition successful_results (results : list hybrid_result) : list hybrid_result :=
  filter (fun r => match hr_best_ransac r with Some _ => true | None => false end)
         results.

(** [ransac_errors = [r['best_ransac'] for r in successful_results]]. *)
Definition ransac_errors (results : list hybrid_result) : list T :=
  flat_map (fun r => match hr_best_ransac r with Some b => [b] | None => [] end)
           results.

(** The tier lists of [generate_final_report], by the thresholds of the
    suite: their lengths. *)
Definition report_breakdown (results : list hybrid_result) : nat * nat * nat * nat :=
  let errors := ransac_errors results in
  let count (f : T -> bool) := List.length (filter f errors) in
  (count (fun r => r <? excellent_threshold),
   count (fun r => (excellent_threshold <=? r) && (r <? good_threshold)),
   count (fun r => (good_threshold <=? r) && (r <? poor_threshold)),
   count (fun r => r >=? poor_threshold)).

(** ['method_distribution']: the numbers of successful results whose best
    method is anatomical and ultimate. *)
Definition method_distribution (results : list hybrid_result) : nat * nat :=
  let count (m : method) :=
    List.length
      (filter (fun r => match hr_best_method r with
                        | Some m' => if method_eq_dec m' m then true else false
                        | None => false
                        end)
              (successful_results results)) in
  (count anatomical, count ultimate).

(** [poor_performers = [r for r in results if r['needs_optimization']]]. *)
Definition poor_performers (results : list hybrid_result) : list hybrid_result :=
  filter hr_needs_optimization results.

(* ------------------------------------------------------------------ *)
(** ** [hybrid_ply_processor.py] *)

(** The inline performance assessment of [process_single_file_hybrid]
    (and of [BatchAnatomicalProcessor.process_batch]). *)
Definition assess_performance (ransac_error : T) : tier :=
  if ransac_error <? of_Z 10 then excellent
  else if ransac_error <? of_Z 100 then very_good
  else if ransac_error <? of_Z 10000 then good
  else poor.

Record method_result : Type := {
  mr_ransac_error : T;
  mr_status : tier
}.

Record hybrid_outcome : Type := {
  ho_best_method : method;
  ho_best_result : method_result;
  ho_all_results : list (method * method_result);
  ho_improvement : option T
}.

(** [min(results.keys(), key=lambda k: results[k]['ransac_error'])] on a
    dictionary in insertion order: the first entry is kept until a later
    one has a strictly smaller error. *)
Fixpoint min_by_ransac (best : method * method_result)
    (rest : list (method * method_result)) : method * method_result :=
  match rest with
  | [] => best
  | e :: rest' =>
      min_by_ransac
        (if mr_ransac_error (snd e) <? mr_ransac_error (snd best) then e else best)
        rest'
  end.

Section HybridPLYProcessor.

(** The two alignment wrappers on the input file ([true]: ['success']),
    and [run_prediction] on the aligned file under the method's
    configuration ([None]: no RANSAC error, timeout or exception). *)
Variable apply_alignment : method -> bool.
Variable run_prediction : method -> option T.

(** The loop over [methods_to_try]: the entries of [results] in insertion
    order, and the methods whose alignment was attempted. *)
Fixpoint try_methods (methods_to_try : list method)
    (results : list (method * method_result)) (tried : list method)
    : list (method * method_result) * list method :=
  match methods_to_try with
  | [] => (results, tried)
  | m :: rest =>
      let tried := tried ++ [m] in
      if apply_alignment m then
        match run_prediction m with
        | Some ransac_error =>
            try_methods rest
              (results ++ [(m, {| mr_ransac_error := ransac_error;
                                  mr_status := assess_performance ransac_error |})])
              tried
        | None => try_methods rest results tried
        end
      else try_methods rest results tried
  end.

(** [HybridPLYProcessor.process_single_file_hybrid]: what it returns
    ([None] when no method succeeded) and the methods it tried. *)
Definition process_single_file_hybrid (force_method : option method)
    : option hybrid_outcome * list method :=
  let methods_to_try :=
    match force_method with
    | Some ultimate => [ultimate]
    | Some anatomical => [anatomical]
    | None => [anatomical; ultimate]
    end in
  let '(results, tried) := try_methods methods_to_try [] [] in
  match results with
  | first :: (_ :: _) as rest =>
      let best := min_by_ransac first rest in
      (Some {| ho_best_method := fst best;
               ho_best_result := snd best;
               ho_all_results := results;
               ho_improvement := Some (mr_ransac_error (snd (min_by_ransac first rest))) |},
       tried)
  | [only] =>
      (Some {| ho_best_method := fst only;
               ho_best_result := snd only;
               ho_all_results := results;
               ho_improvement := None |},
       tried)
  | [] => (None, tried)
  end.

End HybridPLYProcessor.

(* ------------------------------------------------------------------ *)
(** ** [batch_anatomical_processor.py] *)

Record batch_entry : Type := {
  be_input_path : string;
  be_category : string;
  be_scale_factor : T;
  be_anatomy_guess : orientation;
  be_ransac_error : T;
  be_status : tier
}.

Section BatchAnatomicalProcessor.

(** [os.path.exists] and reading a path into a mesh, taken as given; and
    what follows the alignment: VTK's transform filter with the given
    transform on the given mesh, the cleaning and normal filters, the
    writer and [run_prediction] on the file ([None]: prediction failed). *)
Variable path_exists : string -> bool.
Variable load_path : string -> mesh.
Variable run_prediction : mesh -> vtkTransform -> option T.

(** [BatchAnatomicalProcessor.process_batch]: a file that does not exist,
    whose alignment raises or whose prediction fails is skipped. *)
Fixpoint process_batch (input_files : list string) : list batch_entry :=
  match input_files with
  | [] => []
  | input_file :: rest =>
      if negb (path_exists input_file) then process_batch rest
      else
        (* Step 1: Anatomical alignment *)
        match apply_anatomical_alignment (load_path input_file) with
        | Raise _ => process_batch rest
        | Ok res =>
            (* Step 2: Prediction *)
            match run_prediction (load_path input_file)
                    (anatomical_vtk_transform (ar_transform_params res)) with
            | Some ransac_error =>
                {| be_input_path := input_file;
                   be_category :=
                     if contains "/men/" input_file then "men" else "women";
                   be_scale_factor := scale_factor (ar_transform_params res);
                   be_anatomy_guess := anatomy_guess (ar_transform_params res);
                   be_ransac_error := ransac_error;
                   be_status := assess_performance ransac_error |}
                :: process_batch rest
            | None => process_batch rest
            end
        end
  end.

End BatchAnatomicalProcessor.

(** The performance breakdown of [generate_comprehensive_report]: the
    numbers of entries of each status. *)
Definition status_breakdown (results : list batch_entry) : nat * nat * nat * nat :=
  let count (t : tier) :=
    List.length
      (filter (fun r => match be_status r, t with
                        | excellent, excellent | very_good, very_good
                        | good, good | poor, poor => true
                        | _, _ => false
                        end) results) in
  (count excellent, count very_good, count good, count poor).

End Numeric.

Arguments vec3 T : clear implicits.
Arguments mat3 T : clear implicits.
Arguments anatomical_frame T : clear implicits.
Arguments bounds6 T : clear implicits.
Arguments mesh T : clear implicits.
Arguments anatomy T : clear implicits.
Arguments extremal_points T : clear implicits.
Arguments ply_analysis T : clear implicits.
Arguments transform_params T : clear implicits.
Arguments vtkTransform T : clear implicits.
Arguments alignment_result T : clear implicits.
Arguments characteristics T : clear implicits.
Arguments test_outcome T : clear implicits.
Arguments attempt T : clear implicits.
Arguments recommendation T : clear implicits.
Arguments hybrid_result T : clear implicits.
Arguments scale_free_report T : clear implicits.
Arguments hybrid_alignment T : clear implicits.
Arguments method_result T : clear implicits.
Arguments hybrid_outcome T : clear implicits.
Arguments batch_entry T : clear implicits.

(* ------------------------------------------------------------------ *)
(** ** More vocabulary *)

(** The score deltas that the messages of the rationale announce:
    (anatomical, ultimate). *)
Definition reason_delta (r : reason) : Z * Z :=
  match r with
  | StandardFaceOrientation => (3, 0)
  | NonStandardOrientation => (0, 2)
  | GoodProportions => (2, 0)
  | ExtremeProportions => (0, 3)
  | HighVertexDensity => (1, 0)
  | LowVertexDensity => (0, 1)
  | RichData => (2, 0)
  | MinimalData => (0, 1)
  | StandardFaceSize => (1, 0)
  | UnusualSize => (0, 2)
  end%Z.

(** The two tests of the loop over the point-data arrays, on the array at
    index [i]. *)
Definition is_color_array (i : nat) (a : point_array) : bool :=
  let name := lower (array_display_name i a) in
  ((3 <=? n_components a)%Z && contains "color" name) || contains "rgb" name.

Definition is_normal_array (i : nat) (a : point_array) : bool :=
  let name := lower (array_display_name i a) in
  (n_components a =? 3)%Z && contains "normal" name.

Definition tier_eq_dec (a b : tier) : {a = b} + {a <> b}.
Proof. decide equality. Defined.

(** A matrix with orthonormal columns. *)
Definition orthogonal {T : Type} {N : Num T} (m : mat3 T) : Prop :=
  matmul (transpose m) m = identity3.

(* ------------------------------------------------------------------ *)
(** ** Example meshes *)

(** A two-vertex mesh lying in [z_up] position. *)
Definition z_up_segment : mesh R :=
  {| points := [V3 0 0 0; V3 1 2 3]%R;
     mesh_bounds := (Bounds 0 1 0 2 0 3)%R;
     point_data := [] |}.

(** A single vertex: every extent is zero.  At the reals and at
    binary64. *)
Definition single_point_R : mesh R :=
  {| points := [V3 1 2 3]%R;
     mesh_bounds := (Bounds 1 1 2 2 3 3)%R;
     point_data := [] |}.

Definition single_point : mesh float :=
  {| points := [V3 1 2 3]%float;
     mesh_bounds := (Bounds 1 1 2 2 3 3)%float;
     point_data := [] |}.

(** Scenario A: extents width 50, height 190, depth 40; two corner
    vertices and no point-data arrays. *)
Definition scenario_A : mesh float :=
  {| points := [V3 0 0 0; V3 50 190 40]%float;
     mesh_bounds := (Bounds 0 50 0 190 0 40)%float;
     point_data := [] |}.

(** A two-vertex mesh in [standard] position: height 3, width 2, depth 1. *)
Definition standard_segment : mesh R :=
  {| points := [V3 0 0 0; V3 2 3 1]%R;
     mesh_bounds := (Bounds 0 2 0 3 0 1)%R;
     point_data := [] |}.

(** A two-vertex mesh that is flat in Y but not degenerate: it extends
    in X and in Z. *)
Definition y_flat_segment : mesh float :=
  {| points := [V3 0 0 0; V3 1 0 2]%float;
     mesh_bounds := (Bounds 0 1 0 0 0 2)%float;
     point_data := [] |}.

(** Two vertices at distance 1 on the X axis, and a third one far out
    on it, at 2^57. *)
Definition far_vertex_mesh : mesh float :=
  {| points := [V3 1 0 0; V3 2 0 0; V3 0x1p57 0 0]%float;
     mesh_bounds := (Bounds 1 0x1p57 0 0 0 0)%float;
     point_data := [] |}.

(** A unit up vector that leaves the nose direction +X by 2^-600 in Y:
    the square of that component is below the smallest binary64 number. *)
Definition nearly_parallel_up : vec3 float := (V3 1 0x1p-600 0)%float.

(** Scenario C: the batch of errors. *)
Definition scenario_C : list float := [4.1; 65; 9999; 15; 80000]%float.
Definition scenario_C_R : list R := [4.1; 65; 9999; 15; 80000]%R.

(** A fixed file, and method runs with fixed outcomes. *)
Definition some_file : file_info :=
  {| filename := "1.ply"; file_number := 1; category := "men" |}.

Definition constant_run {T : Type} (o : test_outcome T) : file_info -> test_outcome T :=
  fun _ => o.

(* ================================================================== *)
(** * Properties *)

Unset Implicit Arguments.

(** ** Exact real arithmetic: vectors, matrices, frames *)

Ltac vsimp :=
  unfold matmul, transpose, matvec, column_stack, col0, col1, col2, det,
    cross, dot, vdiv, vsub, vadd, vneg, vscale, mscale, identity3, vec_of_Z in *;
  cbn in *.

Ltac by_components tac :=
  repeat match goal with
  | v : vec3 R |- _ => destruct v as [? ? ?]
  | m : mat3 R |- _ => destruct m as [? ? ?]
  end;
  vsimp;
  match goal with
  | |- @eq (mat3 _) _ _ => f_equal; f_equal; tac
  | |- @eq (vec3 _) _ _ => f_equal; tac
  | |- _ => tac
  end.

Section RealGeometry.
Local Open Scope R_scope.
Local Notation "'vec'" := (vec3 R).
Local Notation "'mat'" := (mat3 R).
Local Notation "'zero3'" := (vec_of_Z (T:=R) 0 0 0).

Lemma matmul_assoc (a b c : mat) : matmul (matmul a b) c = matmul a (matmul b c).
Proof. by_components ltac:(ring). Qed.

Lemma transpose_matmul (a b : mat) :
  transpose (matmul a b) = matmul (transpose b) (transpose a).
Proof. by_components ltac:(ring). Qed.

Lemma transpose_involutive (a : mat) : transpose (transpose a) = a.
Proof. by_components ltac:(ring). Qed.

Lemma matmul_identity_l (a : mat) : matmul identity3 a = a.
Proof. by_components ltac:(ring). Qed.

Lemma matmul_identity_r (a : mat) : matmul a identity3 = a.
Proof. by_components ltac:(ring). Qed.

Lemma det_matmul (a b : mat) : det (matmul a b) = det a * det b.
Proof. by_components ltac:(ring). Qed.

Lemma det_transpose (a : mat) : det (transpose a) = det a.
Proof. by_components ltac:(ring). Qed.

Lemma matvec_matmul (a b : mat) (v : vec) : matvec (matmul a b) v = matvec a (matvec b v).
Proof. by_components ltac:(ring). Qed.

Lemma vdiv_one (v : vec) : vdiv v 1 = v.
Proof. by_components ltac:(field). Qed.

Lemma dot_self_nonneg (v : vec) : 0 <= dot v v.
Proof. destruct v; vsimp; nra. Qed.

Lemma dot_self_pos (v : vec) : v <> zero3 -> 0 < dot v v.
Proof.
  intros Hv. destruct (Rle_lt_or_eq_dec _ _ (dot_self_nonneg v)) as [H|H]; [exact H|].
  exfalso; apply Hv. destruct v as [x y z]; vsimp.
  assert (x = 0) by nra. assert (y = 0) by nra. assert (z = 0) by nra. subst. reflexivity.
Qed.

Lemma norm_eq (v : vec) : norm v = R_sqrt.sqrt (dot v v).
Proof. reflexivity. Qed.

Lemma norm_one_dot (v : vec) : norm v = 1 -> dot v v = 1.
Proof.
  rewrite norm_eq. intros H.
  rewrite <- (sqrt_sqrt (dot v v) (dot_self_nonneg v)). rewrite H. ring.
Qed.

Lemma normalize_unit (v : vec) : norm v = 1 -> vdiv v (norm v) = v.
Proof. intros H; rewrite H. apply vdiv_one. Qed.

Lemma norm_pos (v : vec) : v <> zero3 -> 0 < norm v.
Proof. intros H. rewrite norm_eq. apply sqrt_lt_R0, dot_self_pos, H. Qed.

Lemma norm_sq (v : vec) : norm v * norm v = dot v v.
Proof. rewrite norm_eq. apply sqrt_sqrt, dot_self_nonneg. Qed.

Lemma dot_normalized (v : vec) : v <> zero3 -> dot (vdiv v (norm v)) (vdiv v (norm v)) = 1.
Proof.
  intros Hv. pose proof (norm_pos v Hv) as Hp. pose proof (norm_sq v) as Hs.
  set (s := norm v) in *. clearbody s. destruct v as [x y z]; vsimp.
  field_simplify_eq; [nra | lra].
Qed.

Lemma dot_vdiv_l (v w : vec) (s : R) : dot (vdiv v s) w = dot v w / s.
Proof. destruct v, w; vsimp. unfold Rdiv. ring. Qed.

Lemma dot_cross_right (a b : vec) : dot (cross a b) b = 0.
Proof. by_components ltac:(ring). Qed.

Lemma frame_rows (r n : vec) :
  dot r r = 1 -> dot n n = 1 -> dot r n = 0 ->
  let F := column_stack r (cross n r) n in
  matmul F (transpose F) = identity3.
Proof.
  destruct r as [r1 r2 r3], n as [n1 n2 n3]. vsimp. intros Hr Hn Hrn.
  f_equal; f_equal; nsatz.
Qed.

Lemma frame_cols (r n : vec) :
  dot r r = 1 -> dot n n = 1 -> dot r n = 0 ->
  let F := column_stack r (cross n r) n in
  matmul (transpose F) F = identity3.
Proof.
  destruct r as [r1 r2 r3], n as [n1 n2 n3]. vsimp. intros Hr Hn Hrn.
  f_equal; f_equal; nsatz.
Qed.

Lemma frame_det (r n : vec) :
  dot r r = 1 -> dot n n = 1 -> dot r n = 0 ->
  det (column_stack r (cross n r) n) = 1.
Proof.
  destruct r as [r1 r2 r3], n as [n1 n2 n3]. vsimp. intros Hr Hn Hrn.
  nsatz.
Qed.

Lemma unit_right_facts (nose up : vec) :
  norm nose = 1 -> cross up nose <> zero3 ->
  dot (unit_right nose up) (unit_right nose up) = 1 /\
  dot nose nose = 1 /\
  dot (unit_right nose up) nose = 0.
Proof.
  intros Hn Hc. split; [apply dot_normalized, Hc|]. split; [apply norm_one_dot, Hn|].
  unfold unit_right. rewrite dot_vdiv_l, dot_cross_right. unfold Rdiv. ring.
Qed.

Lemma calculate_rotation_matrix_unit (fn fu tn tu : vec) :
  norm fn = 1 -> norm fu = 1 -> norm tn = 1 -> norm tu = 1 ->
  calculate_rotation_matrix fn fu tn tu =
  matmul (column_stack (unit_right tn tu) (cross tn (unit_right tn tu)) tn)
         (transpose (column_stack (unit_right fn fu) (cross fn (unit_right fn fu)) fn)).
Proof.
  intros H1 H2 H3 H4. unfold calculate_rotation_matrix, unit_right.
  cbv zeta.
  rewrite (normalize_unit fn H1), (normalize_unit fu H2),
    (normalize_unit tn H3), (normalize_unit tu H4). reflexivity.
Qed.


Lemma frame_transpose_nose (r n : vec) :
  dot r r = 1 -> dot n n = 1 -> dot r n = 0 ->
  matvec (transpose (column_stack r (cross n r) n)) n = vec_of_Z 0 0 1.
Proof.
  destruct r as [r1 r2 r3], n as [n1 n2 n3]. vsimp. intros Hr Hn Hrn.
  f_equal; nsatz.
Qed.

Lemma frame_transpose_up (r n : vec) :
  dot r r = 1 -> dot n n = 1 -> dot r n = 0 ->
  matvec (transpose (column_stack r (cross n r) n)) (cross n r) = vec_of_Z 0 1 0.
Proof.
  destruct r as [r1 r2 r3], n as [n1 n2 n3]. vsimp. intros Hr Hn Hrn.
  f_equal; nsatz.
Qed.

Lemma column_stack_e3 (a b c : vec) : matvec (column_stack a b c) (vec_of_Z 0 0 1) = c.
Proof. by_components ltac:(ring). Qed.

Lemma column_stack_e2 (a b c : vec) : matvec (column_stack a b c) (vec_of_Z 0 1 0) = b.
Proof. by_components ltac:(ring). Qed.

Lemma dist_self (p : vec) : dist p p = 0.
Proof.
  unfold dist. rewrite norm_eq.
  replace (dot (vsub p p) (vsub p p)) with 0 by (destruct p; vsimp; ring).
  apply sqrt_0.
Qed.

Lemma frobenius_self (m : mat) : frobenius (msub m m) = 0.
Proof.
  unfold frobenius. change (@sqrt R Num_R) with R_sqrt.sqrt.
  match goal with |- R_sqrt.sqrt ?x = _ => replace x with 0 end.
  - apply sqrt_0.
  - destruct m as [[? ? ?] [? ? ?] [? ? ?]]. unfold msub. vsimp. ring.
Qed.

(** A rotation matrix built from two orthonormal frames is orthogonal on
    both sides and has determinant one. *)
Lemma frames_rotation (rf nf rt nt : vec) :
  dot rf rf = 1 -> dot nf nf = 1 -> dot rf nf = 0 ->
  dot rt rt = 1 -> dot nt nt = 1 -> dot rt nt = 0 ->
  let Rm := matmul (column_stack rt (cross nt rt) nt)
                   (transpose (column_stack rf (cross nf rf) nf)) in
  matmul Rm (transpose Rm) = identity3 /\
  matmul (transpose Rm) Rm = identity3 /\
  det Rm = 1.
Proof.
  intros Hf1 Hf2 Hf3 Ht1 Ht2 Ht3 Rm. subst Rm.
  set (Ft := column_stack rt (cross nt rt) nt).
  set (Ff := column_stack rf (cross nf rf) nf).
  pose proof (frame_rows rf nf Hf1 Hf2 Hf3) as Hfr.
  pose proof (frame_cols rf nf Hf1 Hf2 Hf3) as Hfc.
  pose proof (frame_rows rt nt Ht1 Ht2 Ht3) as Htr.
  pose proof (frame_cols rt nt Ht1 Ht2 Ht3) as Htc.
  cbv zeta in Hfr, Hfc, Htr, Htc. fold Ff in Hfr, Hfc. fold Ft in Htr, Htc.
  rewrite transpose_matmul, transpose_involutive. repeat split.
  - rewrite matmul_assoc, <- (matmul_assoc (transpose Ff)), Hfc, matmul_identity_l.
    exact Htr.
  - rewrite matmul_assoc, <- (matmul_assoc (transpose Ft)), Htc, matmul_identity_l.
    exact Hfr.
  - rewrite det_matmul, det_transpose. unfold Ft, Ff.
    rewrite !frame_det by assumption. ring.
Qed.

(** An orthogonal matrix keeps the length of every vector. *)
Lemma orthogonal_dot (m : mat) (v : vec) :
  matmul (transpose m) m = identity3 -> dot (matvec m v) (matvec m v) = dot v v.
Proof.
  intros H.
  assert (E : dot (matvec m v) (matvec m v) = dot v (matvec (matmul (transpose m) m) v))
    by (by_components ltac:(ring)).
  rewrite E, H. by_components ltac:(ring).
Qed.

End RealGeometry.

(* ------------------------------------------------------------------ *)
(** ** The rotation solver *)

Section RotationSolver.
Local Open Scope R_scope.

(** C5, as amended.  Over exact real arithmetic: for unit vectors
    [from_nose], [from_up], [to_nose], [to_up] with neither pair
    parallel, the matrix [R] that [calculate_rotation_matrix] returns
    satisfies [R Rt = I] and [det R = 1], sends [from_nose] to [to_nose]
    and the re-orthogonalised [from_up] to the re-orthogonalised [to_up];
    hence the Frobenius norm of [R Rt - I] is below every positive
    tolerance, [det R] lies in [1 - eps, 1 + eps], and the two images are
    within [eps] of their targets.  (At binary64 the solver has no guard
    against nearly parallel pairs: see the run further down.) *)
Theorem rotation_solver_is_rotation (from_nose from_up to_nose to_up : vec3 R) :
  norm from_nose = 1 -> norm from_up = 1 ->
  norm to_nose = 1 -> norm to_up = 1 ->
  ~ parallel from_up from_nose -> ~ parallel to_up to_nose ->
  let Rm := calculate_rotation_matrix from_nose from_up to_nose to_up in
  (matmul Rm (transpose Rm) = identity3 /\
   det Rm = 1 /\
   matvec Rm from_nose = to_nose /\
   matvec Rm (rederived_up from_nose from_up) = rederived_up to_nose to_up) /\
  (forall eps : R, 0 < eps ->
     frobenius (msub (matmul Rm (transpose Rm)) identity3) < eps /\
     1 - eps <= det Rm <= 1 + eps /\
     dist (matvec Rm from_nose) to_nose < eps /\
     dist (matvec Rm (rederived_up from_nose from_up))
          (rederived_up to_nose to_up) < eps).
Proof.
  intros Hfn Hfu Htn Htu Hpf Hpt Rm.
  destruct (unit_right_facts from_nose from_up Hfn Hpf) as (Hf1 & Hf2 & Hf3).
  destruct (unit_right_facts to_nose to_up Htn Hpt) as (Ht1 & Ht2 & Ht3).
  assert (E : Rm = matmul
                (column_stack (unit_right to_nose to_up)
                   (cross to_nose (unit_right to_nose to_up)) to_nose)
                (transpose
                   (column_stack (unit_right from_nose from_up)
                      (cross from_nose (unit_right from_nose from_up)) from_nose)))
    by (apply calculate_rotation_matrix_unit; assumption).
  destruct (frames_rotation _ _ _ _ Hf1 Hf2 Hf3 Ht1 Ht2 Ht3) as (Hrows & _ & Hdet).
  cbv zeta in Hrows, Hdet. rewrite <- E in Hrows, Hdet.
  assert (Hnose : matvec Rm from_nose = to_nose).
  { rewrite E, matvec_matmul, (frame_transpose_nose _ _ Hf1 Hf2 Hf3).
    apply column_stack_e3. }
  assert (Hup : matvec Rm (rederived_up from_nose from_up) = rederived_up to_nose to_up).
  { unfold rederived_up.
    rewrite E, matvec_matmul, (frame_transpose_up _ _ Hf1 Hf2 Hf3).
    apply column_stack_e2. }
  split; [repeat split; assumption|].
  intros eps Heps.
  rewrite Hrows, Hdet, Hnose, Hup, frobenius_self, !dist_self.
  repeat split; lra.
Qed.

(** The solver on the pair (nose +X, up +Z) of a [z_up] mesh and the
    anatomical standard. *)
Lemma rotation_solver_is_rotation_witness :
  let Rm := calculate_rotation_matrix (T:=R)
              (vec_of_Z 1 0 0) (vec_of_Z 0 0 1) (vec_of_Z 0 0 1) (vec_of_Z 0 1 0) in
  matmul Rm (transpose Rm) = identity3 /\ det Rm = 1.
Proof.
  assert (U : forall x y z : Z, (x * x + y * y + z * z = 1)%Z ->
              norm (vec_of_Z (T:=R) x y z) = 1).
  { intros x y z H. rewrite norm_eq.
    replace (dot (vec_of_Z (T:=R) x y z) (vec_of_Z x y z)) with (IZR (x * x + y * y + z * z)).
    - rewrite H. apply sqrt_1.
    - rewrite !plus_IZR, !mult_IZR. vsimp. ring. }
  assert (P : forall a b : vec3 R, vx (cross a b) <> 0 \/ vy (cross a b) <> 0 ->
              ~ parallel a b).
  { intros a b H E. unfold parallel in E. rewrite E in H. vsimp. lra. }
  destruct (rotation_solver_is_rotation
              (vec_of_Z 1 0 0) (vec_of_Z 0 0 1) (vec_of_Z 0 0 1) (vec_of_Z 0 1 0)
              (U 1 0 0 eq_refl)%Z (U 0 0 1 eq_refl)%Z (U 0 0 1 eq_refl)%Z (U 0 1 0 eq_refl)%Z)
    as ((H1 & H2 & _) & _).
  - apply P. right. vsimp. lra.
  - apply P. left. vsimp. lra.
  - split; assumption.
Defined.

End RotationSolver.

(* ------------------------------------------------------------------ *)
(** ** The orientation detector, at every number type *)

Section Detector.
Context {T : Type} {N : Num T}.

(** The detector only ever returns one of four fixed axis pairs. *)
Lemma estimate_orientation_cases (x y z : T) :
  estimate_orientation x y z = (standard, vec_of_Z 0 0 1, vec_of_Z 0 1 0) \/
  estimate_orientation x y z = (z_up, vec_of_Z 1 0 0, vec_of_Z 0 0 1) \/
  estimate_orientation x y z = (x_up, vec_of_Z 0 1 0, vec_of_Z 1 0 0) \/
  estimate_orientation x y z = (unknown, vec_of_Z 0 0 1, vec_of_Z 0 1 0).
Proof.
  unfold estimate_orientation.
  destruct (ltb x y && ltb z x); [now left|].
  destruct (ltb y z && ltb x y); [now right; left|].
  destruct (ltb z x && ltb y z); [now right; right; left|].
  now right; right; right.
Qed.

(** On a mesh with at least one vertex the detector returns, and its
    guess and directions are those of [estimate_orientation] on the three
    raw extents. *)
Lemma detect_anatomical_features_ok (v : vec3 T) (vs : list (vec3 T)) (b : bounds6 T) :
  exists a : anatomy T,
    detect_anatomical_features (v :: vs) b = Ok a /\
    (orientation_guess a, estimated_nose_dir a, estimated_up_dir a) =
      estimate_orientation (sub (xmax b) (xmin b)) (sub (ymax b) (ymin b))
                           (sub (zmax b) (zmin b)).
Proof.
  unfold detect_anatomical_features. cbn [row_at_argmin row_at_argmax bind].
  destruct (estimate_orientation _ _ _) as [[g n] u].
  destruct g; eexists; split; reflexivity.
Qed.

Lemma analyze_ply_anatomy_ok (m : mesh T) :
  points m <> [] ->
  exists a : ply_analysis T,
    analyze_ply_anatomy m = Ok a /\
    pa_center a = vmean (points m) /\
    pa_bounds a = mesh_bounds m /\
    (orientation_guess (pa_anatomy a), estimated_nose_dir (pa_anatomy a),
     estimated_up_dir (pa_anatomy a)) =
      estimate_orientation
        (sub (xmax (mesh_bounds m)) (xmin (mesh_bounds m)))
        (sub (ymax (mesh_bounds m)) (ymin (mesh_bounds m)))
        (sub (zmax (mesh_bounds m)) (zmin (mesh_bounds m))).
Proof.
  intros Hne. unfold analyze_ply_anatomy.
  destruct (points m) as [|v vs] eqn:Hp; [congruence|].
  destruct (detect_anatomical_features_ok v vs (mesh_bounds m)) as (a & Ha & Hg).
  rewrite Ha. cbn [bind]. eexists; repeat split; cbn; assumption.
Qed.

(** What a returned analysis holds. *)
Lemma analyze_ply_anatomy_fields (m : mesh T) (a : ply_analysis T) :
  analyze_ply_anatomy m = Ok a ->
  pa_center a = vmean (points m) /\ pa_bounds a = mesh_bounds m /\
  pa_vertices a = points m.
Proof.
  unfold analyze_ply_anatomy.
  destruct (detect_anatomical_features _ _) as [an|e]; cbn [bind]; [|discriminate].
  intros H. injection H as <-. repeat split.
Qed.

(** An empty point list is refused by the indexing of the detector. *)
Lemma analyze_ply_anatomy_empty (m : mesh T) :
  points m = [] -> analyze_ply_anatomy m = Raise IndexError.
Proof. intros H. unfold analyze_ply_anatomy. rewrite H. reflexivity. Qed.

End Detector.

(* ------------------------------------------------------------------ *)
(** ** Comparisons and divisions at the reals *)

Section RealOrder.
Local Open Scope R_scope.

Lemma Rltb_true (x y : R) : Rltb x y = true <-> x < y.
Proof. unfold Rltb. destruct (Rlt_dec x y); split; intros; (congruence || lra). Qed.

Lemma Rltb_false (x y : R) : Rltb x y = false <-> y <= x.
Proof. unfold Rltb. destruct (Rlt_dec x y); split; intros; (congruence || lra). Qed.

Lemma Rleb_true (x y : R) : Rleb x y = true <-> x <= y.
Proof. unfold Rleb. destruct (Rle_dec x y); split; intros; (congruence || lra). Qed.

Lemma Rleb_false (x y : R) : Rleb x y = false <-> y < x.
Proof. unfold Rleb. destruct (Rle_dec x y); split; intros; (congruence || lra). Qed.

Lemma Reqb_true (x y : R) : Reqb x y = true <-> x = y.
Proof. unfold Reqb. destruct (Req_dec_T x y); split; intros; congruence. Qed.

Lemma Reqb_false (x y : R) : Reqb x y = false <-> x <> y.
Proof. unfold Reqb. destruct (Req_dec_T x y); split; intros; congruence. Qed.

Lemma pydiv_R_ok (a b : R) : b <> 0 -> pydiv a b = Ok (a / b).
Proof.
  intros Hb. unfold pydiv. cbn.
  destruct (Reqb b 0) eqn:E; [apply Reqb_true in E; contradiction | reflexivity].
Qed.

Lemma pydiv_R_zero (a : R) : pydiv a 0 = Raise ZeroDivisionError.
Proof.
  unfold pydiv. cbn.
  destruct (Reqb 0 0) eqn:E; [reflexivity | apply Reqb_false in E; contradiction].
Qed.

(** What each guess of the detector says about the three extents. *)
Lemma estimate_orientation_R (x y z : R) :
  match fst (fst (estimate_orientation x y z)) with
  | standard => y > x /\ x > z
  | z_up => z > y /\ y > x
  | x_up => x > z /\ z > y
  | unknown => True
  end.
Proof.
  unfold estimate_orientation. cbn.
  destruct (Rltb x y && Rltb z x) eqn:E1.
  { apply andb_prop in E1 as [A B]. apply Rltb_true in A, B. cbn. lra. }
  destruct (Rltb y z && Rltb x y) eqn:E2.
  { apply andb_prop in E2 as [A B]. apply Rltb_true in A, B. cbn. lra. }
  destruct (Rltb z x && Rltb y z) eqn:E3.
  { apply andb_prop in E3 as [A B]. apply Rltb_true in A, B. cbn. lra. }
  exact I.
Qed.

End RealOrder.

(* ------------------------------------------------------------------ *)
(** ** The rotation the pipeline really asks for *)

Section PipelineRotation.
Local Open Scope R_scope.

Lemma norm_vec_of_Z (x y z : Z) :
  (x * x + y * y + z * z = 1)%Z -> norm (vec_of_Z (T:=R) x y z) = 1.
Proof.
  intros H. rewrite norm_eq.
  replace (dot (vec_of_Z (T:=R) x y z) (vec_of_Z x y z))
    with (IZR (x * x + y * y + z * z)).
  - rewrite H. apply sqrt_1.
  - rewrite !plus_IZR, !mult_IZR. vsimp. ring.
Qed.

Lemma not_parallel_by_component (a b : vec3 R) :
  vx (cross a b) <> 0 \/ vy (cross a b) <> 0 \/ vz (cross a b) <> 0 ->
  ~ parallel a b.
Proof. intros H E. unfold parallel in E. rewrite E in H. vsimp. lra. Qed.

(** Orthogonality on both sides and unit determinant of the solver's
    output, for unit inputs that are not parallel. *)
Lemma solver_orthogonal (fn fu tn tu : vec3 R) :
  norm fn = 1 -> norm fu = 1 -> norm tn = 1 -> norm tu = 1 ->
  ~ parallel fu fn -> ~ parallel tu tn ->
  let Rm := calculate_rotation_matrix fn fu tn tu in
  matmul Rm (transpose Rm) = identity3 /\
  matmul (transpose Rm) Rm = identity3 /\
  det Rm = 1.
Proof.
  intros Hfn Hfu Htn Htu Hpf Hpt Rm. subst Rm.
  destruct (unit_right_facts fn fu Hfn Hpf) as (Hf1 & Hf2 & Hf3).
  destruct (unit_right_facts tn tu Htn Hpt) as (Ht1 & Ht2 & Ht3).
  rewrite (calculate_rotation_matrix_unit fn fu tn tu Hfn Hfu Htn Htu).
  exact (frames_rotation _ _ _ _ Hf1 Hf2 Hf3 Ht1 Ht2 Ht3).
Qed.

(** Aligning a frame with itself is the identity. *)
Lemma solver_same_frame (n u : vec3 R) :
  norm n = 1 -> norm u = 1 -> ~ parallel u n ->
  calculate_rotation_matrix n u n u = identity3.
Proof.
  intros Hn Hu Hp.
  destruct (unit_right_facts n u Hn Hp) as (H1 & H2 & H3).
  rewrite (calculate_rotation_matrix_unit n u n u Hn Hu Hn Hu).
  exact (frame_rows _ _ H1 H2 H3).
Qed.

Ltac axis_norm := apply norm_vec_of_Z; reflexivity.
Ltac axis_not_parallel :=
  apply not_parallel_by_component; vsimp;
  first [ left; lra | right; left; lra | right; right; lra ].

(** Whatever the extents, the pair the detector estimates and the
    anatomical standard give a rotation matrix; it is the identity for
    the guesses [standard] and [unknown]. *)
Lemma detector_rotation (x y z : R) :
  let '(g, n, u) := estimate_orientation x y z in
  let Rm := calculate_rotation_matrix n u
              (nose_direction anatomical_standard)
              (up_direction anatomical_standard) in
  matmul Rm (transpose Rm) = identity3 /\
  matmul (transpose Rm) Rm = identity3 /\
  det Rm = 1 /\
  (g = standard \/ g = unknown -> Rm = identity3).
Proof.
  destruct (estimate_orientation_cases x y z) as [E|[E|[E|E]]]; rewrite E;
    cbv zeta; unfold anatomical_standard, nose_direction, up_direction.
  - rewrite solver_same_frame by (axis_norm || axis_not_parallel).
    rewrite matmul_identity_l.
    repeat split; try (by_components ltac:(ring)).
  - destruct (solver_orthogonal (vec_of_Z 1 0 0) (vec_of_Z 0 0 1)
                (vec_of_Z 0 0 1) (vec_of_Z 0 1 0)) as (A & B & C);
      try axis_norm; try axis_not_parallel.
    repeat split; try assumption. intros [H|H]; discriminate.
  - destruct (solver_orthogonal (vec_of_Z 0 1 0) (vec_of_Z 1 0 0)
                (vec_of_Z 0 0 1) (vec_of_Z 0 1 0)) as (A & B & C);
      try axis_norm; try axis_not_parallel.
    repeat split; try assumption. intros [H|H]; discriminate.
  - rewrite solver_same_frame by (axis_norm || axis_not_parallel).
    rewrite matmul_identity_l.
    repeat split; try (by_components ltac:(ring)).
Qed.

(** The affine map of the scale-free transform. *)
Lemma scale_free_transform_point (p : transform_params R) (v : vec3 R) :
  vtk_TransformPoint (scale_free_vtk_transform p) v =
  matvec (rotation_matrix p) (vadd v (translation p)).
Proof.
  unfold vtk_TransformPoint, scale_free_vtk_transform, vtk_Concatenate,
    vtk_Translate, vtk_new. cbn [linear offset].
  destruct p as [t [[a b c] [d e f] [g h i]] sc gu], v as [x y z], t as [t1 t2 t3].
  vsimp. f_equal; ring.
Qed.

(** The affine map of the scaling transform. *)
Lemma anatomical_transform_point (p : transform_params R) (v : vec3 R) :
  vtk_TransformPoint (anatomical_vtk_transform p) v =
  vscale (scale_factor p) (matvec (rotation_matrix p) (vadd v (translation p))).
Proof.
  unfold vtk_TransformPoint, anatomical_vtk_transform, vtk_Scale, vtk_Concatenate,
    vtk_Translate, vtk_new. cbn [linear offset].
  destruct p as [t [[a b c] [d e f] [g h i]] sc gu], v as [x y z], t as [t1 t2 t3].
  vsimp. f_equal; ring.
Qed.

Lemma matvec_sub (m : mat3 R) (a b : vec3 R) :
  vsub (matvec m a) (matvec m b) = matvec m (vsub a b).
Proof. by_components ltac:(ring). Qed.

Lemma vadd_vsub_cancel (a b t : vec3 R) : vsub (vadd a t) (vadd b t) = vsub a b.
Proof. by_components ltac:(ring). Qed.

Lemma orthogonal_dist (m : mat3 R) (a b : vec3 R) :
  matmul (transpose m) m = identity3 ->
  dist (matvec m a) (matvec m b) = dist a b.
Proof.
  intros H. unfold dist. rewrite !norm_eq, matvec_sub, (orthogonal_dot m _ H).
  reflexivity.
Qed.

End PipelineRotation.

(* ------------------------------------------------------------------ *)
(** ** The composed transform *)

Section ComposedTransform.
Local Open Scope R_scope.

(** The rotation stored in the parameters of either mode, in terms of
    the detector's estimate. *)
Lemma analysis_rotation (m : mesh R) (a : ply_analysis R) :
  analyze_ply_anatomy m = Ok a ->
  points m <> [] ->
  let Rm := calculate_rotation_matrix
              (estimated_nose_dir (pa_anatomy a)) (estimated_up_dir (pa_anatomy a))
              (nose_direction anatomical_standard) (up_direction anatomical_standard) in
  matmul Rm (transpose Rm) = identity3 /\
  matmul (transpose Rm) Rm = identity3 /\
  det Rm = 1 /\
  (orientation_guess (pa_anatomy a) = standard \/
   orientation_guess (pa_anatomy a) = unknown -> Rm = identity3).
Proof.
  intros Ha Hne.
  destruct (analyze_ply_anatomy_ok m Hne) as (a' & Ha' & _ & _ & Hg).
  rewrite Ha in Ha'. injection Ha' as <-.
  pose proof (detector_rotation
                (sub (xmax (mesh_bounds m)) (xmin (mesh_bounds m)))
                (sub (ymax (mesh_bounds m)) (ymin (mesh_bounds m)))
                (sub (zmax (mesh_bounds m)) (zmin (mesh_bounds m)))) as D.
  rewrite <- Hg in D. exact D.
Qed.

(** C6, as amended.  Over exact real arithmetic: in scale-preserving
    mode, on every mesh with at least one vertex,
    [apply_scale_free_alignment] returns; the scale factor of its
    parameters is exactly 1; and the transform composed from them keeps
    the distance between any two vertices (exactly, hence within every
    positive tolerance). *)
Theorem scale_free_alignment_is_isometry (m : mesh R) :
  points m <> [] ->
  exists r : alignment_result R,
    apply_scale_free_alignment m = Ok r /\
    scale_factor (ar_transform_params r) = 1 /\
    let tr := scale_free_vtk_transform (ar_transform_params r) in
    forall p q : vec3 R, In p (points m) -> In q (points m) ->
      dist (vtk_TransformPoint tr p) (vtk_TransformPoint tr q) = dist p q /\
      forall eps : R, 0 < eps ->
        Rabs (dist (vtk_TransformPoint tr p) (vtk_TransformPoint tr q) - dist p q) < eps.
Proof.
  intros Hne.
  destruct (analyze_ply_anatomy_ok m Hne) as (a & Ha & _).
  destruct (analysis_rotation m a Ha Hne) as (_ & Horth & _).
  unfold apply_scale_free_alignment. rewrite Ha. cbn [bind].
  eexists. split; [reflexivity|]. cbn [ar_transform_params].
  split; [reflexivity|].
  intros p q _ _.
  assert (E : dist (vtk_TransformPoint
                      (scale_free_vtk_transform (calculate_anatomical_transform_no_scale a)) p)
                   (vtk_TransformPoint
                      (scale_free_vtk_transform (calculate_anatomical_transform_no_scale a)) q)
              = dist p q).
  { rewrite !scale_free_transform_point.
    unfold calculate_anatomical_transform_no_scale. cbn [rotation_matrix translation].
    rewrite (orthogonal_dist _ _ _ Horth).
    unfold dist. rewrite vadd_vsub_cancel. reflexivity. }
  split; [exact E|].
  intros eps Heps. rewrite E.
  replace (dist p q - dist p q) with 0 by ring. rewrite Rabs_R0. exact Heps.
Qed.

Lemma scale_free_alignment_is_isometry_witness :
  exists r : alignment_result R,
    apply_scale_free_alignment z_up_segment = Ok r /\
    scale_factor (ar_transform_params r) = 1.
Proof.
  destruct (scale_free_alignment_is_isometry z_up_segment) as (r & H1 & H2 & _).
  - discriminate.
  - exists r. split; assumption.
Defined.

Lemma matvec_zero (m : mat3 R) : matvec m (vec_of_Z 0 0 0) = vec_of_Z 0 0 0.
Proof. by_components ltac:(ring). Qed.

Lemma scale_free_center (a : ply_analysis R) :
  vtk_TransformPoint
    (scale_free_vtk_transform (calculate_anatomical_transform_no_scale a))
    (pa_center a) = center anatomical_standard.
Proof.
  rewrite scale_free_transform_point.
  unfold calculate_anatomical_transform_no_scale. cbn [rotation_matrix translation].
  replace (vadd (pa_center a) (vsub (center anatomical_standard) (pa_center a)))
    with (vec_of_Z (T:=R) 0 0 0)
    by (destruct (pa_center a); unfold anatomical_standard; cbn [center]; vsimp;
        f_equal; ring).
  apply matvec_zero.
Qed.

Lemma anatomical_center (a : ply_analysis R) (p : transform_params R) :
  calculate_anatomical_transform a = Ok p ->
  vtk_TransformPoint (anatomical_vtk_transform p) (pa_center a) =
  center anatomical_standard.
Proof.
  unfold calculate_anatomical_transform.
  destruct (pydiv _ _) as [sc|e]; cbn [bind]; [|discriminate].
  intros H. injection H as <-.
  rewrite anatomical_transform_point. cbn [rotation_matrix translation scale_factor].
  replace (vadd (pa_center a) (vneg (pa_center a))) with (vec_of_Z (T:=R) 0 0 0)
    by (destruct (pa_center a); vsimp; f_equal; ring).
  rewrite matvec_zero. unfold anatomical_standard; cbn [center]. vsimp. f_equal; ring.
Qed.

(** C7, as amended.  Over exact real arithmetic: whenever either
    alignment function returns, the transform it composed (translate,
    rotate, and in normal mode scale) sends the mesh's centre, the mean
    of its vertices, to the target centre, the origin: exactly, hence
    within every tolerance.  The scale-preserving function returns on
    every mesh with at least one vertex; the normal-mode function
    returns on every such mesh whose Y extent, by which the scale
    divides, is not zero, and raises [ZeroDivisionError] on every such
    mesh that is flat in Y, whatever its other extents. *)
Theorem transform_sends_center_to_target (m : mesh R) :
  (forall r : alignment_result R,
     apply_scale_free_alignment m = Ok r ->
     vtk_TransformPoint (scale_free_vtk_transform (ar_transform_params r))
       (vmean (points m)) = center anatomical_standard) /\
  (forall r : alignment_result R,
     apply_anatomical_alignment m = Ok r ->
     vtk_TransformPoint (anatomical_vtk_transform (ar_transform_params r))
       (vmean (points m)) = center anatomical_standard) /\
  (points m <> [] ->
     (exists r : alignment_result R, apply_scale_free_alignment m = Ok r) /\
     (ymax (mesh_bounds m) - ymin (mesh_bounds m) <> 0 ->
      exists r : alignment_result R, apply_anatomical_alignment m = Ok r) /\
     (ymax (mesh_bounds m) - ymin (mesh_bounds m) = 0 ->
      apply_anatomical_alignment m = Raise ZeroDivisionError)).
Proof.
  split; [|split].
  - intros r. unfold apply_scale_free_alignment.
    destruct (analyze_ply_anatomy m) as [a|e] eqn:Ha; cbn [bind]; [|discriminate].
    intros H. injection H as <-. cbn [ar_transform_params].
    destruct (analyze_ply_anatomy_fields m a Ha) as (Hc & _). rewrite <- Hc.
    apply scale_free_center.
  - intros r. unfold apply_anatomical_alignment.
    destruct (analyze_ply_anatomy m) as [a|e] eqn:Ha; cbn [bind]; [|discriminate].
    destruct (calculate_anatomical_transform a) as [p|e] eqn:Hp; cbn [bind];
      [|discriminate].
    intros H. injection H as <-. cbn [ar_transform_params].
    destruct (analyze_ply_anatomy_fields m a Ha) as (Hc & _). rewrite <- Hc.
    apply anatomical_center. exact Hp.
  - intros Hne.
    destruct (analyze_ply_anatomy_ok m Hne) as (a & Ha & _ & Hb & _).
    split; [|split].
    + unfold apply_scale_free_alignment. rewrite Ha. cbn [bind].
      eexists. reflexivity.
    + intros Hy. unfold apply_anatomical_alignment. rewrite Ha. cbn [bind].
      unfold calculate_anatomical_transform. rewrite Hb.
      rewrite pydiv_R_ok by (cbn; apply Rabs_no_R0; exact Hy).
      cbn [bind]. eexists. reflexivity.
    + intros Hy. unfold apply_anatomical_alignment. rewrite Ha. cbn [bind].
      unfold calculate_anatomical_transform. rewrite Hb.
      change (@sub R Num_R) with Rminus. change (@abs R Num_R) with Rabs.
      rewrite Hy, Rabs_R0, pydiv_R_zero. reflexivity.
Qed.

Lemma transform_sends_center_to_target_witness :
  exists r : alignment_result R,
    apply_anatomical_alignment z_up_segment = Ok r /\
    vtk_TransformPoint (anatomical_vtk_transform (ar_transform_params r))
      (vmean (points z_up_segment)) = center anatomical_standard.
Proof.
  destruct (transform_sends_center_to_target z_up_segment) as (_ & Hc & Ht).
  destruct Ht as (_ & Hn & _); [discriminate|].
  destruct Hn as (r & Hr); [cbn; lra|].
  exists r. split; [exact Hr|]. apply Hc. exact Hr.
Defined.

End ComposedTransform.

(* ------------------------------------------------------------------ *)
(** ** Scale and degenerate meshes *)

Section ScaleAndDegeneracy.
Local Open Scope R_scope.

Lemma unit_right_z_up :
  unit_right (T:=R) (vec_of_Z 1 0 0) (vec_of_Z 0 0 1) = vec_of_Z 0 1 0.
Proof.
  unfold unit_right.
  replace (cross (T:=R) (vec_of_Z 0 0 1) (vec_of_Z 1 0 0)) with (vec_of_Z (T:=R) 0 1 0)
    by (vsimp; f_equal; ring).
  apply normalize_unit, norm_vec_of_Z. reflexivity.
Qed.

(** C10.  In normal mode, on every mesh with at least one vertex and a
    non-zero Y extent, the scale factor is [190 / |bounds[3] - bounds[2]|]
    whatever orientation was detected.  For a mesh classified [z_up] the
    divisor is the extent along the mesh's right (width) axis, and for a
    mesh classified [x_up] it is the extent along its nose (depth) axis;
    in both cases it is strictly smaller than the extent along the
    estimated up axis, the face height. *)
Theorem scale_divides_by_raw_y_extent (m : mesh R) :
  points m <> [] ->
  ymax (mesh_bounds m) - ymin (mesh_bounds m) <> 0 ->
  exists (a : ply_analysis R) (p : transform_params R),
    analyze_ply_anatomy m = Ok a /\
    calculate_anatomical_transform a = Ok p /\
    scale_factor p = 190 / Rabs (ymax (mesh_bounds m) - ymin (mesh_bounds m)) /\
    let b := mesh_bounds m in
    let y_extent := ymax b - ymin b in
    let nose := estimated_nose_dir (pa_anatomy a) in
    let up := estimated_up_dir (pa_anatomy a) in
    (orientation_guess (pa_anatomy a) = z_up ->
       extent_along (unit_right nose up) b = y_extent /\
       y_extent < extent_along up b) /\
    (orientation_guess (pa_anatomy a) = x_up ->
       extent_along nose b = y_extent /\
       y_extent < extent_along up b).
Proof.
  intros Hne Hy.
  destruct (analyze_ply_anatomy_ok m Hne) as (a & Ha & _ & Hb & Hg).
  exists a. unfold calculate_anatomical_transform. rewrite Hb.
  rewrite pydiv_R_ok by (cbn; apply Rabs_no_R0; exact Hy).
  cbn [bind]. eexists. split; [exact Ha|]. split; [reflexivity|].
  cbn [scale_factor]. split; [reflexivity|].
  match type of Hg with
  | _ = estimate_orientation ?x0 ?y0 ?z0 =>
      set (x := x0) in *; set (y := y0) in *; set (z := z0) in *
  end.
  pose proof (estimate_orientation_R x y z) as Hord. rewrite <- Hg in Hord. cbn in Hord.
  cbv zeta.
  destruct (estimate_orientation_cases x y z) as [E|[E|[E|E]]];
    rewrite E in Hg; injection Hg as Hguess Hnose Hup;
    rewrite Hguess in *; rewrite Hnose, Hup;
    (split; [intros Hz | intros Hx]); try discriminate.
  - rewrite unit_right_z_up. subst x y z. unfold extent_along. vsimp. lra.
  - subst x y z. unfold extent_along. vsimp. lra.
Qed.

Lemma scale_divides_by_raw_y_extent_witness :
  exists (a : ply_analysis R) (p : transform_params R),
    analyze_ply_anatomy z_up_segment = Ok a /\
    calculate_anatomical_transform a = Ok p /\
    scale_factor p = 190 / Rabs (2 - 0).
Proof.
  destruct (scale_divides_by_raw_y_extent z_up_segment) as (a & p & H1 & H2 & H3 & _).
  - discriminate.
  - cbn. lra.
  - exists a, p. repeat split; assumption.
Defined.

Lemma norm_zero_components (x y z : R) :
  norm (V3 x y z) = 0 -> x = 0 /\ y = 0 /\ z = 0.
Proof.
  rewrite norm_eq. intros H.
  apply sqrt_eq_0 in H; [|apply dot_self_nonneg].
  vsimp. repeat split; nra.
Qed.

Lemma estimate_orientation_zero :
  estimate_orientation (T:=R) 0 0 0 = (unknown, vec_of_Z 0 0 1, vec_of_Z 0 1 0).
Proof.
  unfold estimate_orientation. cbn.
  assert (E : Rltb 0 0 = false) by (apply Rltb_false; lra).
  rewrite E. reflexivity.
Qed.

(** C4, as amended.  A mesh with at least one vertex whose bounding
    diagonal is zero is not rejected: the analysis returns, the
    orientation classification runs and answers [unknown] with the default
    directions (nose +Z, up +Y), and scale-preserving alignment emits a
    complete transform: translation to the origin, identity rotation,
    scale 1. *)
Theorem degenerate_mesh_is_classified_unknown (m : mesh R) :
  points m <> [] ->
  bounding_diagonal (mesh_bounds m) = 0 ->
  exists (a : ply_analysis R) (r : alignment_result R),
    analyze_ply_anatomy m = Ok a /\
    orientation_guess (pa_anatomy a) = unknown /\
    estimated_nose_dir (pa_anatomy a) = vec_of_Z 0 0 1 /\
    estimated_up_dir (pa_anatomy a) = vec_of_Z 0 1 0 /\
    apply_scale_free_alignment m = Ok r /\
    translation (ar_transform_params r) =
      vsub (center anatomical_standard) (vmean (points m)) /\
    rotation_matrix (ar_transform_params r) = identity3 /\
    scale_factor (ar_transform_params r) = 1.
Proof.
  intros Hne Hd.
  apply norm_zero_components in Hd. destruct Hd as (Hx & Hy & Hz).
  destruct (analyze_ply_anatomy_ok m Hne) as (a & Ha & Hc & _ & Hg).
  rewrite Hx, Hy, Hz, estimate_orientation_zero in Hg.
  injection Hg as Hguess Hnose Hup.
  destruct (analysis_rotation m a Ha Hne) as (_ & _ & _ & Hid).
  unfold apply_scale_free_alignment. rewrite Ha. cbn [bind].
  exists a. eexists. split; [reflexivity|].
  cbn [ar_transform_params]. unfold calculate_anatomical_transform_no_scale.
  cbn [translation rotation_matrix scale_factor].
  repeat split; try assumption.
  - rewrite Hc. reflexivity.
  - apply Hid. right. exact Hguess.
Qed.

Lemma degenerate_mesh_is_classified_unknown_witness :
  exists (a : ply_analysis R) (r : alignment_result R),
    analyze_ply_anatomy single_point_R = Ok a /\
    orientation_guess (pa_anatomy a) = unknown /\
    apply_scale_free_alignment single_point_R = Ok r /\
    rotation_matrix (ar_transform_params r) = identity3.
Proof.
  destruct (degenerate_mesh_is_classified_unknown single_point_R)
    as (a & r & H1 & H2 & _ & _ & H3 & _ & H4 & _).
  - discriminate.
  - unfold bounding_diagonal. rewrite norm_eq. cbn.
    replace ((1 - 1) * (1 - 1) + (2 - 2) * (2 - 2) + (3 - 3) * (3 - 3)) with 0 by ring.
    apply sqrt_0.
  - exists a, r. repeat split; assumption.
Defined.

End ScaleAndDegeneracy.

(* ------------------------------------------------------------------ *)
(** ** Binary64 runs: degenerate, parallel, far and flat inputs *)

Section Binary64.

(** C4, counterexample.  At binary64, the single-vertex mesh has a zero
    bounding diagonal, yet it is not refused: the analysis returns with
    the guess [unknown], and scale-preserving alignment returns the
    parameters of a transform (identity rotation, scale 1). *)
Lemma degenerate_mesh_counterexample :
  bounding_diagonal (mesh_bounds single_point) = 0%float /\
  (exists a : ply_analysis float,
     analyze_ply_anatomy single_point = Ok a /\
     orientation_guess (pa_anatomy a) = unknown) /\
  (exists r : alignment_result float,
     apply_scale_free_alignment single_point = Ok r /\
     rotation_matrix (ar_transform_params r) = identity3 /\
     scale_factor (ar_transform_params r) = 1%float) /\
  ~ (exists e : pyexc, analyze_ply_anatomy single_point = Raise e) /\
  ~ (exists e : pyexc, apply_scale_free_alignment single_point = Raise e).
Proof.
  split; [vm_compute; reflexivity|].
  split; [eexists; split; vm_compute; reflexivity|].
  split; [eexists; repeat split; vm_compute; reflexivity|].
  split; intros [e H]; vm_compute in H; discriminate H.
Qed.

(** In normal mode the same mesh stops at the scale step, after the
    classification has run. *)
Example degenerate_mesh_normal_mode :
  apply_anatomical_alignment single_point = Raise ZeroDivisionError.
Proof. vm_compute. reflexivity. Qed.

(** C3, counterexample.  At binary64, with [from_up] parallel to
    [from_nose] (both +Z) and the anatomical standard as target, the
    solver returns a matrix with NaN entries, which is not the identity. *)
Lemma parallel_pair_counterexample :
  let from_nose := vec_of_Z (T:=float) 0 0 1 in
  let from_up := vec_of_Z (T:=float) 0 0 1 in
  let Rm := calculate_rotation_matrix from_nose from_up
              (nose_direction anatomical_standard)
              (up_direction anatomical_standard) in
  parallel from_up from_nose /\
  mat_has_nan Rm = true /\
  mat_eqb Rm identity3 = false /\
  Rm <> identity3.
Proof.
  cbv zeta. split; [vm_compute; reflexivity|].
  split; [vm_compute; reflexivity|].
  split; [vm_compute; reflexivity|].
  intros H. apply (f_equal mat_has_nan) in H. vm_compute in H. discriminate H.
Qed.

(** The four axis pairs of the detector against the standard frame, run
    at binary64. *)
Lemma detector_rotation_float (x y z : float) :
  let '(g, n, u) := estimate_orientation x y z in
  let Rm := calculate_rotation_matrix n u
              (nose_direction anatomical_standard)
              (up_direction anatomical_standard) in
  mat_has_nan Rm = false /\
  mat_eqb (matmul Rm (transpose Rm)) identity3 = true /\
  vec_eqb (cross u n) (vec_of_Z 0 0 0) = false /\
  (g = standard \/ g = unknown -> Rm = identity3).
Proof.
  destruct (estimate_orientation_cases x y z) as [E|[E|[E|E]]]; rewrite E;
    cbv zeta; repeat split; try (vm_compute; reflexivity);
    intros [H|H]; discriminate H.
Qed.

(** C3, as amended.  The solver has no test for parallel inputs and no
    fallback.  The pairs the pipeline hands it are the detector's estimate
    and the anatomical standard; on every mesh with at least one vertex,
    at binary64, the estimated up and nose directions have a non-zero
    cross product, and the rotation matrix computed from them has no NaN
    entry, is orthogonal, and is the identity when the guess is
    [standard] or [unknown]. *)
Theorem pipeline_rotation_has_no_nan (m : mesh float) :
  points m <> [] ->
  exists a : ply_analysis float,
    analyze_ply_anatomy m = Ok a /\
    let an := pa_anatomy a in
    let Rm := rotation_matrix (calculate_anatomical_transform_no_scale a) in
    vec_eqb (cross (estimated_up_dir an) (estimated_nose_dir an)) (vec_of_Z 0 0 0) = false /\
    mat_has_nan Rm = false /\
    mat_eqb (matmul Rm (transpose Rm)) identity3 = true /\
    (orientation_guess an = standard \/ orientation_guess an = unknown ->
     Rm = identity3).
Proof.
  intros Hne.
  destruct (analyze_ply_anatomy_ok m Hne) as (a & Ha & _ & _ & Hg).
  exists a. split; [exact Ha|].
  match type of Hg with
  | _ = estimate_orientation ?x ?y ?z =>
      pose proof (detector_rotation_float x y z) as D
  end.
  rewrite <- Hg in D. cbv zeta in *.
  unfold calculate_anatomical_transform_no_scale. cbn [rotation_matrix].
  destruct D as (D1 & D2 & D3 & D4). repeat split; assumption.
Qed.

Lemma pipeline_rotation_has_no_nan_witness :
  exists a : ply_analysis float,
    analyze_ply_anatomy scenario_A = Ok a /\
    mat_has_nan (rotation_matrix (calculate_anatomical_transform_no_scale a)) = false.
Proof.
  destruct (pipeline_rotation_has_no_nan scenario_A) as (a & Ha & _ & Hn & _).
  - discriminate.
  - exists a. split; assumption.
Defined.

(** A comparison with NaN is false, whatever the other side. *)
Lemma ltb_nan_l (x : float) : PrimFloat.ltb nan x = false.
Proof.
  rewrite FloatAxioms.ltb_spec. replace (Prim2SF nan) with S754_nan by (vm_compute; reflexivity).
  reflexivity.
Qed.

Lemma leb_nan_l (x : float) : PrimFloat.leb nan x = false.
Proof.
  rewrite FloatAxioms.leb_spec.
  replace (Prim2SF nan) with S754_nan by (vm_compute; reflexivity).
  reflexivity.
Qed.

Lemma leb_nan_r (x : float) : PrimFloat.leb x nan = false.
Proof.
  rewrite FloatAxioms.leb_spec. replace (Prim2SF nan) with S754_nan by (vm_compute; reflexivity).
  destruct (Prim2SF x) as [[|]|[|]| |[|] ? ?]; reflexivity.
Qed.

(** C5, counterexample.  At binary64, [from_nose = (1, 0, 0)] and
    [from_up = (1, 2^-600, 0)] are unit vectors (their norms evaluate to
    1) and are not parallel (their cross product is not zero), and the
    target pair is the anatomical standard; yet every entry of the matrix
    the solver returns is NaN: the squared norm of the cross product
    underflows to zero and the division by it is unguarded.  So the
    Frobenius norm of [R Rt - I] is below no tolerance, [det R] lies in
    no interval around 1, and the image of [from_nose] is within no
    tolerance of [to_nose]. *)
Lemma nearly_parallel_pair_counterexample :
  let from_nose := (V3 1 0 0)%float in
  let from_up := nearly_parallel_up in
  let to_nose := nose_direction (T:=float) anatomical_standard in
  let to_up := up_direction (T:=float) anatomical_standard in
  let Rm := calculate_rotation_matrix from_nose from_up to_nose to_up in
  (norm from_nose = 1%float /\ norm from_up = 1%float /\
   norm to_nose = 1%float /\ norm to_up = 1%float) /\
  ~ parallel from_up from_nose /\ ~ parallel to_up to_nose /\
  mat_has_nan Rm = true /\
  forall eps : float,
    ltb (frobenius (msub (matmul Rm (transpose Rm)) identity3)) eps = false /\
    leb (sub 1%float eps) (det Rm) = false /\
    leb (det Rm) (add 1%float eps) = false /\
    ltb (dist (matvec Rm from_nose) to_nose) eps = false.
Proof.
  cbv zeta.
  split; [repeat split; vm_compute; reflexivity|].
  split; [intros H; apply (f_equal (fun v => vec_eqb v (vec_of_Z 0 0 0))) in H;
          vm_compute in H; discriminate H|].
  split; [intros H; apply (f_equal (fun v => vec_eqb v (vec_of_Z 0 0 0))) in H;
          vm_compute in H; discriminate H|].
  split; [vm_compute; reflexivity|].
  intros eps.
  match goal with
  | |- ltb ?a _ = false /\ leb _ ?b = false /\ _ /\ ltb ?c _ = false =>
      replace a with nan by (vm_compute; reflexivity);
      replace b with nan by (vm_compute; reflexivity);
      replace c with nan by (vm_compute; reflexivity)
  end.
  split; [apply ltb_nan_l|]. split; [apply leb_nan_r|].
  split; [apply leb_nan_l | apply ltb_nan_l].
Qed.

(** C6, counterexample.  At binary64, on the mesh with vertices
    [(1,0,0)], [(2,0,0)] and [(2^57,0,0)], scale-preserving alignment
    returns, and the transform composed from its parameters sends the
    first two vertices, which are at distance 1, to the same point: the
    translation by the centre absorbs their difference. *)
Lemma far_vertex_counterexample :
  let p := (V3 1 0 0)%float in
  let q := (V3 2 0 0)%float in
  In p (points far_vertex_mesh) /\ In q (points far_vertex_mesh) /\
  exists r : alignment_result float,
    apply_scale_free_alignment far_vertex_mesh = Ok r /\
    scale_factor (ar_transform_params r) = 1%float /\
    let tr := scale_free_vtk_transform (ar_transform_params r) in
    dist p q = 1%float /\
    vtk_TransformPoint tr p = vtk_TransformPoint tr q /\
    dist (vtk_TransformPoint tr p) (vtk_TransformPoint tr q) = 0%float.
Proof.
  cbv zeta. split; [left; reflexivity|]. split; [right; left; reflexivity|].
  eexists. split; [vm_compute; reflexivity|].
  repeat split; vm_compute; reflexivity.
Qed.

(** C7, counterexample.  At binary64, the two-vertex mesh spanning
    [(0,0,0)] and [(1,0,2)] has vertices and a non-zero bounding
    diagonal, so it is not degenerate; but it is flat in Y, and normal
    mode raises [ZeroDivisionError] at the scale step: no transform is
    composed, so none sends the centre to the target.  Scale-preserving
    mode returns on the same mesh. *)
Lemma y_flat_mesh_counterexample :
  points y_flat_segment <> [] /\
  ltb 0%float (bounding_diagonal (mesh_bounds y_flat_segment)) = true /\
  apply_anatomical_alignment y_flat_segment = Raise ZeroDivisionError /\
  ~ (exists r : alignment_result float, apply_anatomical_alignment y_flat_segment = Ok r) /\
  (exists r : alignment_result float, apply_scale_free_alignment y_flat_segment = Ok r).
Proof.
  split; [discriminate|]. split; [vm_compute; reflexivity|].
  split; [vm_compute; reflexivity|].
  split; [intros [r H]; vm_compute in H; discriminate H|].
  eexists. vm_compute. reflexivity.
Qed.

End Binary64.

(* ------------------------------------------------------------------ *)
(** ** The method scorer *)

Section Scorer.
Context {T : Type} {N : Num T}.

(** With a non-standard face and a largest aspect ratio above 3.0, the
    first two factors give the ultimate method 5 points and the other
    three give the anatomical method at most 4. *)
Lemma extreme_proportions_select_ultimate (ch : characteristics T) :
  ch_is_standard_face ch = false ->
  ltb (ch_max_aspect_ratio ch) (div (of_Z 3) (of_Z 2)) = false ->
  ltb (of_Z 3) (ch_max_aspect_ratio ch) = true ->
  (anatomical_score (snd (select_optimal_method ch)) <
   ultimate_score (snd (select_optimal_method ch)))%Z /\
  fst (select_optimal_method ch) = ultimate.
Proof.
  intros H1 H2 H3. unfold select_optimal_method, score_factors.
  rewrite H1, H2, H3. cbn [fst snd].
  destruct (ltb (of_Z 100) (ch_vertex_density ch)),
           (ltb (ch_vertex_density ch) (of_Z 10)),
           (ch_has_colors ch && ch_has_normals ch),
           (Nat.eqb (ch_n_arrays ch) 0),
           (ltb (of_Z 100) (ch_diagonal ch) && ltb (ch_diagonal ch) (of_Z 300)),
           (ltb (of_Z 500) (ch_diagonal ch) || ltb (ch_diagonal ch) (of_Z 50));
    split; reflexivity.
Qed.

End Scorer.

Section ScenarioA.

(** C1, counterexample.  At binary64, on the Scenario A mesh (extents 50,
    190, 40) the detector answers [standard], but the scorer gives the
    anatomical method 1 point and the ultimate method 7 and selects
    [ultimate]. *)
Lemma scenario_A_counterexample :
  exists (a : ply_analysis float) (ch : characteristics float),
    analyze_ply_anatomy scenario_A = Ok a /\
    orientation_guess (pa_anatomy a) = standard /\
    analyze_ply_characteristics scenario_A = Ok ch /\
    ch_width ch = 50%float /\ ch_height ch = 190%float /\ ch_depth ch = 40%float /\
    anatomical_score (snd (select_optimal_method ch)) = 1%Z /\
    ultimate_score (snd (select_optimal_method ch)) = 7%Z /\
    ~ (anatomical_score (snd (select_optimal_method ch)) >
       ultimate_score (snd (select_optimal_method ch)))%Z /\
    fst (select_optimal_method ch) <> anatomical.
Proof.
  eexists. eexists.
  split; [vm_compute; reflexivity|].
  split; [reflexivity|].
  split; [vm_compute; reflexivity|].
  repeat split; try (vm_compute; reflexivity).
  - vm_compute. intros H. discriminate H.
  - vm_compute. intros H. discriminate H.
Qed.

(** C1, as amended.  At binary64, for every mesh with at least one
    vertex whose extents are width 50, height 190 and depth 40, the
    detector answers [standard]; the largest aspect ratio is 4.75, so the
    face does not count as standard for the scorer; and for every vertex
    count and every set of point-data arrays the ultimate score is
    strictly greater than the anatomical score, so the selected method is
    [ultimate]. *)
Theorem scenario_A_selects_ultimate (m : mesh float) :
  points m <> [] ->
  PrimFloat.sub (xmax (mesh_bounds m)) (xmin (mesh_bounds m)) = 50%float ->
  PrimFloat.sub (ymax (mesh_bounds m)) (ymin (mesh_bounds m)) = 190%float ->
  PrimFloat.sub (zmax (mesh_bounds m)) (zmin (mesh_bounds m)) = 40%float ->
  exists (a : ply_analysis float) (ch : characteristics float),
    analyze_ply_anatomy m = Ok a /\
    orientation_guess (pa_anatomy a) = standard /\
    analyze_ply_characteristics m = Ok ch /\
    ch_max_aspect_ratio ch = 4.75%float /\
    ch_is_standard_face ch = false /\
    (anatomical_score (snd (select_optimal_method ch)) <
     ultimate_score (snd (select_optimal_method ch)))%Z /\
    fst (select_optimal_method ch) = ultimate.
Proof.
  intros Hne Hw Hh Hd.
  destruct (analyze_ply_anatomy_ok m Hne) as (a & Ha & _ & _ & Hg).
  change (@sub float Num_float) with PrimFloat.sub in Hg.
  rewrite Hw, Hh, Hd in Hg.
  change (estimate_orientation 50%float 190%float 40%float)
    with (standard, vec_of_Z (T:=float) 0 0 1, vec_of_Z (T:=float) 0 1 0) in Hg.
  injection Hg as Hguess _ _.
  exists a.
  unfold analyze_ply_characteristics.
  change (@sub float Num_float) with PrimFloat.sub.
  rewrite Hw, Hh, Hd.
  destruct (scan_point_arrays 0 (point_data m) false false) as [hc hn].
  change (pydiv (pymax 50%float 190%float) (pymin 50%float 190%float))
    with (Ok (PrimFloat.div 190 50)).
  change (pydiv (pymax 50%float 40%float) (pymin 50%float 40%float))
    with (Ok (PrimFloat.div 50 40)).
  change (pydiv (pymax 190%float 40%float) (pymin 190%float 40%float))
    with (Ok (PrimFloat.div 190 40)).
  cbn [bind].
  eexists. split; [exact Ha|]. split; [exact Hguess|]. split; [reflexivity|].
  cbn [ch_max_aspect_ratio ch_is_standard_face].
  split; [vm_compute; reflexivity|].
  split; [vm_compute; reflexivity|].
  apply extreme_proportions_select_ultimate;
    cbn [ch_max_aspect_ratio ch_is_standard_face]; vm_compute; reflexivity.
Qed.

Lemma scenario_A_selects_ultimate_witness :
  exists ch : characteristics float,
    analyze_ply_characteristics scenario_A = Ok ch /\
    fst (select_optimal_method ch) = ultimate.
Proof.
  destruct (scenario_A_selects_ultimate scenario_A)
    as (a & ch & _ & _ & H1 & _ & _ & _ & H2).
  - discriminate.
  - reflexivity.
  - reflexivity.
  - reflexivity.
  - exists ch. split; assumption.
Defined.

End ScenarioA.

(* ------------------------------------------------------------------ *)
(** ** The test suite: acceptance, retry, best attempt *)

Section Orchestrator.
Context {T : Type} {N : Num T}.
Variables test_anatomical_method test_ultimate_method : file_info -> test_outcome T.

Local Notation "'hybrid'" :=
  (test_single_file_hybrid test_anatomical_method test_ultimate_method).

(** An excellent anatomical run ends the test at once. *)
Lemma hybrid_excellent (fi : file_info) (e : T) (d : option (T * orientation)) :
  test_anatomical_method fi = Succeeded e d ->
  classify_performance e = excellent ->
  snd (hybrid fi) = [anatomical] /\
  hr_best_method (fst (hybrid fi)) = Some anatomical /\
  hr_best_ransac (fst (hybrid fi)) = Some e /\
  hr_ultimate_result (fst (hybrid fi)) = None.
Proof.
  intros Ha Hc. unfold test_single_file_hybrid. rewrite Ha, Hc.
  repeat split; reflexivity.
Qed.

(** Any other anatomical run is followed by exactly one ultimate run, and
    the anatomical entry is kept. *)
Lemma hybrid_not_excellent (fi : file_info) (e : T) (d : option (T * orientation)) :
  test_anatomical_method fi = Succeeded e d ->
  classify_performance e <> excellent ->
  snd (hybrid fi) = [anatomical; ultimate] /\
  hr_anatomical_result (fst (hybrid fi)) =
    Some {| at_ransac_error := e; at_status := classify_performance e; at_details := d |} /\
  hr_ultimate_result (fst (hybrid fi)) =
    match test_ultimate_method fi with
    | Succeeded u _ =>
        Some {| at_ransac_error := u; at_status := classify_performance u;
                at_details := None |}
    | Failed _ => None
    end.
Proof.
  intros Ha Hc. unfold test_single_file_hybrid. rewrite Ha.
  destruct (classify_performance e) eqn:E; [congruence| | |];
    (split; [reflexivity|]);
    destruct (test_ultimate_method fi) as [u du|msg];
    unfold determine_best_method; cbn;
    repeat match goal with
           | |- context [if ?c then _ else _] => destruct c; cbn
           end;
    split; reflexivity.
Qed.

(** When both runs gave an error, the best entry is the anatomical one
    if its error is at most the ultimate one, and the ultimate one
    otherwise. *)
Lemma hybrid_best_of_two (fi : file_info) (a u : T) (da du : option (T * orientation)) :
  test_anatomical_method fi = Succeeded a da ->
  test_ultimate_method fi = Succeeded u du ->
  classify_performance a <> excellent ->
  hr_best_method (fst (hybrid fi)) = Some (if leb a u then anatomical else ultimate) /\
  hr_best_ransac (fst (hybrid fi)) = Some (if leb a u then a else u) /\
  hr_best_performance (fst (hybrid fi)) =
    Some (classify_performance (if leb a u then a else u)).
Proof.
  intros Ha Hu Hc. unfold test_single_file_hybrid. rewrite Ha, Hu.
  destruct (classify_performance a) eqn:E; [congruence| | |];
    unfold determine_best_method; cbn; destruct (leb a u); cbn;
    try rewrite E;
    repeat match goal with
           | |- context [if ?c then _ else _] => destruct c; cbn
           end;
    repeat split; reflexivity.
Qed.

End Orchestrator.

Section OrchestratorClaims.
Local Open Scope R_scope.

Ltac decide_R :=
  repeat match goal with
         | |- context [Rltb ?a ?b] =>
             first [ rewrite (proj2 (Rltb_true a b)) by lra
                   | rewrite (proj2 (Rltb_false a b)) by lra ]
         | |- context [Rleb ?a ?b] =>
             first [ rewrite (proj2 (Rleb_true a b)) by lra
                   | rewrite (proj2 (Rleb_false a b)) by lra ]
         end.

(** The tiers of [classify_performance] over the reals. *)
Lemma classify_performance_R (e : R) :
  (classify_performance e = excellent <-> e < 10) /\
  (classify_performance e = very_good <-> 10 <= e < 100) /\
  (classify_performance e = good <-> 100 <= e < 10000) /\
  (classify_performance e = poor <-> 10000 <= e).
Proof.
  unfold classify_performance, excellent_threshold, good_threshold, poor_threshold.
  cbn -[Rltb].
  destruct (Rltb e 10) eqn:E1; [apply Rltb_true in E1 | apply Rltb_false in E1].
  { repeat split; intros; try discriminate; try lra; reflexivity. }
  destruct (Rltb e 100) eqn:E2; [apply Rltb_true in E2 | apply Rltb_false in E2].
  { repeat split; intros; try discriminate; try lra; reflexivity. }
  destruct (Rltb e 10000) eqn:E3; [apply Rltb_true in E3 | apply Rltb_false in E3].
  { repeat split; intros; try discriminate; try lra; reflexivity. }
  repeat split; intros; try discriminate; try lra; reflexivity.
Qed.

(** C8.  Over the reals, [classify_performance] has half-open tiers:
    excellent iff error < 10, very good iff 10 <= error < 100, good iff
    100 <= error < 10000, poor iff error >= 10000.  An error of exactly
    10.0 is very good, at the reals and at binary64.  The batch
    [4.1, 65.0, 9999.0, 15.0, 80000.0] is classified excellent, very
    good, good, very good, poor, and its performance breakdown counts
    1 excellent, 2 very good, 1 good and 1 poor entry, at the reals and
    at binary64. *)
Theorem tier_boundaries_half_open :
  (forall e : R,
     (classify_performance e = excellent <-> e < 10) /\
     (classify_performance e = very_good <-> 10 <= e < 100) /\
     (classify_performance e = good <-> 100 <= e < 10000) /\
     (classify_performance e = poor <-> 10000 <= e)) /\
  classify_performance 10 = very_good /\
  classify_performance 10%float = very_good /\
  map classify_performance scenario_C_R = [excellent; very_good; good; very_good; poor] /\
  map classify_performance scenario_C = [excellent; very_good; good; very_good; poor] /\
  performance_breakdown scenario_C_R = (1, 2, 1, 1)%nat /\
  performance_breakdown scenario_C = (1, 2, 1, 1)%nat.
Proof.
  split; [exact classify_performance_R|].
  split; [apply (classify_performance_R 10); lra|].
  split; [vm_compute; reflexivity|].
  split.
  { unfold scenario_C_R. cbn [map]. repeat f_equal.
    - apply (classify_performance_R 4.1); lra.
    - apply (classify_performance_R 65); lra.
    - apply (classify_performance_R 9999); lra.
    - apply (classify_performance_R 15); lra.
    - apply (classify_performance_R 80000); lra. }
  split; [vm_compute; reflexivity|].
  split; [|vm_compute; reflexivity].
  unfold performance_breakdown, scenario_C_R. cbn -[Rltb Rleb].
  decide_R. reflexivity.
Qed.

Variables test_anatomical_method test_ultimate_method : file_info -> test_outcome R.

Local Notation "'hybrid'" :=
  (test_single_file_hybrid test_anatomical_method test_ultimate_method).

(** C2, as amended.  When the first (anatomical) attempt produced an
    error [e], it is accepted with no run of the ultimate method if and
    only if [e] is strictly below the excellent threshold, 10.0 (not the
    good threshold, 100.0); it is then the best attempt.  When [e] is at
    or above the excellent threshold, the ultimate method is run exactly
    once, after the anatomical one. *)
Theorem first_attempt_accepted_iff_excellent
    (fi : file_info) (e : R) (d : option (R * orientation)) :
  test_anatomical_method fi = Succeeded e d ->
  excellent_threshold = 10 /\
  (snd (hybrid fi) = [anatomical] <-> e < excellent_threshold) /\
  (e < excellent_threshold ->
     hr_best_method (fst (hybrid fi)) = Some anatomical /\
     hr_best_ransac (fst (hybrid fi)) = Some e) /\
  (excellent_threshold <= e ->
     snd (hybrid fi) = [anatomical; ultimate] /\
     count_occ method_eq_dec (snd (hybrid fi)) ultimate = 1%nat).
Proof.
  intros Ha. split; [reflexivity|].
  change (excellent_threshold (T:=R)) with 10.
  destruct (classify_performance_R e) as (Hex & _).
  destruct (Rlt_le_dec e 10) as [Hlt|Hge].
  - destruct (hybrid_excellent _ test_ultimate_method fi e d Ha (proj2 Hex Hlt))
      as (Hc & Hm & Hr & _).
    repeat split; intros; try assumption; try lra.
  - assert (Hne : classify_performance e <> excellent)
      by (intros H; apply Hex in H; lra).
    destruct (hybrid_not_excellent _ test_ultimate_method fi e d Ha Hne) as (Hc & _).
    repeat split; intros; try lra.
    + rewrite Hc in *. discriminate.
    + exact Hc.
    + rewrite Hc. reflexivity.
Qed.

(** C9.  When the anatomical run gave an error [a] that is not excellent
    and the ultimate run gave an error [u], both entries are kept in the
    result, the ultimate method was run exactly once, and the best
    attempt is the one with the lower error: the anatomical one when
    [a <= u], the ultimate one when [u < a].  In particular after a first
    error of 50000 the ultimate method is run exactly once, and the best
    error is the lower of the two, or 50000 when the ultimate run gave no
    error. *)
Theorem retry_keeps_both_and_selects_lower (fi : file_info) :
  (forall (a u : R) (da du : option (R * orientation)),
     test_anatomical_method fi = Succeeded a da ->
     test_ultimate_method fi = Succeeded u du ->
     excellent_threshold <= a ->
     snd (hybrid fi) = [anatomical; ultimate] /\
     hr_anatomical_result (fst (hybrid fi)) =
       Some {| at_ransac_error := a; at_status := classify_performance a;
               at_details := da |} /\
     hr_ultimate_result (fst (hybrid fi)) =
       Some {| at_ransac_error := u; at_status := classify_performance u;
               at_details := None |} /\
     hr_best_ransac (fst (hybrid fi)) = Some (Rmin a u) /\
     hr_best_performance (fst (hybrid fi)) = Some (classify_performance (Rmin a u)) /\
     (a <= u -> hr_best_method (fst (hybrid fi)) = Some anatomical) /\
     (u < a -> hr_best_method (fst (hybrid fi)) = Some ultimate)) /\
  (forall d : option (R * orientation),
     test_anatomical_method fi = Succeeded 50000 d ->
     snd (hybrid fi) = [anatomical; ultimate] /\
     (forall (u : R) (du : option (R * orientation)),
        test_ultimate_method fi = Succeeded u du ->
        hr_best_ransac (fst (hybrid fi)) = Some (Rmin 50000 u)) /\
     (forall msg : string,
        test_ultimate_method fi = Failed msg ->
        hr_best_ransac (fst (hybrid fi)) = Some 50000 /\
        hr_best_method (fst (hybrid fi)) = Some anatomical)).
Proof.
  assert (G : forall (a u : R) (da du : option (R * orientation)),
     test_anatomical_method fi = Succeeded a da ->
     test_ultimate_method fi = Succeeded u du ->
     excellent_threshold <= a ->
     snd (hybrid fi) = [anatomical; ultimate] /\
     hr_anatomical_result (fst (hybrid fi)) =
       Some {| at_ransac_error := a; at_status := classify_performance a;
               at_details := da |} /\
     hr_ultimate_result (fst (hybrid fi)) =
       Some {| at_ransac_error := u; at_status := classify_performance u;
               at_details := None |} /\
     hr_best_ransac (fst (hybrid fi)) = Some (Rmin a u) /\
     hr_best_performance (fst (hybrid fi)) = Some (classify_performance (Rmin a u)) /\
     (a <= u -> hr_best_method (fst (hybrid fi)) = Some anatomical) /\
     (u < a -> hr_best_method (fst (hybrid fi)) = Some ultimate)).
  { intros a u da du Ha Hu Hge. change (excellent_threshold (T:=R)) with 10 in Hge.
    assert (Hne : classify_performance a <> excellent)
      by (intros H; apply (classify_performance_R a) in H; lra).
    destruct (hybrid_not_excellent _ test_ultimate_method fi a da Ha Hne) as (Hc & Hra & Hru).
    destruct (hybrid_best_of_two _ _ fi a u da du Ha Hu Hne) as (Hm & Hr & Hp).
    rewrite Hu in Hru. cbn in Hm, Hr, Hp.
    split; [exact Hc|]. split; [exact Hra|]. split; [exact Hru|].
    rewrite Hm, Hr, Hp. unfold Rmin, Rleb.
    destruct (Rle_dec a u); repeat split; intros; try reflexivity; lra. }
  split; [exact G|].
  intros d Ha.
  assert (Hne : classify_performance 50000 <> excellent)
    by (intros H; apply (classify_performance_R 50000) in H; lra).
  destruct (hybrid_not_excellent _ test_ultimate_method fi 50000 d Ha Hne) as (Hc & Hra & Hru).
  split; [exact Hc|]. split.
  - intros u du Hu.
    apply (G 50000 u d du Ha Hu). change (excellent_threshold (T:=R)) with 10. lra.
  - intros msg Hu. revert Hra Hru. unfold test_single_file_hybrid.
    rewrite Ha, Hu.
    assert (E : classify_performance 50000 = poor)
      by (apply (classify_performance_R 50000); lra).
    rewrite E. unfold determine_best_method. cbn -[Reqb Rltb].
    intros _ _.
    match goal with |- context [if ?c then _ else _] => destruct c end;
      split; reflexivity.
Qed.

End OrchestratorClaims.

Section OrchestratorRuns.
Local Open Scope R_scope.

Lemma first_attempt_accepted_iff_excellent_witness :
  snd (test_single_file_hybrid
         (constant_run (Succeeded 4.1 None))
         (constant_run (Failed "unused")) some_file) = [anatomical].
Proof.
  destruct (first_attempt_accepted_iff_excellent
              (constant_run (Succeeded 4.1 None))
              (constant_run (Failed "unused")) some_file 4.1 None eq_refl)
    as (E & Hiff & _).
  apply Hiff. rewrite E. lra.
Defined.

Lemma retry_keeps_both_and_selects_lower_witness :
  hr_best_ransac
    (fst (test_single_file_hybrid
            (constant_run (Succeeded 50000 None))
            (constant_run (Succeeded 65 None)) some_file)) = Some (Rmin 50000 65).
Proof.
  destruct (retry_keeps_both_and_selects_lower
              (constant_run (Succeeded 50000 None))
              (constant_run (Succeeded 65 None)) some_file) as (_ & H).
  destruct (H None eq_refl) as (_ & Hu & _).
  exact (Hu 65 None eq_refl).
Defined.

(** C2, counterexample.  At binary64, a first error of 50.0 is below the
    good threshold 100.0, yet the ultimate method is run after the
    anatomical one: the attempt is not accepted without retry. *)
Lemma retry_below_good_threshold_counterexample :
  let run := test_single_file_hybrid
               (constant_run (Succeeded 50%float None))
               (constant_run (Succeeded 20%float None)) some_file in
  ltb 50%float good_threshold = true /\
  snd run = [anatomical; ultimate] /\
  snd run <> [anatomical] /\
  hr_best_method (fst run) = Some ultimate.
Proof.
  cbv zeta. split; [vm_compute; reflexivity|].
  split; [vm_compute; reflexivity|].
  split; [vm_compute; intros H; discriminate H|].
  vm_compute; reflexivity.
Qed.

(** Scenario D at binary64: a first error of 50000 and a second of 65. *)
Example scenario_D_float :
  let run := test_single_file_hybrid
               (constant_run (Succeeded 50000%float None))
               (constant_run (Succeeded 65%float None)) some_file in
  snd run = [anatomical; ultimate] /\
  hr_best_method (fst run) = Some ultimate /\
  hr_best_ransac (fst run) = Some 65%float /\
  hr_best_performance (fst run) = Some very_good /\
  hr_needs_optimization (fst run) = false.
Proof. cbv zeta. repeat split; vm_compute; reflexivity. Qed.

End OrchestratorRuns.

(* ================================================================== *)
(** * Further properties of the modelled code *)

(* ------------------------------------------------------------------ *)
(** ** The rotation solver on inputs of any length *)

Section SolverNormalisation.
Local Open Scope R_scope.

Lemma norm_normalized (v : vec3 R) :
  v <> vec_of_Z 0 0 0 -> norm (vdiv v (norm v)) = 1.
Proof.
  intros Hv. rewrite (norm_eq (vdiv v (norm v))), (dot_normalized v Hv).
  apply sqrt_1.
Qed.

Lemma cross_nonzero_l (a b : vec3 R) : ~ parallel a b -> a <> vec_of_Z 0 0 0.
Proof.
  intros H E. apply H. subst a. unfold parallel. destruct b. vsimp. f_equal; ring.
Qed.

Lemma cross_nonzero_r (a b : vec3 R) : ~ parallel a b -> b <> vec_of_Z 0 0 0.
Proof.
  intros H E. apply H. subst b. unfold parallel. destruct a. vsimp. f_equal; ring.
Qed.

Lemma cross_vdiv (a b : vec3 R) (s t : R) :
  s <> 0 -> t <> 0 -> cross (vdiv a s) (vdiv b t) = vdiv (cross a b) (s * t).
Proof.
  intros Hs Ht. destruct a, b. vsimp. f_equal; field; split; assumption.
Qed.

Lemma vdiv_nonzero (v : vec3 R) (s : R) :
  s <> 0 -> v <> vec_of_Z 0 0 0 -> vdiv v s <> vec_of_Z 0 0 0.
Proof.
  intros Hs Hv E. apply Hv. destruct v as [x y z]. vsimp.
  injection E as Ex Ey Ez.
  assert (Hi : / s <> 0) by (apply Rinv_neq_0_compat; exact Hs).
  unfold Rdiv in *. f_equal; nra.
Qed.

Lemma normalized_not_parallel (a b : vec3 R) :
  ~ parallel a b -> ~ parallel (vdiv a (norm a)) (vdiv b (norm b)).
Proof.
  intros H.
  pose proof (norm_pos a (cross_nonzero_l a b H)) as Ha.
  pose proof (norm_pos b (cross_nonzero_r a b H)) as Hb.
  unfold parallel. rewrite cross_vdiv by lra.
  apply vdiv_nonzero; [nra | exact H].
Qed.

(** The solver only sees the directions of its inputs. *)
Lemma solver_of_normalized (fn fu tn tu : vec3 R) :
  fn <> vec_of_Z 0 0 0 -> fu <> vec_of_Z 0 0 0 ->
  tn <> vec_of_Z 0 0 0 -> tu <> vec_of_Z 0 0 0 ->
  calculate_rotation_matrix fn fu tn tu =
  calculate_rotation_matrix (vdiv fn (norm fn)) (vdiv fu (norm fu))
                            (vdiv tn (norm tn)) (vdiv tu (norm tu)).
Proof.
  intros H1 H2 H3 H4.
  unfold calculate_rotation_matrix at 2. cbv zeta.
  rewrite (normalize_unit _ (norm_normalized fn H1)),
          (normalize_unit _ (norm_normalized fu H2)),
          (normalize_unit _ (norm_normalized tn H3)),
          (normalize_unit _ (norm_normalized tu H4)).
  reflexivity.
Qed.

Lemma vscale_vdiv_norm (v : vec3 R) :
  v <> vec_of_Z 0 0 0 -> vscale (norm v) (vdiv v (norm v)) = v.
Proof.
  intros Hv. pose proof (norm_pos v Hv) as Hp.
  set (s := norm v) in *. clearbody s. destruct v. vsimp. f_equal; field; lra.
Qed.

Lemma matvec_vscale (m : mat3 R) (s : R) (v : vec3 R) :
  matvec m (vscale s v) = vscale s (matvec m v).
Proof. by_components ltac:(ring). Qed.

Lemma normalize_positive_multiple (k : R) (v : vec3 R) :
  0 < k -> vdiv (vscale k v) (norm (vscale k v)) = vdiv v (norm v).
Proof.
  intros Hk.
  assert (E : norm (vscale k v) = k * norm v).
  { rewrite !norm_eq.
    replace (dot (vscale k v) (vscale k v)) with (k * k * dot v v)
      by (destruct v; vsimp; ring).
    rewrite sqrt_mult by (try nra; apply dot_self_nonneg).
    rewrite sqrt_square by lra. reflexivity. }
  rewrite E. destruct (Req_dec_T (norm v) 0) as [Hz|Hz].
  - rewrite Hz. destruct v. vsimp. unfold Rdiv.
    rewrite Rmult_0_r, Rinv_0. f_equal; ring.
  - destruct v. vsimp. f_equal; field; split; lra.
Qed.

(** X1.  Over the reals, for any two pairs of vectors, of any length,
    neither of which is parallel, [calculate_rotation_matrix] returns a
    proper rotation (orthogonal on both sides, determinant one) that sends
    [from_nose] to the direction of [to_nose], keeping its length; and
    multiplying any input by a positive factor does not change the
    matrix. *)
Theorem rotation_solver_normalises_inputs (from_nose from_up to_nose to_up : vec3 R) :
  ~ parallel from_up from_nose -> ~ parallel to_up to_nose ->
  let Rm := calculate_rotation_matrix from_nose from_up to_nose to_up in
  matmul Rm (transpose Rm) = identity3 /\
  matmul (transpose Rm) Rm = identity3 /\
  det Rm = 1 /\
  matvec Rm from_nose = vscale (norm from_nose / norm to_nose) to_nose /\
  forall a b c d : R, 0 < a -> 0 < b -> 0 < c -> 0 < d ->
    calculate_rotation_matrix (vscale a from_nose) (vscale b from_up)
                              (vscale c to_nose) (vscale d to_up) = Rm.
Proof.
  intros Hpf Hpt Rm.
  pose proof (cross_nonzero_r _ _ Hpf) as Hfn.
  pose proof (cross_nonzero_l _ _ Hpf) as Hfu.
  pose proof (cross_nonzero_r _ _ Hpt) as Htn.
  pose proof (cross_nonzero_l _ _ Hpt) as Htu.
  assert (E : Rm = calculate_rotation_matrix
                     (vdiv from_nose (norm from_nose)) (vdiv from_up (norm from_up))
                     (vdiv to_nose (norm to_nose)) (vdiv to_up (norm to_up)))
    by (apply solver_of_normalized; assumption).
  pose proof (normalized_not_parallel _ _ Hpf) as Hpf'.
  pose proof (normalized_not_parallel _ _ Hpt) as Hpt'.
  destruct (solver_orthogonal _ _ _ _
              (norm_normalized _ Hfn) (norm_normalized _ Hfu)
              (norm_normalized _ Htn) (norm_normalized _ Htu) Hpf' Hpt')
    as (Hrows & Hcols & Hdet).
  cbv zeta in Hrows, Hcols, Hdet. rewrite <- E in Hrows, Hcols, Hdet.
  split; [exact Hrows|]. split; [exact Hcols|]. split; [exact Hdet|]. split.
  - destruct (unit_right_facts _ _ (norm_normalized _ Hfn) Hpf') as (Hf1 & Hf2 & Hf3).
    assert (Hn : matvec Rm (vdiv from_nose (norm from_nose)) = vdiv to_nose (norm to_nose)).
    { rewrite E.
      rewrite (calculate_rotation_matrix_unit _ _ _ _
                 (norm_normalized _ Hfn) (norm_normalized _ Hfu)
                 (norm_normalized _ Htn) (norm_normalized _ Htu)).
      rewrite matvec_matmul, (frame_transpose_nose _ _ Hf1 Hf2 Hf3).
      apply column_stack_e3. }
    rewrite <- (vscale_vdiv_norm from_nose Hfn) at 1.
    rewrite matvec_vscale, Hn.
    pose proof (norm_pos _ Htn) as Hp.
    set (s := norm to_nose) in *. set (t := norm from_nose). clearbody s t.
    destruct to_nose. vsimp. f_equal; field; lra.
  - intros a b c d Ha Hb Hc Hd.
    unfold Rm, calculate_rotation_matrix. cbv zeta.
    rewrite !normalize_positive_multiple by assumption. reflexivity.
Qed.

Lemma rotation_solver_normalises_inputs_witness :
  det (calculate_rotation_matrix (T:=R)
         (vec_of_Z 3 0 0) (vec_of_Z 1 0 2) (vec_of_Z 0 0 5) (vec_of_Z 0 4 0)) = 1.
Proof.
  destruct (rotation_solver_normalises_inputs
              (vec_of_Z 3 0 0) (vec_of_Z 1 0 2) (vec_of_Z 0 0 5) (vec_of_Z 0 4 0))
    as (_ & _ & H & _).
  - apply not_parallel_by_component. vsimp. right; left. lra.
  - apply not_parallel_by_component. vsimp. left. lra.
  - exact H.
Defined.

End SolverNormalisation.

(* ------------------------------------------------------------------ *)
(** ** The anatomical transform in normal mode *)

Section NormalMode.
Local Open Scope R_scope.

Lemma norm_vscale (s : R) (v : vec3 R) : norm (vscale s v) = Rabs s * norm v.
Proof.
  rewrite !norm_eq.
  replace (dot (vscale s v) (vscale s v)) with (Rsqr s * dot v v)
    by (destruct v; vsimp; unfold Rsqr; ring).
  rewrite sqrt_mult by (try apply Rle_0_sqr; apply dot_self_nonneg).
  rewrite sqrt_Rsqr_abs. reflexivity.
Qed.

Lemma vscale_sub (s : R) (a b : vec3 R) :
  vsub (vscale s a) (vscale s b) = vscale s (vsub a b).
Proof. by_components ltac:(ring). Qed.

Lemma calculate_anatomical_transform_ok (a : ply_analysis R) :
  ymax (pa_bounds a) - ymin (pa_bounds a) <> 0 ->
  calculate_anatomical_transform a =
  Ok {| translation := vneg (pa_center a);
        rotation_matrix :=
          calculate_rotation_matrix
            (estimated_nose_dir (pa_anatomy a)) (estimated_up_dir (pa_anatomy a))
            (nose_direction anatomical_standard) (up_direction anatomical_standard);
        scale_factor := 190 / Rabs (ymax (pa_bounds a) - ymin (pa_bounds a));
        anatomy_guess := orientation_guess (pa_anatomy a) |}.
Proof.
  intros Hy. unfold calculate_anatomical_transform.
  rewrite pydiv_R_ok by (cbn; apply Rabs_no_R0; exact Hy).
  reflexivity.
Qed.

Lemma calculate_anatomical_transform_zero (a : ply_analysis R) :
  ymax (pa_bounds a) - ymin (pa_bounds a) = 0 ->
  calculate_anatomical_transform a = Raise ZeroDivisionError.
Proof.
  intros Hy. unfold calculate_anatomical_transform.
  change (@sub R Num_R) with Rminus. change (@abs R Num_R) with Rabs.
  rewrite Hy, Rabs_R0, pydiv_R_zero. reflexivity.
Qed.

(** What [apply_anatomical_alignment] returns, case by case. *)
Lemma apply_anatomical_alignment_cases (m : mesh R) :
  (points m = [] /\ apply_anatomical_alignment m = Raise IndexError) \/
  (points m <> [] /\ ymax (mesh_bounds m) - ymin (mesh_bounds m) = 0 /\
   apply_anatomical_alignment m = Raise ZeroDivisionError) \/
  (points m <> [] /\ ymax (mesh_bounds m) - ymin (mesh_bounds m) <> 0 /\
   exists (a : ply_analysis R) (p : transform_params R),
     analyze_ply_anatomy m = Ok a /\
     calculate_anatomical_transform a = Ok p /\
     scale_factor p = 190 / Rabs (ymax (mesh_bounds m) - ymin (mesh_bounds m)) /\
     apply_anatomical_alignment m = Ok {| ar_transform_params := p |}).
Proof.
  destruct (points m) as [|v vs] eqn:Hp.
  - left. split; [reflexivity|]. unfold apply_anatomical_alignment.
    rewrite (analyze_ply_anatomy_empty m Hp). reflexivity.
  - right.
    assert (Hne : points m <> []) by (rewrite Hp; discriminate).
    destruct (analyze_ply_anatomy_ok m Hne) as (a & Ha & _ & Hb & _).
    destruct (Req_dec_T (ymax (mesh_bounds m) - ymin (mesh_bounds m)) 0) as [Hy|Hy].
    + left. split; [discriminate|]. split; [exact Hy|].
      unfold apply_anatomical_alignment. rewrite Ha. cbn [bind].
      rewrite calculate_anatomical_transform_zero by (rewrite Hb; exact Hy).
      reflexivity.
    + right. split; [discriminate|]. split; [exact Hy|].
      assert (Hy' : ymax (pa_bounds a) - ymin (pa_bounds a) <> 0)
        by (rewrite Hb; exact Hy).
      exists a. eexists. split; [exact Ha|].
      split; [exact (calculate_anatomical_transform_ok a Hy')|].
      cbn [scale_factor]. split; [rewrite Hb; reflexivity|].
      unfold apply_anatomical_alignment. rewrite Ha. cbn [bind].
      rewrite (calculate_anatomical_transform_ok a Hy'). cbn [bind].
      reflexivity.
Qed.

(** X2.  Over the reals, [apply_anatomical_alignment] raises [IndexError]
    exactly on a mesh with no vertex, raises [ZeroDivisionError] exactly
    on a mesh with vertices whose Y extent is zero, and returns in every
    other case; [apply_scale_free_alignment] raises [IndexError] exactly
    on a mesh with no vertex and returns in every other case. *)
Theorem alignment_error_behaviour (m : mesh R) :
  (apply_anatomical_alignment m = Raise IndexError <-> points m = []) /\
  (apply_anatomical_alignment m = Raise ZeroDivisionError <->
     points m <> [] /\ ymax (mesh_bounds m) - ymin (mesh_bounds m) = 0) /\
  ((exists r, apply_anatomical_alignment m = Ok r) <->
     points m <> [] /\ ymax (mesh_bounds m) - ymin (mesh_bounds m) <> 0) /\
  (apply_scale_free_alignment m = Raise IndexError <-> points m = []) /\
  ((exists r, apply_scale_free_alignment m = Ok r) <-> points m <> []).
Proof.
  assert (S : (points m = [] /\ apply_scale_free_alignment m = Raise IndexError) \/
              (points m <> [] /\ exists r, apply_scale_free_alignment m = Ok r)).
  { destruct (points m) as [|v vs] eqn:Hp.
    - left. split; [reflexivity|]. unfold apply_scale_free_alignment.
      rewrite (analyze_ply_anatomy_empty m Hp). reflexivity.
    - right. split; [discriminate|].
      assert (Hne : points m <> []) by (rewrite Hp; discriminate).
      destruct (analyze_ply_anatomy_ok m Hne) as (a & Ha & _).
      unfold apply_scale_free_alignment. rewrite Ha. cbn [bind].
      eexists. reflexivity. }
  assert (A1 : apply_anatomical_alignment m = Raise IndexError <-> points m = []).
  { destruct (apply_anatomical_alignment_cases m)
      as [(Hp & E)|[(Hp & Hy & E)|(Hp & Hy & a & p & _ & _ & _ & E)]];
      rewrite E; split; intros H; congruence. }
  assert (A2 : apply_anatomical_alignment m = Raise ZeroDivisionError <->
               points m <> [] /\ ymax (mesh_bounds m) - ymin (mesh_bounds m) = 0).
  { destruct (apply_anatomical_alignment_cases m)
      as [(Hp & E)|[(Hp & Hy & E)|(Hp & Hy & a & p & _ & _ & _ & E)]];
      rewrite E; split; intros H; try discriminate H; try (split; assumption);
      try reflexivity; destruct H; contradiction. }
  assert (A3 : (exists r, apply_anatomical_alignment m = Ok r) <->
               points m <> [] /\ ymax (mesh_bounds m) - ymin (mesh_bounds m) <> 0).
  { destruct (apply_anatomical_alignment_cases m)
      as [(Hp & E)|[(Hp & Hy & E)|(Hp & Hy & a & p & _ & _ & _ & E)]];
      rewrite E; split; intros H;
      try (destruct H as [r H]; discriminate H);
      try (destruct H; contradiction);
      try (split; assumption).
    eexists; reflexivity. }
  split; [exact A1|]. split; [exact A2|]. split; [exact A3|].
  destruct S as [(Hs & Es)|(Hs & r & Es)]; rewrite Es; split; split; intros H;
    try congruence; try (destruct H as [r' H]; discriminate H);
    try (eexists; reflexivity).
Qed.

(** X3.  Over the reals, in normal mode on a mesh with vertices and a
    non-zero Y extent, the scale factor is strictly positive and the
    composed transform multiplies the distance between any two points by
    exactly that factor. *)
Theorem normal_mode_scales_distances (m : mesh R) :
  points m <> [] ->
  ymax (mesh_bounds m) - ymin (mesh_bounds m) <> 0 ->
  exists r : alignment_result R,
    apply_anatomical_alignment m = Ok r /\
    let s := scale_factor (ar_transform_params r) in
    let tr := anatomical_vtk_transform (ar_transform_params r) in
    0 < s /\
    forall p q : vec3 R,
      dist (vtk_TransformPoint tr p) (vtk_TransformPoint tr q) = s * dist p q.
Proof.
  intros Hne Hy.
  destruct (apply_anatomical_alignment_cases m)
    as [(Hp & _)|[(_ & Hy' & _)|(_ & _ & a & p & Ha & Hp & Hs & E)]];
    [contradiction | contradiction |].
  eexists. split; [exact E|]. cbn [ar_transform_params]. cbv zeta.
  assert (Hpos : 0 < scale_factor p).
  { rewrite Hs. apply Rdiv_lt_0_compat; [lra|]. apply Rabs_pos_lt. exact Hy. }
  split; [exact Hpos|].
  intros u v. rewrite !anatomical_transform_point.
  destruct (analysis_rotation m a Ha Hne) as (_ & Horth & _).
  assert (Er : rotation_matrix p =
               calculate_rotation_matrix
                 (estimated_nose_dir (pa_anatomy a)) (estimated_up_dir (pa_anatomy a))
                 (nose_direction anatomical_standard) (up_direction anatomical_standard)).
  { revert Hp. unfold calculate_anatomical_transform.
    destruct (pydiv _ _); cbn [bind]; [|discriminate].
    intros H. injection H as <-. reflexivity. }
  unfold dist at 1. rewrite vscale_sub, norm_vscale, (Rabs_pos_eq _ (Rlt_le _ _ Hpos)).
  f_equal. change (norm (vsub ?x ?y)) with (dist x y).
  rewrite Er, (orthogonal_dist _ _ _ Horth).
  unfold dist. rewrite vadd_vsub_cancel. reflexivity.
Qed.

Lemma normal_mode_scales_distances_witness :
  exists r : alignment_result R,
    apply_anatomical_alignment z_up_segment = Ok r /\
    0 < scale_factor (ar_transform_params r).
Proof.
  destruct (normal_mode_scales_distances z_up_segment) as (r & Hr & Hs & _).
  - discriminate.
  - cbn. lra.
  - exists r. split; assumption.
Defined.

(** X4.  Over the reals, whenever the parameters of normal mode exist,
    the normal-mode transform of a point is the scale factor times its
    scale-preserving transform. *)
Theorem normal_mode_is_scaled_scale_free
    (a : ply_analysis R) (p : transform_params R) (v : vec3 R) :
  calculate_anatomical_transform a = Ok p ->
  vtk_TransformPoint (anatomical_vtk_transform p) v =
  vscale (scale_factor p)
    (vtk_TransformPoint
       (scale_free_vtk_transform (calculate_anatomical_transform_no_scale a)) v).
Proof.
  unfold calculate_anatomical_transform.
  destruct (pydiv _ _) as [sc|e]; cbn [bind]; [|discriminate].
  intros H. injection H as <-.
  rewrite anatomical_transform_point, scale_free_transform_point.
  unfold calculate_anatomical_transform_no_scale.
  cbn [scale_factor rotation_matrix translation].
  replace (vsub (center anatomical_standard) (pa_center a)) with (vneg (pa_center a))
    by (destruct (pa_center a); unfold anatomical_standard; cbn [center]; vsimp;
        f_equal; ring).
  reflexivity.
Qed.

Lemma normal_mode_is_scaled_scale_free_witness :
  exists (a : ply_analysis R) (p : transform_params R),
    calculate_anatomical_transform a = Ok p /\
    vtk_TransformPoint (anatomical_vtk_transform p) (V3 1 2 3) =
    vscale (scale_factor p)
      (vtk_TransformPoint
         (scale_free_vtk_transform (calculate_anatomical_transform_no_scale a))
         (V3 1 2 3)).
Proof.
  destruct (apply_anatomical_alignment_cases z_up_segment)
    as [(Hp & _)|[(_ & Hy & _)|(_ & _ & a & p & _ & Hp & _)]].
  - discriminate Hp.
  - cbn in Hy. lra.
  - exists a, p. split; [exact Hp|].
    exact (normal_mode_is_scaled_scale_free a p (V3 1 2 3) Hp).
Defined.

End NormalMode.

(* ------------------------------------------------------------------ *)
(** ** Where the anatomical transform takes the estimated axes *)

Section AxisMapping.
Local Open Scope R_scope.

Lemma unit_right_standard :
  unit_right (T:=R) (vec_of_Z 0 0 1) (vec_of_Z 0 1 0) = vec_of_Z 1 0 0.
Proof.
  unfold unit_right.
  replace (cross (T:=R) (vec_of_Z 0 1 0) (vec_of_Z 0 0 1)) with (vec_of_Z (T:=R) 1 0 0)
    by (vsimp; f_equal; ring).
  apply normalize_unit, norm_vec_of_Z. reflexivity.
Qed.

Lemma unit_right_x_up :
  unit_right (T:=R) (vec_of_Z 0 1 0) (vec_of_Z 1 0 0) = vec_of_Z 0 0 1.
Proof.
  unfold unit_right.
  replace (cross (T:=R) (vec_of_Z 1 0 0) (vec_of_Z 0 1 0)) with (vec_of_Z (T:=R) 0 0 1)
    by (vsimp; f_equal; ring).
  apply normalize_unit, norm_vec_of_Z. reflexivity.
Qed.

(** The rotation matrices of the two rotated hypotheses. *)
Lemma rotation_z_up :
  calculate_rotation_matrix (T:=R) (vec_of_Z 1 0 0) (vec_of_Z 0 0 1)
    (vec_of_Z 0 0 1) (vec_of_Z 0 1 0) =
  M3 (vec_of_Z 0 1 0) (vec_of_Z 0 0 1) (vec_of_Z 1 0 0).
Proof.
  rewrite calculate_rotation_matrix_unit by (apply norm_vec_of_Z; reflexivity).
  rewrite unit_right_z_up, unit_right_standard. vsimp. f_equal; f_equal; ring.
Qed.

Lemma rotation_x_up :
  calculate_rotation_matrix (T:=R) (vec_of_Z 0 1 0) (vec_of_Z 1 0 0)
    (vec_of_Z 0 0 1) (vec_of_Z 0 1 0) =
  M3 (vec_of_Z 0 0 1) (vec_of_Z 1 0 0) (vec_of_Z 0 1 0).
Proof.
  rewrite calculate_rotation_matrix_unit by (apply norm_vec_of_Z; reflexivity).
  rewrite unit_right_x_up, unit_right_standard. vsimp. f_equal; f_equal; ring.
Qed.

Lemma rotation_standard :
  calculate_rotation_matrix (T:=R) (vec_of_Z 0 0 1) (vec_of_Z 0 1 0)
    (vec_of_Z 0 0 1) (vec_of_Z 0 1 0) = identity3.
Proof.
  apply solver_same_frame; try (apply norm_vec_of_Z; reflexivity).
  apply not_parallel_by_component. vsimp. left. lra.
Qed.

(** X5.  Over the reals, in normal mode on a mesh with vertices and a
    non-zero Y extent, the composed transform takes the estimated up axis
    to +Y and the estimated nose axis to +Z, scaled: for any two points,
    the difference of the images along Y (along Z) is the scale factor
    times the difference of the points along the estimated up (nose)
    direction.  In particular, when the guess is [standard] or
    [unknown], two points that span a positive Y extent of the bounds end
    up exactly 190 apart in Y. *)
Theorem normal_mode_maps_estimated_axes (m : mesh R) :
  points m <> [] ->
  ymax (mesh_bounds m) - ymin (mesh_bounds m) <> 0 ->
  exists (a : ply_analysis R) (r : alignment_result R),
    analyze_ply_anatomy m = Ok a /\
    apply_anatomical_alignment m = Ok r /\
    let an := pa_anatomy a in
    let s := scale_factor (ar_transform_params r) in
    let tr := vtk_TransformPoint (anatomical_vtk_transform (ar_transform_params r)) in
    (forall p q : vec3 R,
       vy (tr q) - vy (tr p) = s * dot (estimated_up_dir an) (vsub q p) /\
       vz (tr q) - vz (tr p) = s * dot (estimated_nose_dir an) (vsub q p)) /\
    (orientation_guess an = standard \/ orientation_guess an = unknown ->
     0 < ymax (mesh_bounds m) - ymin (mesh_bounds m) ->
     forall p q : vec3 R,
       vy q - vy p = ymax (mesh_bounds m) - ymin (mesh_bounds m) ->
       vy (tr q) - vy (tr p) = 190).
Proof.
  intros Hne Hy.
  destruct (analyze_ply_anatomy_ok m Hne) as (a & Ha & _ & Hb & Hg).
  assert (Hy' : ymax (pa_bounds a) - ymin (pa_bounds a) <> 0) by (rewrite Hb; exact Hy).
  exists a. eexists. split; [exact Ha|]. split.
  { unfold apply_anatomical_alignment. rewrite Ha. cbn [bind].
    rewrite (calculate_anatomical_transform_ok a Hy'). cbn [bind]. reflexivity. }
  cbn [ar_transform_params scale_factor]. cbv zeta.
  assert (G : forall p q : vec3 R,
     vy (vtk_TransformPoint (anatomical_vtk_transform
          {| translation := vneg (pa_center a);
             rotation_matrix :=
               calculate_rotation_matrix
                 (estimated_nose_dir (pa_anatomy a)) (estimated_up_dir (pa_anatomy a))
                 (nose_direction anatomical_standard) (up_direction anatomical_standard);
             scale_factor := 190 / Rabs (ymax (pa_bounds a) - ymin (pa_bounds a));
             anatomy_guess := orientation_guess (pa_anatomy a) |}) q) -
     vy (vtk_TransformPoint (anatomical_vtk_transform
          {| translation := vneg (pa_center a);
             rotation_matrix :=
               calculate_rotation_matrix
                 (estimated_nose_dir (pa_anatomy a)) (estimated_up_dir (pa_anatomy a))
                 (nose_direction anatomical_standard) (up_direction anatomical_standard);
             scale_factor := 190 / Rabs (ymax (pa_bounds a) - ymin (pa_bounds a));
             anatomy_guess := orientation_guess (pa_anatomy a) |}) p) =
     190 / Rabs (ymax (pa_bounds a) - ymin (pa_bounds a)) *
       dot (estimated_up_dir (pa_anatomy a)) (vsub q p) /\
     vz (vtk_TransformPoint (anatomical_vtk_transform
          {| translation := vneg (pa_center a);
             rotation_matrix :=
               calculate_rotation_matrix
                 (estimated_nose_dir (pa_anatomy a)) (estimated_up_dir (pa_anatomy a))
                 (nose_direction anatomical_standard) (up_direction anatomical_standard);
             scale_factor := 190 / Rabs (ymax (pa_bounds a) - ymin (pa_bounds a));
             anatomy_guess := orientation_guess (pa_anatomy a) |}) q) -
     vz (vtk_TransformPoint (anatomical_vtk_transform
          {| translation := vneg (pa_center a);
             rotation_matrix :=
               calculate_rotation_matrix
                 (estimated_nose_dir (pa_anatomy a)) (estimated_up_dir (pa_anatomy a))
                 (nose_direction anatomical_standard) (up_direction anatomical_standard);
             scale_factor := 190 / Rabs (ymax (pa_bounds a) - ymin (pa_bounds a));
             anatomy_guess := orientation_guess (pa_anatomy a) |}) p) =
     190 / Rabs (ymax (pa_bounds a) - ymin (pa_bounds a)) *
       dot (estimated_nose_dir (pa_anatomy a)) (vsub q p)).
  { intros p q. rewrite !anatomical_transform_point.
    cbn [translation rotation_matrix scale_factor].
    set (s := 190 / Rabs (ymax (pa_bounds a) - ymin (pa_bounds a))). clearbody s.
    match type of Hg with
    | _ = estimate_orientation ?x ?y ?z =>
        destruct (estimate_orientation_cases x y z) as [E|[E|[E|E]]];
          rewrite E in Hg; injection Hg as _ Hnose Hup; rewrite Hnose, Hup
    end;
      unfold anatomical_standard; cbn [nose_direction up_direction];
      rewrite ?rotation_standard, ?rotation_z_up, ?rotation_x_up;
      destruct (pa_center a), p, q; vsimp; split; ring. }
  split; [exact G|].
  intros Hguess Hpos p q Hpq.
  destruct (G p q) as (Gy & _). rewrite Gy.
  assert (Hup : estimated_up_dir (pa_anatomy a) = vec_of_Z 0 1 0).
  { match type of Hg with
    | _ = estimate_orientation ?x ?y ?z =>
        destruct (estimate_orientation_cases x y z) as [E|[E|[E|E]]];
          rewrite E in Hg; injection Hg as Hgs _ Hup
    end; try exact Hup; destruct Hguess; congruence. }
  rewrite Hup, Hb, (Rabs_pos_eq _ (Rlt_le _ _ Hpos)).
  destruct p, q. vsimp. rewrite Rmult_0_l, Rmult_0_l, Rplus_0_l, Rplus_0_r, Rmult_1_l.
  rewrite Hpq. field. lra.
Qed.

Lemma estimate_orientation_standard (x y z : R) :
  x < y -> z < x ->
  estimate_orientation x y z = (standard, vec_of_Z 0 0 1, vec_of_Z 0 1 0).
Proof.
  intros H1 H2. unfold estimate_orientation. cbn -[Rltb].
  rewrite (proj2 (Rltb_true x y) H1), (proj2 (Rltb_true z x) H2). reflexivity.
Qed.

Lemma normal_mode_maps_estimated_axes_witness :
  exists r : alignment_result R,
    apply_anatomical_alignment standard_segment = Ok r /\
    vy (vtk_TransformPoint (anatomical_vtk_transform (ar_transform_params r)) (V3 2 3 1)) -
    vy (vtk_TransformPoint (anatomical_vtk_transform (ar_transform_params r)) (V3 0 0 0))
    = 190.
Proof.
  destruct (normal_mode_maps_estimated_axes standard_segment)
    as (a & r & Ha & Hr & _ & H190).
  - discriminate.
  - cbn. lra.
  - exists r. split; [exact Hr|]. apply H190.
    + left.
      destruct (analyze_ply_anatomy_ok standard_segment) as (a' & Ha' & _ & _ & Hg);
        [discriminate|].
      rewrite Ha in Ha'. injection Ha' as <-.
      rewrite estimate_orientation_standard in Hg by (cbn; lra).
      injection Hg as Hguess _ _. exact Hguess.
    + cbn. lra.
    + cbn. lra.
Defined.

End AxisMapping.

(* ------------------------------------------------------------------ *)
(** ** The detector: extremal points and the order of the extents *)

Section DetectorDetails.
Local Open Scope R_scope.

Lemma row_at_best_max (key : vec3 R -> R) (vs : list (vec3 R)) :
  forall best : vec3 R,
    let w := row_at_best (fun a b : R => ltb b a) key best vs in
    In w (best :: vs) /\ key best <= key w /\
    forall x : vec3 R, In x vs -> key x <= key w.
Proof.
  induction vs as [|v vs IH]; intros best; cbn [row_at_best].
  - split; [left; reflexivity|]. split; [lra|]. intros x [].
  - cbv beta. destruct (ltb (key best) (key v)) eqn:E;
      [apply Rltb_true in E | apply Rltb_false in E].
    + destruct (IH v) as (Hin & Hle & Hall). cbv zeta in *.
      split; [destruct Hin as [Hin|Hin]; [right; left; exact Hin | right; right; exact Hin]|].
      split; [lra|]. intros x [<-|Hx]; [exact Hle | exact (Hall x Hx)].
    + destruct (IH best) as (Hin & Hle & Hall). cbv zeta in *.
      split; [destruct Hin as [Hin|Hin]; [left; exact Hin | right; right; exact Hin]|].
      split; [exact Hle|]. intros x [<-|Hx]; [lra | exact (Hall x Hx)].
Qed.

Lemma row_at_best_min (key : vec3 R -> R) (vs : list (vec3 R)) :
  forall best : vec3 R,
    let w := row_at_best (fun a b : R => ltb a b) key best vs in
    In w (best :: vs) /\ key w <= key best /\
    forall x : vec3 R, In x vs -> key w <= key x.
Proof.
  induction vs as [|v vs IH]; intros best; cbn [row_at_best].
  - split; [left; reflexivity|]. split; [lra|]. intros x [].
  - cbv beta. destruct (ltb (key v) (key best)) eqn:E;
      [apply Rltb_true in E | apply Rltb_false in E].
    + destruct (IH v) as (Hin & Hle & Hall). cbv zeta in *.
      split; [destruct Hin as [Hin|Hin]; [right; left; exact Hin | right; right; exact Hin]|].
      split; [lra|]. intros x [<-|Hx]; [exact Hle | exact (Hall x Hx)].
    + destruct (IH best) as (Hin & Hle & Hall). cbv zeta in *.
      split; [destruct Hin as [Hin|Hin]; [left; exact Hin | right; right; exact Hin]|].
      split; [exact Hle|]. intros x [<-|Hx]; [lra | exact (Hall x Hx)].
Qed.

Lemma row_at_argmax_spec (key : vec3 R -> R) (vs : list (vec3 R)) (w : vec3 R) :
  row_at_argmax key vs = Ok w ->
  In w vs /\ forall x : vec3 R, In x vs -> key x <= key w.
Proof.
  destruct vs as [|v vs]; [discriminate|]. cbn [row_at_argmax].
  intros H. injection H as <-.
  destruct (row_at_best_max key vs v) as (Hin & Hle & Hall). cbv zeta in *.
  split; [exact Hin|]. intros x [<-|Hx]; [exact Hle | exact (Hall x Hx)].
Qed.

Lemma row_at_argmin_spec (key : vec3 R -> R) (vs : list (vec3 R)) (w : vec3 R) :
  row_at_argmin key vs = Ok w ->
  In w vs /\ forall x : vec3 R, In x vs -> key w <= key x.
Proof.
  destruct vs as [|v vs]; [discriminate|]. cbn [row_at_argmin].
  intros H. injection H as <-.
  destruct (row_at_best_min key vs v) as (Hin & Hle & Hall). cbv zeta in *.
  split; [exact Hin|]. intros x [<-|Hx]; [exact Hle | exact (Hall x Hx)].
Qed.

(** X6.  Over the reals, whenever the analysis returns, the six extremal
    points are vertices of the mesh that are extremal in their coordinate,
    the nose candidate is a vertex that lies furthest along the estimated
    nose direction, and the head-top candidate is a vertex that lies
    furthest along the estimated up direction. *)
Theorem candidates_are_extremal_vertices (m : mesh R) (a : ply_analysis R) :
  analyze_ply_anatomy m = Ok a ->
  let an := pa_anatomy a in
  let e := extremes an in
  (In (x_min e) (points m) /\ In (x_max e) (points m) /\
   In (y_min e) (points m) /\ In (y_max e) (points m) /\
   In (z_min e) (points m) /\ In (z_max e) (points m) /\
   In (nose_candidate an) (points m) /\ In (head_top_candidate an) (points m)) /\
  forall v : vec3 R, In v (points m) ->
    vx (x_min e) <= vx v <= vx (x_max e) /\
    vy (y_min e) <= vy v <= vy (y_max e) /\
    vz (z_min e) <= vz v <= vz (z_max e) /\
    dot (estimated_nose_dir an) v <= dot (estimated_nose_dir an) (nose_candidate an) /\
    dot (estimated_up_dir an) v <= dot (estimated_up_dir an) (head_top_candidate an).
Proof.
  unfold analyze_ply_anatomy, detect_anatomical_features.
  destruct (row_at_argmin vx (points m)) as [xn|] eqn:Exn; cbn [bind]; [|discriminate].
  destruct (row_at_argmax vx (points m)) as [xm|] eqn:Exm; cbn [bind]; [|discriminate].
  destruct (row_at_argmin vy (points m)) as [yn|] eqn:Eyn; cbn [bind]; [|discriminate].
  destruct (row_at_argmax vy (points m)) as [ym|] eqn:Eym; cbn [bind]; [|discriminate].
  destruct (row_at_argmin vz (points m)) as [zn|] eqn:Ezn; cbn [bind]; [|discriminate].
  destruct (row_at_argmax vz (points m)) as [zm|] eqn:Ezm; cbn [bind]; [|discriminate].
  apply row_at_argmin_spec in Exn, Eyn, Ezn. apply row_at_argmax_spec in Exm, Eym, Ezm.
  destruct Exn as (Ixn & Hxn), Exm as (Ixm & Hxm), Eyn as (Iyn & Hyn),
           Eym as (Iym & Hym), Ezn as (Izn & Hzn), Ezm as (Izm & Hzm).
  match goal with
  | |- context [estimate_orientation ?x ?y ?z] =>
      destruct (estimate_orientation_cases x y z) as [E|[E|[E|E]]]; rewrite E
  end;
    intros H; injection H as <-;
    cbn [pa_anatomy extremes x_min x_max y_min y_max z_min z_max nose_candidate
         head_top_candidate estimated_nose_dir estimated_up_dir];
    (split; [repeat split; assumption|]);
    intros v Hv;
    specialize (Hxn v Hv); specialize (Hxm v Hv); specialize (Hyn v Hv);
    specialize (Hym v Hv); specialize (Hzn v Hv); specialize (Hzm v Hv);
    destruct v, xn, xm, yn, ym, zn, zm; vsimp; repeat split; lra.
Qed.

Lemma candidates_are_extremal_vertices_witness :
  exists a : ply_analysis R,
    analyze_ply_anatomy standard_segment = Ok a /\
    In (nose_candidate (pa_anatomy a)) (points standard_segment).
Proof.
  destruct (analyze_ply_anatomy_ok standard_segment) as (a & Ha & _);
    [discriminate|].
  exists a. split; [exact Ha|].
  destruct (candidates_are_extremal_vertices standard_segment a Ha) as (H & _).
  destruct H as (_ & _ & _ & _ & _ & _ & Hn & _). exact Hn.
Defined.

Lemma Rltb_scale (k x y : R) : 0 < k -> Rltb (k * x) (k * y) = Rltb x y.
Proof.
  intros Hk. destruct (Rltb x y) eqn:E.
  - apply Rltb_true in E. apply Rltb_true. nra.
  - apply Rltb_false in E. apply Rltb_false. nra.
Qed.

(** X7.  Over the reals, the orientation estimate depends only on the
    strict order of the three extents: multiplying them by a common
    positive factor changes nothing; any tie between two extents, and each
    of the three strict orders that are not anticipated (height > depth >
    width, depth > width > height, width > height > depth), gives
    [unknown] with the default directions. *)
Theorem orientation_depends_on_order (x y z : R) :
  (forall k : R, 0 < k ->
     estimate_orientation (k * x) (k * y) (k * z) = estimate_orientation x y z) /\
  (x = y \/ y = z \/ z = x \/
   (y > z /\ z > x) \/ (z > x /\ x > y) \/ (x > y /\ y > z) ->
   estimate_orientation x y z = (unknown, vec_of_Z 0 0 1, vec_of_Z 0 1 0)).
Proof.
  split.
  - intros k Hk. unfold estimate_orientation. cbn -[Rltb].
    rewrite !(Rltb_scale k) by exact Hk. reflexivity.
  - intros H. unfold estimate_orientation. cbn -[Rltb].
    repeat match goal with
           | |- context [Rltb ?a ?b] =>
               let E := fresh "E" in
               destruct (Rltb a b) eqn:E;
               [apply Rltb_true in E | apply Rltb_false in E]
           end;
      cbn; try reflexivity; exfalso;
      destruct H as [H|[H|[H|[[H H']|[[H H']|[H H']]]]]]; lra.
Qed.

End DetectorDetails.

(* ------------------------------------------------------------------ *)
(** ** The scorer and the analysis of the hybrid aligner *)

Section ScorerDetails.
Context {T : Type} {N : Num T}.

(** X8.  At every number type, the two scores that [select_optimal_method]
    returns are the sums of the deltas announced by the entries of its
    rationale; there are between one and five entries; and both scores lie
    between 0 and 9. *)
Theorem scores_match_rationale (ch : characteristics T) :
  let f := snd (select_optimal_method ch) in
  anatomical_score f = fold_right Z.add 0%Z (map (fun r => fst (reason_delta r)) (reasons f)) /\
  ultimate_score f = fold_right Z.add 0%Z (map (fun r => snd (reason_delta r)) (reasons f)) /\
  (1 <= List.length (reasons f) <= 5)%nat /\
  (0 <= anatomical_score f <= 9)%Z /\
  (0 <= ultimate_score f <= 9)%Z.
Proof.
  unfold select_optimal_method, score_factors. cbn [snd].
  destruct (ch_is_standard_face ch),
           (ltb (ch_max_aspect_ratio ch) (div (of_Z 3) (of_Z 2))),
           (ltb (of_Z 3) (ch_max_aspect_ratio ch)),
           (ltb (of_Z 100) (ch_vertex_density ch)),
           (ltb (ch_vertex_density ch) (of_Z 10)),
           (ch_has_colors ch && ch_has_normals ch),
           (Nat.eqb (ch_n_arrays ch) 0),
           (ltb (of_Z 100) (ch_diagonal ch) && ltb (ch_diagonal ch) (of_Z 300)),
           (ltb (of_Z 500) (ch_diagonal ch) || ltb (ch_diagonal ch) (of_Z 50));
    cbn; repeat split; try reflexivity; lia.
Qed.

(** A face that counts as standard, with proportions that are not
    extreme and a diagonal in the standard range, is given to the
    anatomical method. *)
Lemma standard_face_selects_anatomical (ch : characteristics T) :
  ch_is_standard_face ch = true ->
  ltb (of_Z 3) (ch_max_aspect_ratio ch) = false ->
  (ltb (of_Z 100) (ch_diagonal ch) && ltb (ch_diagonal ch) (of_Z 300)) = true ->
  fst (select_optimal_method ch) = anatomical /\
  (ultimate_score (snd (select_optimal_method ch)) + 2 <=
   anatomical_score (snd (select_optimal_method ch)))%Z.
Proof.
  intros H1 H2 H3. unfold select_optimal_method, score_factors.
  rewrite H1, H2, H3. cbn [fst snd].
  destruct (ltb (ch_max_aspect_ratio ch) (div (of_Z 3) (of_Z 2))),
           (ltb (of_Z 100) (ch_vertex_density ch)),
           (ltb (ch_vertex_density ch) (of_Z 10)),
           (ch_has_colors ch && ch_has_normals ch),
           (Nat.eqb (ch_n_arrays ch) 0);
    vm_compute; split; try reflexivity; intros H; discriminate H.
Qed.

(** What a returned analysis holds. *)
Lemma analyze_ply_characteristics_fields (m : mesh T) (ch : characteristics T) :
  analyze_ply_characteristics m = Ok ch ->
  ch_width ch = sub (xmax (mesh_bounds m)) (xmin (mesh_bounds m)) /\
  ch_height ch = sub (ymax (mesh_bounds m)) (ymin (mesh_bounds m)) /\
  ch_depth ch = sub (zmax (mesh_bounds m)) (zmin (mesh_bounds m)) /\
  ch_is_standard_face ch =
    (ltb (ch_width ch) (ch_height ch) && ltb (ch_depth ch) (ch_width ch))
    && ltb (ch_max_aspect_ratio ch) (of_Z 2) /\
  ch_n_points ch = Z.of_nat (List.length (points m)) /\
  ch_n_arrays ch = List.length (point_data m) /\
  (ch_has_colors ch, ch_has_normals ch) = scan_point_arrays 0 (point_data m) false false.
Proof.
  unfold analyze_ply_characteristics.
  destruct (scan_point_arrays 0 (point_data m) false false) as [hc hn].
  destruct (pydiv _ _) as [r1|e]; cbn [bind]; [|discriminate].
  destruct (pydiv _ _) as [r2|e]; cbn [bind]; [|discriminate].
  destruct (pydiv _ _) as [r3|e]; cbn [bind]; [|discriminate].
  intros H. injection H as <-. cbn. repeat split.
Qed.

(** X9.  At every number type, when the analysis of the hybrid aligner
    flags a mesh as a standard face, the orientation detector of the
    anatomical aligner, run on the same mesh, answers [standard]. *)
Theorem standard_face_agrees_with_detector
    (m : mesh T) (ch : characteristics T) (a : ply_analysis T) :
  analyze_ply_characteristics m = Ok ch ->
  analyze_ply_anatomy m = Ok a ->
  ch_is_standard_face ch = true ->
  orientation_guess (pa_anatomy a) = standard /\
  estimated_nose_dir (pa_anatomy a) = vec_of_Z 0 0 1 /\
  estimated_up_dir (pa_anatomy a) = vec_of_Z 0 1 0.
Proof.
  intros Hch Ha Hstd.
  destruct (analyze_ply_characteristics_fields m ch Hch) as (Hw & Hh & Hd & Hs & _).
  rewrite Hs in Hstd. apply andb_prop in Hstd as [Hord _].
  rewrite Hw, Hh, Hd in Hord.
  assert (Hne : points m <> []).
  { intros E. rewrite (analyze_ply_anatomy_empty m E) in Ha. discriminate Ha. }
  destruct (analyze_ply_anatomy_ok m Hne) as (a' & Ha' & _ & _ & Hg).
  rewrite Ha in Ha'. injection Ha' as <-.
  unfold estimate_orientation in Hg. rewrite Hord in Hg.
  injection Hg as H1 H2 H3. repeat split; assumption.
Qed.

End ScorerDetails.

Lemma standard_face_agrees_with_detector_witness :
  exists (ch : characteristics float) (a : ply_analysis float),
    analyze_ply_characteristics
      {| points := [V3 0 0 0; V3 120 150 100]%float;
         mesh_bounds := (Bounds 0 120 0 150 0 100)%float;
         point_data := [] |} = Ok ch /\
    ch_is_standard_face ch = true /\
    orientation_guess (pa_anatomy a) = standard.
Proof.
  eexists. eexists. split; [vm_compute; reflexivity|]. split; [reflexivity|].
  refine (proj1 (standard_face_agrees_with_detector
                   {| points := [V3 0 0 0; V3 120 150 100]%float;
                      mesh_bounds := (Bounds 0 120 0 150 0 100)%float;
                      point_data := [] |} _ _ _ _ _)).
  - vm_compute. reflexivity.
  - vm_compute. reflexivity.
  - reflexivity.
Defined.

Section CharacteristicsReal.
Local Open Scope R_scope.

Lemma pymax_Rmax (a b : R) : pymax a b = Rmax a b.
Proof.
  unfold pymax, Rmax. cbn -[Rltb].
  destruct (Rltb a b) eqn:E; [apply Rltb_true in E | apply Rltb_false in E];
    destruct (Rle_dec a b); lra.
Qed.

Lemma pymin_Rmin (a b : R) : pymin a b = Rmin a b.
Proof.
  unfold pymin, Rmin. cbn -[Rltb].
  destruct (Rltb b a) eqn:E; [apply Rltb_true in E | apply Rltb_false in E];
    destruct (Rle_dec a b); lra.
Qed.

Lemma aspect_ratio_ok (a b : R) :
  0 < a -> 0 < b ->
  pydiv (pymax a b) (pymin a b) = Ok (Rmax a b / Rmin a b) /\
  1 <= Rmax a b / Rmin a b.
Proof.
  intros Ha Hb. rewrite pymax_Rmax, pymin_Rmin.
  assert (Hm : 0 < Rmin a b) by (apply Rmin_glb_lt; assumption).
  split; [apply pydiv_R_ok; lra|].
  apply (Rmult_le_reg_r (Rmin a b)); [exact Hm|].
  unfold Rdiv. rewrite Rmult_assoc, Rinv_l by lra.
  rewrite Rmult_1_l, Rmult_1_r. apply Rle_trans with a; [apply Rmin_l | apply Rmax_l].
Qed.

Lemma aspect_ratio_zero (a b : R) :
  0 <= a -> 0 <= b -> a = 0 \/ b = 0 ->
  pydiv (pymax a b) (pymin a b) = Raise ZeroDivisionError.
Proof.
  intros Ha Hb H. rewrite pymax_Rmax, pymin_Rmin.
  replace (Rmin a b) with 0; [apply pydiv_R_zero|].
  unfold Rmin. destruct (Rle_dec a b); lra.
Qed.

(** On a mesh whose three extents are strictly positive the analysis
    returns. *)
Lemma analyze_ply_characteristics_returns (m : mesh R) :
  0 < xmax (mesh_bounds m) - xmin (mesh_bounds m) ->
  0 < ymax (mesh_bounds m) - ymin (mesh_bounds m) ->
  0 < zmax (mesh_bounds m) - zmin (mesh_bounds m) ->
  exists ch : characteristics R, analyze_ply_characteristics m = Ok ch.
Proof.
  intros Hw Hh Hd. unfold analyze_ply_characteristics.
  destruct (scan_point_arrays 0 (point_data m) false false) as [hc hn].
  change (@sub R Num_R) with Rminus.
  destruct (aspect_ratio_ok _ _ Hw Hh) as (E1 & _).
  destruct (aspect_ratio_ok _ _ Hw Hd) as (E2 & _).
  destruct (aspect_ratio_ok _ _ Hh Hd) as (E3 & _).
  rewrite E1. cbn [bind]. rewrite E2. cbn [bind]. rewrite E3. cbn [bind].
  eexists. reflexivity.
Qed.

(** X10.  Over the reals, on a mesh whose three extents are strictly
    positive the analysis of the hybrid aligner returns; each of its
    three aspect ratios is at least 1 and at most the largest one; and
    the diagonal is strictly positive.  On a mesh with non-negative
    extents one of which is zero (a flat or empty box), it raises
    [ZeroDivisionError]. *)
Theorem characteristics_of_boxes (m : mesh R) :
  let w := xmax (mesh_bounds m) - xmin (mesh_bounds m) in
  let h := ymax (mesh_bounds m) - ymin (mesh_bounds m) in
  let d := zmax (mesh_bounds m) - zmin (mesh_bounds m) in
  (0 < w -> 0 < h -> 0 < d ->
   exists ch : characteristics R,
     analyze_ply_characteristics m = Ok ch /\
     ch_aspect_ratios ch = (Rmax w h / Rmin w h, Rmax w d / Rmin w d, Rmax h d / Rmin h d) /\
     (let '(r1, r2, r3) := ch_aspect_ratios ch in
      1 <= r1 <= ch_max_aspect_ratio ch /\
      1 <= r2 <= ch_max_aspect_ratio ch /\
      1 <= r3 <= ch_max_aspect_ratio ch) /\
     0 < ch_diagonal ch) /\
  (0 <= w -> 0 <= h -> 0 <= d -> w = 0 \/ h = 0 \/ d = 0 ->
   analyze_ply_characteristics m = Raise ZeroDivisionError).
Proof.
  cbv zeta. split.
  - intros Hw Hh Hd. unfold analyze_ply_characteristics.
    destruct (scan_point_arrays 0 (point_data m) false false) as [hc hn].
    change (@sub R Num_R) with Rminus.
    destruct (aspect_ratio_ok _ _ Hw Hh) as (E1 & L1).
    destruct (aspect_ratio_ok _ _ Hw Hd) as (E2 & L2).
    destruct (aspect_ratio_ok _ _ Hh Hd) as (E3 & L3).
    rewrite E1. cbn [bind]. rewrite E2. cbn [bind]. rewrite E3. cbn [bind].
    eexists. split; [reflexivity|].
    cbn [ch_aspect_ratios ch_max_aspect_ratio ch_diagonal].
    split; [reflexivity|]. rewrite !pymax_Rmax. split.
    + repeat split; try assumption.
      * apply Rle_trans with (Rmax (Rmax (xmax (mesh_bounds m) - xmin (mesh_bounds m))
                                         (ymax (mesh_bounds m) - ymin (mesh_bounds m)) /
                                    Rmin (xmax (mesh_bounds m) - xmin (mesh_bounds m))
                                         (ymax (mesh_bounds m) - ymin (mesh_bounds m)))
                                   (Rmax (xmax (mesh_bounds m) - xmin (mesh_bounds m))
                                         (zmax (mesh_bounds m) - zmin (mesh_bounds m)) /
                                    Rmin (xmax (mesh_bounds m) - xmin (mesh_bounds m))
                                         (zmax (mesh_bounds m) - zmin (mesh_bounds m))));
          [apply Rmax_l | apply Rmax_l].
      * apply Rle_trans with (Rmax (Rmax (xmax (mesh_bounds m) - xmin (mesh_bounds m))
                                         (ymax (mesh_bounds m) - ymin (mesh_bounds m)) /
                                    Rmin (xmax (mesh_bounds m) - xmin (mesh_bounds m))
                                         (ymax (mesh_bounds m) - ymin (mesh_bounds m)))
                                   (Rmax (xmax (mesh_bounds m) - xmin (mesh_bounds m))
                                         (zmax (mesh_bounds m) - zmin (mesh_bounds m)) /
                                    Rmin (xmax (mesh_bounds m) - xmin (mesh_bounds m))
                                         (zmax (mesh_bounds m) - zmin (mesh_bounds m))));
          [apply Rmax_r | apply Rmax_l].
      * apply Rmax_r.
    + change (@sqrt R Num_R) with R_sqrt.sqrt. apply sqrt_lt_R0. cbn. nra.
  - intros Hw Hh Hd Hz. unfold analyze_ply_characteristics.
    destruct (scan_point_arrays 0 (point_data m) false false) as [hc hn].
    change (@sub R Num_R) with Rminus.
    destruct (Req_dec_T (xmax (mesh_bounds m) - xmin (mesh_bounds m)) 0) as [Zw|Zw];
      [rewrite aspect_ratio_zero by (try assumption; left; exact Zw); reflexivity|].
    destruct (Req_dec_T (ymax (mesh_bounds m) - ymin (mesh_bounds m)) 0) as [Zh|Zh];
      [rewrite aspect_ratio_zero by (try assumption; right; exact Zh); reflexivity|].
    assert (Zd : zmax (mesh_bounds m) - zmin (mesh_bounds m) = 0)
      by (destruct Hz as [?|[?|?]]; [contradiction|contradiction|assumption]).
    destruct (aspect_ratio_ok (xmax (mesh_bounds m) - xmin (mesh_bounds m))
                (ymax (mesh_bounds m) - ymin (mesh_bounds m))) as (E1 & _); [lra|lra|].
    rewrite E1. cbn [bind].
    rewrite aspect_ratio_zero by (try assumption; right; exact Zd). reflexivity.
Qed.

Lemma characteristics_of_boxes_witness :
  exists ch : characteristics R,
    analyze_ply_characteristics standard_segment = Ok ch /\ 0 < ch_diagonal ch.
Proof.
  destruct (characteristics_of_boxes standard_segment) as (H & _).
  destruct H as (ch & H1 & _ & _ & H2); try (cbn; lra).
  exists ch. split; assumption.
Defined.

(** X11.  Over the reals, a mesh that the hybrid analysis flags as a
    standard face and whose diagonal is strictly between 100 and 300 is
    given to the anatomical method, with a margin of at least two points,
    whatever its vertex count and point-data arrays. *)
Theorem standard_face_of_plausible_size_is_anatomical
    (m : mesh R) (ch : characteristics R) :
  analyze_ply_characteristics m = Ok ch ->
  ch_is_standard_face ch = true ->
  100 < ch_diagonal ch < 300 ->
  fst (select_optimal_method ch) = anatomical /\
  (ultimate_score (snd (select_optimal_method ch)) + 2 <=
   anatomical_score (snd (select_optimal_method ch)))%Z.
Proof.
  intros Hch Hstd [Hlo Hhi].
  destruct (analyze_ply_characteristics_fields m ch Hch) as (_ & _ & _ & Hs & _).
  assert (Hmar : ch_max_aspect_ratio ch < 2).
  { pose proof Hstd as H2. rewrite Hs in H2. apply andb_prop in H2 as [_ H2].
    apply Rltb_true in H2. exact H2. }
  apply standard_face_selects_anatomical.
  - exact Hstd.
  - apply Rltb_false. cbn. lra.
  - apply andb_true_intro. split; apply Rltb_true; cbn; lra.
Qed.

Lemma standard_face_of_plausible_size_is_anatomical_witness :
  exists ch : characteristics R,
    analyze_ply_characteristics
      {| points := [V3 0 0 0; V3 120 150 100];
         mesh_bounds := Bounds 0 120 0 150 0 100;
         point_data := [] |} = Ok ch /\
    fst (select_optimal_method ch) = anatomical.
Proof.
  set (m := {| points := [V3 0 0 0; V3 120 150 100];
               mesh_bounds := Bounds 0 120 0 150 0 100;
               point_data := [] |} : mesh R).
  destruct (analyze_ply_characteristics_returns m) as (ch & Hch); try (cbn; lra).
  exists ch. split; [exact Hch|].
  destruct (analyze_ply_characteristics_fields m ch Hch) as (Hw & Hh & Hd & Hs & _).
  assert (Hmax : ch_max_aspect_ratio ch = 3 / 2).
  { revert Hch. unfold analyze_ply_characteristics. cbn [m mesh_bounds point_data points].
    cbn [scan_point_arrays xmax xmin ymax ymin zmax zmin].
    change (@sub R Num_R) with Rminus.
    destruct (aspect_ratio_ok (120 - 0) (150 - 0)) as (E1 & _); [lra|lra|].
    destruct (aspect_ratio_ok (120 - 0) (100 - 0)) as (E2 & _); [lra|lra|].
    destruct (aspect_ratio_ok (150 - 0) (100 - 0)) as (E3 & _); [lra|lra|].
    rewrite E1. cbn [bind]. rewrite E2. cbn [bind]. rewrite E3. cbn [bind].
    intros H. injection H as <-. cbn [ch_max_aspect_ratio].
    rewrite !pymax_Rmax.
    replace (Rmax (120 - 0) (150 - 0)) with 150 by (unfold Rmax; destruct (Rle_dec _ _); lra).
    replace (Rmin (120 - 0) (150 - 0)) with 120 by (unfold Rmin; destruct (Rle_dec _ _); lra).
    replace (Rmax (120 - 0) (100 - 0)) with 120 by (unfold Rmax; destruct (Rle_dec _ _); lra).
    replace (Rmin (120 - 0) (100 - 0)) with 100 by (unfold Rmin; destruct (Rle_dec _ _); lra).
    replace (Rmax (150 - 0) (100 - 0)) with 150 by (unfold Rmax; destruct (Rle_dec _ _); lra).
    replace (Rmin (150 - 0) (100 - 0)) with 100 by (unfold Rmin; destruct (Rle_dec _ _); lra).
    unfold Rmax. repeat destruct (Rle_dec _ _); lra. }
  assert (Hdiag : ch_diagonal ch = R_sqrt.sqrt 46900).
  { revert Hch. unfold analyze_ply_characteristics. cbn [m mesh_bounds point_data points].
    cbn [scan_point_arrays xmax xmin ymax ymin zmax zmin].
    change (@sub R Num_R) with Rminus.
    destruct (aspect_ratio_ok (120 - 0) (150 - 0)) as (E1 & _); [lra|lra|].
    destruct (aspect_ratio_ok (120 - 0) (100 - 0)) as (E2 & _); [lra|lra|].
    destruct (aspect_ratio_ok (150 - 0) (100 - 0)) as (E3 & _); [lra|lra|].
    rewrite E1. cbn [bind]. rewrite E2. cbn [bind]. rewrite E3. cbn [bind].
    intros H. injection H as <-. cbn [ch_diagonal].
    change (@sqrt R Num_R) with R_sqrt.sqrt. f_equal. cbn. ring. }
  apply (standard_face_of_plausible_size_is_anatomical m ch Hch).
  - rewrite Hs, Hw, Hh, Hd, Hmax. cbn -[Rltb].
    rewrite !(fun a b H => proj2 (Rltb_true a b) H) by lra. reflexivity.
  - rewrite Hdiag. split.
    + replace 100 with (R_sqrt.sqrt (100 * 100)) by (apply sqrt_square; lra).
      apply sqrt_lt_1_alt. lra.
    + replace 300 with (R_sqrt.sqrt (300 * 300)) by (apply sqrt_square; lra).
      apply sqrt_lt_1_alt. lra.
Defined.

End CharacteristicsReal.

(* ------------------------------------------------------------------ *)
(** ** The scan of the point-data arrays *)

Section PointArrays.

(** The two flags after the loop, in terms of the two tests. *)
Lemma scan_point_arrays_spec (arrays : list point_array) :
  forall (i : nat) (hc hn : bool),
    scan_point_arrays i arrays hc hn =
    (hc || existsb (fun '(k, a) => is_color_array k a)
                   (combine (seq i (List.length arrays)) arrays),
     hn || existsb (fun '(k, a) => negb (is_color_array k a) && is_normal_array k a)
                   (combine (seq i (List.length arrays)) arrays)).
Proof.
  induction arrays as [|a rest IH]; intros i hc hn.
  - cbn. rewrite !orb_false_r. reflexivity.
  - cbn [scan_point_arrays List.length seq combine existsb].
    fold (is_color_array i a).
    change ((n_components a =? 3)%Z && contains "normal" (lower (array_display_name i a)))
      with (is_normal_array i a).
    destruct (is_color_array i a) eqn:Ec.
    + rewrite IH. cbn [negb andb orb]. rewrite !orb_true_r. reflexivity.
    + destruct (is_normal_array i a) eqn:En; rewrite IH; cbn [negb andb orb].
      * rewrite !orb_true_r. reflexivity.
      * reflexivity.
Qed.

Lemma existsb_combine_nth {A : Type} (f : nat * A -> bool) (l : list A) :
  forall (i k : nat) (a : A),
    nth_error l k = Some a -> f ((i + k)%nat, a) = true ->
    existsb f (combine (seq i (List.length l)) l) = true.
Proof.
  induction l as [|x l IH]; intros i k a Hn Hf.
  - destruct k; discriminate.
  - cbn [List.length seq combine existsb]. destruct k as [|k].
    + cbn in Hn. injection Hn as ->. rewrite Nat.add_0_r in Hf. rewrite Hf. reflexivity.
    + cbn in Hn. rewrite (IH (S i) k a Hn); [apply orb_true_r|].
      rewrite <- Nat.add_succ_comm in Hf. exact Hf.
Qed.

Lemma existsb_combine_inv {A : Type} (f : nat * A -> bool) (l : list A) :
  forall i : nat,
    existsb f (combine (seq i (List.length l)) l) = true ->
    exists (k : nat) (a : A), nth_error l k = Some a /\ f ((i + k)%nat, a) = true.
Proof.
  induction l as [|x l IH]; intros i H.
  - discriminate.
  - cbn [List.length seq combine existsb] in H. apply orb_prop in H as [H|H].
    + exists 0%nat, x. split; [reflexivity|]. rewrite Nat.add_0_r. exact H.
    + destruct (IH (S i) H) as (k & a & Hn & Hf).
      exists (S k), a. split; [exact Hn|]. rewrite <- Nat.add_succ_comm. exact Hf.
Qed.

(** X12.  In the loop over the point-data arrays of the hybrid analysis:
    an array whose lower-cased name contains "rgb" sets [has_colors]
    whatever its number of components, and so does an array with at least
    three components whose name contains "color"; [has_normals] is set
    only by an array with exactly three components whose name contains
    "normal" and that did not pass the colour test. *)
Theorem point_array_flags (arrays : list point_array) :
  let flags := scan_point_arrays 0 arrays false false in
  (forall (k : nat) (a : point_array),
     nth_error arrays k = Some a ->
     contains "rgb" (lower (array_display_name k a)) = true \/
     ((3 <= n_components a)%Z /\
      contains "color" (lower (array_display_name k a)) = true) ->
     fst flags = true) /\
  (snd flags = true ->
   exists (k : nat) (a : point_array),
     nth_error arrays k = Some a /\
     n_components a = 3%Z /\
     contains "normal" (lower (array_display_name k a)) = true /\
     contains "rgb" (lower (array_display_name k a)) = false /\
     contains "color" (lower (array_display_name k a)) = false).
Proof.
  cbv zeta. rewrite scan_point_arrays_spec. cbn [fst snd orb]. split.
  - intros k a Hn H.
    apply (existsb_combine_nth _ arrays 0 k a Hn). cbn [Nat.add].
    unfold is_color_array. cbv zeta.
    destruct H as [H|[H1 H2]].
    + rewrite H. apply orb_true_r.
    + rewrite H2. apply Z.leb_le in H1. rewrite H1. reflexivity.
  - intros H. apply existsb_combine_inv in H. destruct H as (k & a & Hn & Hf).
    cbn [Nat.add] in Hf. exists k, a. split; [exact Hn|].
    apply andb_prop in Hf as [Hc Hnm]. apply negb_true_iff in Hc.
    unfold is_normal_array in Hnm. cbv zeta in Hnm.
    apply andb_prop in Hnm as [H3 Hnormal]. apply Z.eqb_eq in H3.
    unfold is_color_array in Hc. cbv zeta in Hc.
    apply orb_false_elim in Hc as [Hc1 Hrgb].
    rewrite H3 in Hc1. cbn in Hc1.
    repeat split; assumption.
Qed.

Lemma point_array_flags_witness :
  fst (scan_point_arrays 0
         [ {| n_components := 1; array_name := Some "RGB"%string |} ] false false) = true.
Proof.
  destruct (point_array_flags [ {| n_components := 1; array_name := Some "RGB"%string |} ])
    as (H & _).
  apply (H 0%nat {| n_components := 1; array_name := Some "RGB"%string |}).
  - reflexivity.
  - left. reflexivity.
Defined.

Ltac digit_cases u IH :=
  induction u as [|u IH|u IH|u IH|u IH|u IH|u IH|u IH|u IH|u IH|u IH];
  [reflexivity | | | | | | | | | |]; cbn; exact IH.

Lemma digits_no_color (u : Decimal.uint) :
  contains "color" (lower (NilEmpty.string_of_uint u)) = false.
Proof. digit_cases u IH. Qed.

Lemma digits_no_rgb (u : Decimal.uint) :
  contains "rgb" (lower (NilEmpty.string_of_uint u)) = false.
Proof. digit_cases u IH. Qed.

Lemma digits_no_normal (u : Decimal.uint) :
  contains "normal" (lower (NilEmpty.string_of_uint u)) = false.
Proof. digit_cases u IH. Qed.

Lemma lower_app (s t : string) : lower (s ++ t) = (lower s ++ lower t)%string.
Proof. induction s as [|c s IH]; cbn; [reflexivity | rewrite IH; reflexivity]. Qed.

(** The default name [Array_i] passes none of the tests. *)
Lemma default_name_is_plain (i : nat) :
  let name := lower ("Array_" ++ NilZero.string_of_uint (Nat.to_uint i)) in
  contains "color" name = false /\ contains "rgb" name = false /\
  contains "normal" name = false.
Proof.
  cbv zeta. rewrite lower_app.
  assert (E : NilZero.string_of_uint (Nat.to_uint i) = "0"%string \/
              NilZero.string_of_uint (Nat.to_uint i) =
                NilEmpty.string_of_uint (Nat.to_uint i)).
  { unfold NilZero.string_of_uint. destruct (Nat.to_uint i); auto. }
  destruct E as [E|E]; rewrite E.
  - repeat split; reflexivity.
  - pose proof (digits_no_color (Nat.to_uint i)) as H1.
    pose proof (digits_no_rgb (Nat.to_uint i)) as H2.
    pose proof (digits_no_normal (Nat.to_uint i)) as H3.
    repeat split; cbn; assumption.
Qed.

(** X13.  A mesh whose point-data arrays all have no name (or an empty
    name) has neither flag set, however many components the arrays have:
    the default name [Array_i] contains none of "color", "rgb" and
    "normal". *)
Theorem unnamed_arrays_set_no_flag (arrays : list point_array) :
  (forall a : point_array, In a arrays ->
     array_name a = None \/ array_name a = Some ""%string) ->
  scan_point_arrays 0 arrays false false = (false, false).
Proof.
  intros H.
  assert (G : forall i : nat, scan_point_arrays i arrays false false = (false, false)).
  { induction arrays as [|a rest IH]; intros i; [reflexivity|].
    cbn [scan_point_arrays].
    assert (Hn : array_display_name i a =
                 ("Array_" ++ NilZero.string_of_uint (Nat.to_uint i))%string).
    { unfold array_display_name.
      destruct (H a (or_introl eq_refl)) as [E|E]; rewrite E; reflexivity. }
    rewrite Hn.
    destruct (default_name_is_plain i) as (H1 & H2 & H3). cbv zeta in H1, H2, H3.
    rewrite H1, H2, H3. rewrite !andb_false_r. cbn [orb].
    apply IH. intros b Hb. apply H. right. exact Hb. }
  apply G.
Qed.

Lemma unnamed_arrays_set_no_flag_witness :
  scan_point_arrays 0
    [ {| n_components := 3; array_name := None |};
      {| n_components := 4; array_name := Some ""%string |} ] false false = (false, false).
Proof.
  apply unnamed_arrays_set_no_flag.
  intros a [<-|[<-|[]]]; [left | right]; reflexivity.
Defined.

End PointArrays.

(* ------------------------------------------------------------------ *)
(** ** The two reference-template alignments *)

Section UltimateErrors.
Context {T : Type} {N : Num T}.

(** [align_ply_to_obj_system] returns exactly on two meshes with
    vertices. *)
Lemma align_ply_to_obj_system_ok (obj ply : mesh T) :
  points obj <> [] -> points ply <> [] ->
  align_ply_to_obj_system obj ply =
  Ok (map (vtk_TransformPoint (ultimate_vtk_transform obj ply)) (points ply)).
Proof.
  intros Ho Hp. unfold align_ply_to_obj_system.
  destruct (points ply) as [|v vs]; [contradiction|].
  destruct (points obj) as [|w ws]; [contradiction|]. reflexivity.
Qed.

Lemma align_ply_to_obj_system_empty (obj ply : mesh T) :
  points obj = [] \/ points ply = [] ->
  align_ply_to_obj_system obj ply = Raise TypeError.
Proof.
  intros H. unfold align_ply_to_obj_system.
  destruct (points ply) as [|v vs]; [reflexivity|].
  destruct (points obj) as [|w ws]; [reflexivity|].
  destruct H; discriminate.
Qed.

End UltimateErrors.

Section UltimateAlignment.
Local Open Scope R_scope.

Lemma ultimate_transform_point (obj ply : mesh R) (v : vec3 R) :
  vtk_TransformPoint (ultimate_vtk_transform obj ply) v =
  vsub (vscale (ultimate_scale_factor obj ply) (vadd v (vmean (points obj))))
       (vmean (points ply)).
Proof.
  unfold vtk_TransformPoint, ultimate_vtk_transform, vtk_Translate_pre, vtk_Scale_pre,
    vtk_new. cbn [linear offset].
  set (s := ultimate_scale_factor obj ply). clearbody s.
  destruct (vmean (points obj)), (vmean (points ply)), v. vsimp. f_equal; ring.
Qed.

(** X14.  Over the reals, for meshes with vertices and a non-zero
    diagonal of the input: the transform of [align_ply_to_obj_system],
    built on a [vtkTransform] left in its default pre-multiply mode, sends
    a point [p] to [s (p + obj_center) - ply_center] with
    [s = obj_diagonal / ply_diagonal]; it multiplies every distance by
    [|s|]; and it sends the centre of the input to the centre of the
    reference exactly when [s = 1] or the two centres are opposite. *)
Theorem ultimate_alignment_is_premultiplied (obj ply : mesh R) :
  points obj <> [] -> points ply <> [] ->
  bounding_diagonal (mesh_bounds ply) <> 0 ->
  let s := ultimate_scale_factor obj ply in
  let oc := vmean (points obj) in
  let c := vmean (points ply) in
  let tr := vtk_TransformPoint (ultimate_vtk_transform obj ply) in
  align_ply_to_obj_system obj ply =
    Ok (map (fun p => vsub (vscale s (vadd p oc)) c) (points ply)) /\
  (forall p q : vec3 R, dist (tr p) (tr q) = Rabs s * dist p q) /\
  (tr c = oc <-> s = 1 \/ c = vneg oc).
Proof.
  intros Ho Hp _. cbv zeta. split; [|split].
  - rewrite (align_ply_to_obj_system_ok obj ply Ho Hp). f_equal.
    apply map_ext. intros p. apply ultimate_transform_point.
  - intros p q. rewrite !ultimate_transform_point.
    set (s := ultimate_scale_factor obj ply). clearbody s.
    unfold dist.
    replace (vsub (vsub (vscale s (vadd p (vmean (points obj)))) (vmean (points ply)))
                  (vsub (vscale s (vadd q (vmean (points obj)))) (vmean (points ply))))
      with (vscale s (vsub p q))
      by (destruct (vmean (points obj)), (vmean (points ply)), p, q; vsimp;
          f_equal; ring).
    apply norm_vscale.
  - rewrite ultimate_transform_point.
    set (s := ultimate_scale_factor obj ply). clearbody s.
    destruct (vmean (points obj)) as [ox oy oz], (vmean (points ply)) as [cx cy cz].
    vsimp. split.
    + intros H. injection H as Hx Hy Hz.
      destruct (Req_dec_T s 1) as [Hs|Hs]; [left; exact Hs|right].
      assert (Ex : (s - 1) * (cx + ox) = 0) by lra.
      assert (Ey : (s - 1) * (cy + oy) = 0) by lra.
      assert (Ez : (s - 1) * (cz + oz) = 0) by lra.
      apply Rmult_integral in Ex, Ey, Ez.
      f_equal; [destruct Ex | destruct Ey | destruct Ez]; lra.
    + intros [Hs|Hc].
      * subst s. f_equal; ring.
      * injection Hc as -> -> ->. f_equal; ring.
Qed.

Lemma ultimate_alignment_is_premultiplied_witness :
  vtk_TransformPoint (ultimate_vtk_transform single_point_R z_up_segment)
    (vmean (points z_up_segment)) = vmean (points single_point_R) <->
  ultimate_scale_factor single_point_R z_up_segment = 1 \/
  vmean (points z_up_segment) = vneg (vmean (points single_point_R)).
Proof.
  apply (ultimate_alignment_is_premultiplied single_point_R z_up_segment).
  - discriminate.
  - discriminate.
  - unfold bounding_diagonal. intros H. apply norm_zero_components in H. cbn in H. lra.
Defined.

Lemma left_inverse_right (A : mat3 R) :
  matmul (transpose A) A = identity3 -> matmul A (transpose A) = identity3.
Proof.
  destruct A as [[a b c] [d e f] [g h i]]. vsimp. intros H.
  injection H as H1 H2 H3 H4 H5 H6 H7 H8 H9.
  f_equal; f_equal; nsatz.
Qed.

Lemma det_flip_last_column (m : mat3 R) : det (flip_last_column m) = - det m.
Proof. destruct m as [[a b c] [d e f] [g h i]]. unfold flip_last_column. vsimp. ring. Qed.

Lemma flip_last_column_orthogonal (m : mat3 R) :
  orthogonal m -> orthogonal (flip_last_column m).
Proof.
  unfold orthogonal, flip_last_column.
  destruct m as [[a b c] [d e f] [g h i]]. vsimp. intros H.
  injection H as H1 H2 H3 H4 H5 H6 H7 H8 H9.
  f_equal; f_equal; nsatz.
Qed.

Lemma orthogonal_det_sq (m : mat3 R) : orthogonal m -> det m * det m = 1.
Proof.
  intros H. unfold orthogonal in H.
  rewrite <- (det_transpose m) at 1. rewrite <- det_matmul, H.
  vsimp. ring.
Qed.

Lemma rotation_from_axes_orthogonal (ply_axes obj_axes : mat3 R) :
  orthogonal ply_axes -> orthogonal obj_axes ->
  orthogonal (rotation_from_axes ply_axes obj_axes).
Proof.
  intros Hp Ho.
  assert (O : orthogonal (matmul obj_axes (transpose ply_axes))).
  { unfold orthogonal in *.
    rewrite transpose_matmul, transpose_involutive, matmul_assoc,
      <- (matmul_assoc (transpose obj_axes)), Ho, matmul_identity_l.
    apply left_inverse_right. exact Hp. }
  unfold rotation_from_axes. cbv zeta.
  destruct (ltb (det (matmul obj_axes (transpose ply_axes))) (of_Z 0));
    [apply flip_last_column_orthogonal; exact O | exact O].
Qed.

(** X15.  Over the reals, the matrix that [estimate_rotation_alignment]
    builds from two PCA axis matrices has determinant
    [|det obj_axes * det ply_axes|], never negative; and when both axis
    matrices are orthogonal it is a proper rotation: orthogonal, with
    determinant one. *)
Theorem rotation_from_axes_is_proper (ply_axes obj_axes : mat3 R) :
  det (rotation_from_axes ply_axes obj_axes) = Rabs (det obj_axes * det ply_axes) /\
  0 <= det (rotation_from_axes ply_axes obj_axes) /\
  (orthogonal ply_axes -> orthogonal obj_axes ->
   orthogonal (rotation_from_axes ply_axes obj_axes) /\
   det (rotation_from_axes ply_axes obj_axes) = 1).
Proof.
  assert (D : det (rotation_from_axes ply_axes obj_axes) =
              Rabs (det obj_axes * det ply_axes)).
  { unfold rotation_from_axes. cbv zeta. cbn -[Rltb det matmul transpose flip_last_column].
    destruct (Rltb (det (matmul obj_axes (transpose ply_axes))) 0) eqn:E;
      [apply Rltb_true in E | apply Rltb_false in E].
    - rewrite det_flip_last_column. rewrite det_matmul, det_transpose in *.
      rewrite Rabs_left by exact E. reflexivity.
    - rewrite det_matmul, det_transpose in *.
      rewrite Rabs_right by lra. reflexivity. }
  split; [exact D|]. split; [rewrite D; apply Rabs_pos|].
  intros Hp Ho.
  split.
  - apply rotation_from_axes_orthogonal; assumption.
  - rewrite D.
    pose proof (orthogonal_det_sq _ Hp) as Sp. pose proof (orthogonal_det_sq _ Ho) as So.
    assert (Sq : (det obj_axes * det ply_axes) * (det obj_axes * det ply_axes) = 1) by nra.
    unfold Rabs. destruct (Rcase_abs _); nra.
Qed.

Lemma ultimate_scale_free_transform_point (obj ply : mesh R) (rot : mat3 R) (v : vec3 R) :
  vtk_TransformPoint (ultimate_scale_free_vtk_transform obj ply rot) v =
  vadd (matvec rot (vsub v (vmean (points ply)))) (vmean (points obj)).
Proof.
  unfold vtk_TransformPoint, ultimate_scale_free_vtk_transform.
  destruct rot as [[a b c] [d e f] [g h i]].
  unfold vtk_Translate, vtk_Concatenate, vtk_new; cbn [linear offset].
  destruct (vmean (points obj)), (vmean (points ply)), v; vsimp; f_equal; ring.
Qed.

Variable compute_pca_axes : list (vec3 R) -> option (mat3 R).

(** X16.  Over the reals, for meshes with vertices: when no rotation is
    estimated (the PCA of either mesh raised),
    [align_ply_to_obj_system_scale_free] raises [AttributeError];
    otherwise it returns and reports an applied scale of 1, the
    translation [obj_center - ply_center] and a rotation applied, the
    transform it builds sends the centre of the input to the centre of
    the reference, and that transform keeps all distances when the PCA
    returns orthogonal axis matrices. *)
Theorem ultimate_scale_free_alignment_centres (obj ply : mesh R) :
  points obj <> [] -> points ply <> [] ->
  match estimate_rotation_alignment compute_pca_axes (points ply) (points obj) with
  | None =>
      align_ply_to_obj_system_scale_free compute_pca_axes obj ply = Raise AttributeError
  | Some rot =>
      let tr := vtk_TransformPoint (ultimate_scale_free_vtk_transform obj ply rot) in
      (exists rep : scale_free_report R,
         align_ply_to_obj_system_scale_free compute_pca_axes obj ply = Ok rep /\
         applied_scale_factor rep = 1 /\
         sf_translation rep = vsub (vmean (points obj)) (vmean (points ply)) /\
         rotation_applied rep = true) /\
      tr (vmean (points ply)) = vmean (points obj) /\
      ((forall (vs : list (vec3 R)) (A : mat3 R),
          compute_pca_axes vs = Some A -> orthogonal A) ->
       forall p q : vec3 R, dist (tr p) (tr q) = dist p q)
  end.
Proof.
  intros Ho Hp.
  destruct (estimate_rotation_alignment compute_pca_axes (points ply) (points obj))
    as [rot|] eqn:Er.
  - cbv zeta. split; [|split].
    + unfold align_ply_to_obj_system_scale_free. rewrite Er.
      destruct (points ply) as [|v vs] eqn:Ep; [contradiction|].
      destruct (points obj) as [|w ws] eqn:Eo; [contradiction|].
      eexists. split; [reflexivity|]. repeat split.
    + rewrite ultimate_scale_free_transform_point.
      replace (vsub (vmean (points ply)) (vmean (points ply))) with (vec_of_Z (T:=R) 0 0 0)
        by (destruct (vmean (points ply)); vsimp; f_equal; ring).
      rewrite matvec_zero. destruct (vmean (points obj)). vsimp. f_equal; ring.
    + intros Hpca p q. rewrite !ultimate_scale_free_transform_point.
      unfold estimate_rotation_alignment in Er.
      destruct (compute_pca_axes (points ply)) as [P|] eqn:EP; [|discriminate].
      destruct (compute_pca_axes (points obj)) as [O|] eqn:EO; [|discriminate].
      injection Er as <-.
      pose proof (rotation_from_axes_orthogonal P O (Hpca _ _ EP) (Hpca _ _ EO))
        as Horth.
      unfold dist. rewrite vadd_vsub_cancel.
      change (norm (vsub ?x ?y)) with (dist x y).
      rewrite (orthogonal_dist _ _ _ Horth).
      unfold dist. f_equal.
      destruct (vmean (points ply)), p, q. vsimp. f_equal; ring.
  - unfold align_ply_to_obj_system_scale_free. rewrite Er. reflexivity.
Qed.

End UltimateAlignment.

Lemma ultimate_scale_free_alignment_centres_witness :
  vtk_TransformPoint
    (ultimate_scale_free_vtk_transform single_point_R z_up_segment
       (rotation_from_axes identity3 identity3))
    (vmean (points z_up_segment)) = vmean (points single_point_R) /\
  align_ply_to_obj_system_scale_free (fun _ => None) single_point_R z_up_segment
  = Raise AttributeError.
Proof.
  split.
  - pose proof (ultimate_scale_free_alignment_centres (fun _ => Some identity3)
                  single_point_R z_up_segment) as H.
    unfold estimate_rotation_alignment in H. cbv beta iota zeta in H.
    destruct H as (_ & H & _); [discriminate | discriminate | exact H].
  - pose proof (ultimate_scale_free_alignment_centres (fun _ => None)
                  single_point_R z_up_segment) as H.
    unfold estimate_rotation_alignment in H. cbv beta iota in H.
    apply H; discriminate.
Defined.

(* ------------------------------------------------------------------ *)
(** ** The test suite: consistency of a result *)

Section ResultConsistency.
Context {T : Type} {N : Num T}.
Variables run_anatomical run_ultimate : file_info -> test_outcome T.

Local Notation "'suite'" := (test_single_file_hybrid run_anatomical run_ultimate).

Ltac settle_ifs :=
  repeat match goal with
         | |- context [if ?c then _ else _] => destruct c; cbn
         end.

Ltac settle_hyps :=
  repeat match goal with
         | H : exists _, _ |- _ => destruct H
         | H : _ /\ _ |- _ => destruct H
         | H : _ \/ _ |- _ => destruct H
         | H : Some _ = Some _ |- _ => injection H as H; subst
         | H : Succeeded _ _ = Succeeded _ _ |- _ => injection H as ? ?; subst
         end.

(** X17.  At every number type, in the result of
    [test_single_file_hybrid]: the anatomical method is always run
    first, and the ultimate method is run after it exactly when the
    anatomical run failed or its error was not classified excellent; the
    anatomical entry is recorded exactly when the anatomical run gave an
    error, and the ultimate entry exactly when the ultimate method was
    run and gave an error, each holding that error, its classification
    and, for the anatomical one, the reported details; there is no best
    error exactly when both runs failed, and then there is no best
    method and the file is flagged for optimisation; otherwise the best
    method is one whose entry was recorded and the best error is the
    error of that entry; and when both entries are recorded the best
    method is the anatomical one exactly when its error is at most the
    ultimate one's. *)
Theorem hybrid_result_is_consistent (fi : file_info) :
  let r := fst (suite fi) in
  let ran_ultimate := snd (suite fi) = [anatomical; ultimate] in
  (snd (suite fi) = [anatomical] \/ ran_ultimate) /\
  (snd (suite fi) = [anatomical] <->
     exists e d, run_anatomical fi = Succeeded e d /\ classify_performance e = excellent) /\
  (forall e d, run_anatomical fi = Succeeded e d ->
     hr_anatomical_result r =
       Some {| at_ransac_error := e; at_status := classify_performance e;
               at_details := d |}) /\
  (hr_anatomical_result r = None <-> exists msg, run_anatomical fi = Failed msg) /\
  (forall u d, ran_ultimate -> run_ultimate fi = Succeeded u d ->
     hr_ultimate_result r =
       Some {| at_ransac_error := u; at_status := classify_performance u;
               at_details := None |}) /\
  (hr_ultimate_result r = None <->
     snd (suite fi) = [anatomical] \/ exists msg, run_ultimate fi = Failed msg) /\
  (hr_best_ransac r = None <->
     (exists msg, run_anatomical fi = Failed msg) /\
     (exists msg, run_ultimate fi = Failed msg)) /\
  (hr_best_ransac r = None <->
     hr_anatomical_result r = None /\ hr_ultimate_result r = None) /\
  (hr_best_ransac r = None <-> hr_best_method r = None) /\
  (hr_best_ransac r = None ->
     hr_needs_optimization r = true /\ hr_recommendation r = Some BothMethodsFailed) /\
  (forall a u, hr_anatomical_result r = Some a -> hr_ultimate_result r = Some u ->
     hr_best_method r =
       Some (if leb (at_ransac_error a) (at_ransac_error u) then anatomical
             else ultimate)) /\
  (forall b, hr_best_ransac r = Some b ->
     (hr_best_method r = Some anatomical /\
      exists e, hr_anatomical_result r = Some e /\ at_ransac_error e = b /\
                hr_best_performance r = Some (at_status e)) \/
     (hr_best_method r = Some ultimate /\
      exists e, hr_ultimate_result r = Some e /\ at_ransac_error e = b /\
                hr_best_performance r = Some (at_status e))).
Proof.
  cbv zeta. unfold test_single_file_hybrid.
  destruct (run_anatomical fi) as [e d|msg] eqn:Ea.
  - destruct (classify_performance e) eqn:Ec;
      try (destruct (run_ultimate fi) as [u du|msg'] eqn:Eu);
      unfold determine_best_method; cbn; try (destruct (leb e u) eqn:El; cbn);
      settle_ifs;
      repeat split; intros; settle_hyps; cbn in *;
      try discriminate; try congruence; auto;
      try (rewrite El; reflexivity);
      try (eexists; eexists; split; [reflexivity | assumption]);
      try (right; eexists; reflexivity);
      try (left; split; [reflexivity|]; eexists; repeat split; reflexivity);
      try (right; split; [reflexivity|]; eexists; repeat split; reflexivity).
  - destruct (run_ultimate fi) as [u du|msg'] eqn:Eu;
      unfold determine_best_method; cbn;
      settle_ifs;
      repeat split; intros; settle_hyps; cbn in *;
      try discriminate; try congruence; auto;
      try (eexists; reflexivity);
      try (right; eexists; reflexivity);
      try (split; eexists; reflexivity);
      try (right; split; [reflexivity|]; eexists; repeat split; reflexivity).
Qed.

End ResultConsistency.

Section Reports.
Local Open Scope R_scope.

Lemma determine_best_method_needs (r : hybrid_result R) :
  hr_needs_optimization r = false ->
  hr_best_ransac r = None ->
  (hr_needs_optimization (determine_best_method r) = true <->
   hr_best_ransac (determine_best_method r) = None \/
   exists b, hr_best_ransac (determine_best_method r) = Some b /\ 100 < b).
Proof.
  intros Hn Hb. unfold determine_best_method.
  destruct (hr_anatomical_result r) as [a|], (hr_ultimate_result r) as [u|];
    cbn -[Rltb Reqb Rleb]; rewrite ?Hb;
    try (destruct (Rleb (at_ransac_error a) (at_ransac_error u)); cbn -[Rltb Reqb]);
    try match goal with
        | |- context [negb (Reqb ?b 0) && Rltb 100 ?b] =>
            destruct (Reqb b 0) eqn:E0;
            [apply Reqb_true in E0 | apply Reqb_false in E0];
            (destruct (Rltb 100 b) eqn:E1;
             [apply Rltb_true in E1 | apply Rltb_false in E1]);
            cbn; rewrite ?Hn; split; intros H;
            try reflexivity; try discriminate H; try lra;
            try (right; eexists; split; [reflexivity | lra]);
            destruct H as [H|[b' [H H']]]; try discriminate H;
            injection H as H; subst; lra
        end.
  split; [left; cbn; exact Hb | reflexivity].
Qed.

Variables run_anatomical run_ultimate : file_info -> test_outcome R.

(** X18.  Over the reals, [test_single_file_hybrid] flags a file as
    needing optimisation exactly when no method gave an error or the best
    error is strictly above the good threshold, 100. *)
Theorem needs_optimization_iff (fi : file_info) :
  let r := fst (test_single_file_hybrid run_anatomical run_ultimate fi) in
  hr_needs_optimization r = true <->
  hr_best_ransac r = None \/ exists b, hr_best_ransac r = Some b /\ 100 < b.
Proof.
  cbv zeta. unfold test_single_file_hybrid.
  destruct (run_anatomical fi) as [e d|msg].
  - destruct (classify_performance e) eqn:Ec.
    + cbn. apply (classify_performance_R e) in Ec. split; [discriminate|].
      intros [H|[b [H Hb]]]; [discriminate H | injection H as H; subst; lra].
    + destruct (run_ultimate fi); cbn [fst]; apply determine_best_method_needs; reflexivity.
    + destruct (run_ultimate fi); cbn [fst]; apply determine_best_method_needs; reflexivity.
    + destruct (run_ultimate fi); cbn [fst]; apply determine_best_method_needs; reflexivity.
  - destruct (run_ultimate fi); cbn [fst]; apply determine_best_method_needs; reflexivity.
Qed.

Lemma classify_tier_counts (e : R) :
  let b (f : bool) := if f then 1%nat else 0%nat in
  b (Rltb e 10) = b (if tier_eq_dec (classify_performance e) excellent then true else false) /\
  b (Rleb 10 e && Rltb e 100) =
    b (if tier_eq_dec (classify_performance e) very_good then true else false) /\
  b (Rleb 100 e && Rltb e 10000) =
    b (if tier_eq_dec (classify_performance e) good then true else false) /\
  b (Rleb 10000 e) = b (if tier_eq_dec (classify_performance e) poor then true else false).
Proof.
  cbv zeta. destruct (classify_performance_R e) as (H1 & H2 & H3 & H4).
  destruct (classify_performance e);
    repeat match goal with
           | |- context [tier_eq_dec ?a ?b] => destruct (tier_eq_dec a b); try congruence
           end;
    repeat match goal with
           | |- context [Rltb ?a ?b] =>
               let E := fresh "E" in
               destruct (Rltb a b) eqn:E; [apply Rltb_true in E | apply Rltb_false in E]
           | |- context [Rleb ?a ?b] =>
               let E := fresh "E" in
               destruct (Rleb a b) eqn:E; [apply Rleb_true in E | apply Rleb_false in E]
           end;
    cbn; repeat split; try reflexivity; exfalso;
    try (assert (X : excellent = excellent) by reflexivity; apply H1 in X; lra);
    try (assert (X : very_good = very_good) by reflexivity; apply H2 in X; lra);
    try (assert (X : good = good) by reflexivity; apply H3 in X; lra);
    try (assert (X : poor = poor) by reflexivity; apply H4 in X; lra).
Qed.

(** X19.  Over the reals, the performance breakdown of the reports
    partitions the errors: the four counts add up to the number of
    errors, and each count is the number of errors that
    [classify_performance] puts in that tier; the breakdown of
    [generate_final_report] over a list of results is the breakdown of
    [save_results] over their best errors. *)
Theorem performance_breakdown_is_a_partition (errors : list R) :
  let '(n_excellent, n_very_good, n_good, n_poor) := performance_breakdown errors in
  (n_excellent + n_very_good + n_good + n_poor = List.length errors)%nat /\
  n_excellent = count_occ tier_eq_dec (map classify_performance errors) excellent /\
  n_very_good = count_occ tier_eq_dec (map classify_performance errors) very_good /\
  n_good = count_occ tier_eq_dec (map classify_performance errors) good /\
  n_poor = count_occ tier_eq_dec (map classify_performance errors) poor /\
  forall results : list (hybrid_result R),
    ransac_errors results = errors ->
    report_breakdown results = (n_excellent, n_very_good, n_good, n_poor).
Proof.
  unfold performance_breakdown.
  assert (C : forall t : tier,
    match t with
    | excellent => List.length (filter (fun r : R => ltb r (of_Z 10)) errors)
    | very_good => List.length (filter (fun r : R => leb (of_Z 10) r && ltb r (of_Z 100)) errors)
    | good => List.length (filter (fun r : R => leb (of_Z 100) r && ltb r (of_Z 10000)) errors)
    | poor => List.length (filter (fun r : R => leb (of_Z 10000) r) errors)
    end = count_occ tier_eq_dec (map classify_performance errors) t).
  { induction errors as [|e rest IH]; intros t; [destruct t; reflexivity|].
    cbn [filter map count_occ].
    destruct (classify_tier_counts e) as (H1 & H2 & H3 & H4). cbv zeta in *.
    specialize (IH t). destruct t;
      change (@ltb R Num_R) with Rltb in *; change (@leb R Num_R) with Rleb in *;
      change (@of_Z R Num_R) with IZR in *; cbv beta;
      match goal with
      | |- context [tier_eq_dec ?a ?b] => destruct (tier_eq_dec a b)
      end;
      match goal with
      | |- List.length (if ?c then _ else _) = _ => destruct c
      end; cbn [List.length]; try (rewrite IH; reflexivity); try discriminate. }
  pose proof (C excellent) as C1. pose proof (C very_good) as C2.
  pose proof (C good) as C3. pose proof (C poor) as C4. cbv beta iota in C1, C2, C3, C4.
  split.
  - rewrite C1, C2, C3, C4. clear.
    induction errors as [|e rest IH]; [reflexivity|].
    cbn [map count_occ List.length].
    destruct (classify_performance e);
      repeat match goal with
             | |- context [tier_eq_dec ?a ?b] => destruct (tier_eq_dec a b); try congruence
             end; lia.
  - split; [exact C1|]. split; [exact C2|]. split; [exact C3|]. split; [exact C4|].
    intros results <-. reflexivity.
Qed.

End Reports.


(* ------------------------------------------------------------------ *)
(** ** The test suite: the whole run *)

Section WholeRun.
Context {T : Type} {N : Num T}.

(** The best method and the best error of a result are set together. *)
Lemma hybrid_best_fields (ta tu : file_info -> test_outcome T) (fi : file_info) :
  let r := fst (test_single_file_hybrid ta tu fi) in
  (hr_best_ransac r = None /\ hr_best_method r = None /\
   hr_needs_optimization r = true) \/
  (exists b m, hr_best_ransac r = Some b /\ hr_best_method r = Some m).
Proof.
  cbv zeta. unfold test_single_file_hybrid.
  destruct (ta fi) as [e d|msg].
  - destruct (classify_performance e);
      try (destruct (tu fi) as [u du|msg']);
      unfold determine_best_method; cbn; try (destruct (leb e u); cbn);
      repeat match goal with
             | |- context [if ?c then _ else _] => destruct c; cbn
             end;
      right; eexists; eexists; split; reflexivity.
  - destruct (tu fi) as [u du|msg'];
      unfold determine_best_method; cbn;
      repeat match goal with
             | |- context [if ?c then _ else _] => destruct c; cbn
             end;
      [right; eexists; eexists; split; reflexivity
      |right; eexists; eexists; split; reflexivity
      |left; repeat split].
Qed.

(** The counts of the final report, over any list of results whose best
    fields are set together. *)
Lemma report_counts_of (results : list (hybrid_result T)) :
  Forall (fun r =>
            (hr_best_ransac r = None /\ hr_best_method r = None /\
             hr_needs_optimization r = true) \/
            (exists b m, hr_best_ransac r = Some b /\ hr_best_method r = Some m))
         results ->
  List.length (ransac_errors results) = List.length (successful_results results) /\
  (fst (method_distribution results) + snd (method_distribution results) =
   List.length (successful_results results))%nat /\
  (List.length (successful_results results) <= List.length results)%nat /\
  forall r : hybrid_result T,
    In r results -> hr_best_ransac r = None -> In r (poor_performers results).
Proof.
  unfold method_distribution, poor_performers, successful_results, ransac_errors.
  cbn [fst snd].
  induction 1 as [|r rs Hr _ IH]; [cbn; repeat split; try lia; intros r []|].
  destruct IH as (IH1 & IH2 & IH3 & IH4).
  cbn [flat_map filter List.length].
  destruct Hr as [(Hb & Hm & Hn)|(b & m & Hb & Hm)].
  - rewrite Hb, Hn. cbn [app].
    split; [exact IH1|]. split; [exact IH2|].
    split; [apply Nat.le_trans with (1 := IH3); apply Nat.le_succ_diag_r|].
    intros r' [<-|Hr'] Hr0; [left; reflexivity|].
    right. apply IH4; assumption.
  - rewrite Hb. cbn [app List.length filter]. rewrite Hm.
    split; [f_equal; exact IH1|].
    split.
    + destruct m; cbn [method_eq_dec]; cbn; rewrite <- IH2; lia.
    + split; [apply le_n_S; exact IH3|].
      intros r' [<-|Hr'] Hr0; [congruence|].
      destruct (hr_needs_optimization r); [right|]; apply IH4; assumption.
Qed.

Variable load_ply : file_info -> mesh T.
Variable obj_reference : mesh T.
Variable predict_anatomical : mesh T -> vtkTransform T -> option T.
Variable predict_ultimate : list (vec3 T) -> option T.

Local Notation "'run'" :=
  (run_comprehensive_test load_ply obj_reference predict_anatomical predict_ultimate).

(** X20.  At every number type, over the results of a whole run: there
    is one result per file; the successful results are those with a best
    error, one error each; every successful result is attributed to
    exactly one of the two methods, so the two counts of the method
    distribution add up to the number of successful results; and every
    result without a best error is among the poor performers. *)
Theorem run_report_counts (all_files : list file_info) :
  let results := run all_files in
  List.length results = List.length all_files /\
  List.length (ransac_errors results) = List.length (successful_results results) /\
  (fst (method_distribution results) + snd (method_distribution results) =
   List.length (successful_results results))%nat /\
  (List.length (successful_results results) <= List.length all_files)%nat /\
  forall r : hybrid_result T,
    In r results -> hr_best_ransac r = None -> In r (poor_performers results).
Proof.
  cbv zeta.
  assert (L : List.length (run all_files) = List.length all_files)
    by (unfold run_comprehensive_test; apply length_map).
  split; [exact L|]. rewrite <- L.
  apply report_counts_of.
  unfold run_comprehensive_test. apply Forall_forall.
  intros r Hr. apply in_map_iff in Hr. destruct Hr as (fi & <- & _).
  apply hybrid_best_fields.
Qed.

End WholeRun.

(* ------------------------------------------------------------------ *)
(** ** The test suite on files the anatomical aligner rejects *)

Section RejectedFiles.
Local Open Scope R_scope.

Variable load_ply : file_info -> mesh R.
Variable obj_reference : mesh R.
Variable predict_anatomical : mesh R -> vtkTransform R -> option R.
Variable predict_ultimate : list (vec3 R) -> option R.

Local Notation "'anatomical_run'" := (test_anatomical_method load_ply predict_anatomical).
Local Notation "'ultimate_run'" :=
  (test_ultimate_method load_ply obj_reference predict_ultimate).

(** X21.  Over the reals, for a file whose mesh has vertices and a zero
    Y extent: the anatomical run fails whatever the predictor would
    give; the suite then runs the ultimate method, records no anatomical
    entry, and either reports the ultimate method with the error the
    predictor gave on the diagonal-scaled mesh, or, when that prediction
    fails too or the reference mesh has no vertex (the ultimate
    alignment raises), reports that both methods failed and flags the
    file. *)
Theorem flat_file_is_left_to_ultimate (fi : file_info) :
  points (load_ply fi) <> [] ->
  ymax (mesh_bounds (load_ply fi)) - ymin (mesh_bounds (load_ply fi)) = 0 ->
  let r := fst (test_single_file_hybrid anatomical_run ultimate_run fi) in
  (exists msg, anatomical_run fi = Failed msg) /\
  snd (test_single_file_hybrid anatomical_run ultimate_run fi) = [anatomical; ultimate] /\
  hr_anatomical_result r = None /\
  let both_failed :=
    hr_best_method r = None /\ hr_best_ransac r = None /\
    hr_needs_optimization r = true /\
    hr_recommendation r = Some BothMethodsFailed in
  match align_ply_to_obj_system obj_reference (load_ply fi) with
  | Ok aligned =>
      aligned = map (vtk_TransformPoint (ultimate_vtk_transform obj_reference (load_ply fi)))
                    (points (load_ply fi)) /\
      match predict_ultimate aligned with
      | Some e =>
          hr_best_method r = Some ultimate /\ hr_best_ransac r = Some e /\
          hr_best_performance r = Some (classify_performance e) /\
          hr_recommendation r = Some UseUltimateAnatomicalFailed
      | None => both_failed
      end
  | Raise e => points obj_reference = [] /\ both_failed
  end.
Proof.
  intros Hp Hy. cbv zeta.
  assert (E : apply_anatomical_alignment (load_ply fi) = Raise ZeroDivisionError).
  { destruct (apply_anatomical_alignment_cases (load_ply fi))
      as [(Hp' & _)|[(_ & _ & E)|(_ & Hy' & _)]];
      [contradiction | exact E | contradiction]. }
  assert (F : anatomical_run fi = Failed (exception_message ZeroDivisionError)).
  { unfold test_anatomical_method. rewrite E. reflexivity. }
  split; [eexists; exact F|].
  unfold test_single_file_hybrid. rewrite F. cbv zeta. cbn [fst snd].
  unfold test_ultimate_method.
  destruct (points obj_reference) as [|w ws] eqn:Eo.
  - rewrite (align_ply_to_obj_system_empty obj_reference (load_ply fi)) by (left; exact Eo).
    cbn [fst snd]. split; [reflexivity|]. cbn. repeat split; reflexivity.
  - assert (Ho : points obj_reference <> []) by (rewrite Eo; discriminate).
    rewrite (align_ply_to_obj_system_ok obj_reference (load_ply fi) Ho Hp).
    destruct (predict_ultimate _) as [e|].
    + cbn [fst snd]. split; [reflexivity|].
      unfold determine_best_method. cbn.
      match goal with |- context [if ?c then _ else _] => destruct c end;
        cbn; repeat split; reflexivity.
    + cbn [fst snd]. split; [reflexivity|]. cbn. repeat split; reflexivity.
Qed.

End RejectedFiles.

Lemma flat_file_is_left_to_ultimate_witness :
  hr_recommendation
    (fst (test_single_file_hybrid
            (test_anatomical_method (fun _ => single_point_R) (fun _ _ => Some 5%R))
            (test_ultimate_method (fun _ => single_point_R) z_up_segment
               (fun _ => None))
            some_file)) = Some BothMethodsFailed.
Proof.
  pose proof (flat_file_is_left_to_ultimate (fun _ => single_point_R) z_up_segment
                (fun _ _ => Some 5%R) (fun _ => None) some_file) as H.
  cbv zeta in H. cbn [align_ply_to_obj_system single_point_R z_up_segment points] in H.
  destruct H as (_ & _ & _ & _ & _ & _ & _ & H).
  - discriminate.
  - cbn. lra.
  - exact H.
Defined.

(* ------------------------------------------------------------------ *)
(** ** The hybrid processor *)

Section HybridProcessor.
Local Open Scope R_scope.

Variable apply_alignment : method -> bool.
Variable run_prediction : method -> option R.

Local Notation "'process'" := (process_single_file_hybrid apply_alignment run_prediction).

Ltac run_methods :=
  repeat (cbn [try_methods app];
          match goal with
          | |- context [apply_alignment anatomical] =>
              destruct (apply_alignment anatomical) eqn:?
          | |- context [apply_alignment ultimate] =>
              destruct (apply_alignment ultimate) eqn:?
          | |- context [run_prediction anatomical] =>
              destruct (run_prediction anatomical) eqn:?
          | |- context [run_prediction ultimate] =>
              destruct (run_prediction ultimate) eqn:?
          end);
  cbn [try_methods app].

(** X22.  Over the reals, [process_single_file_hybrid] tries exactly the
    forced method, or both methods in the order anatomical, ultimate
    whatever the first one gave; it returns nothing exactly when no
    tried method completes (alignment succeeded and the predictor gave
    an error); otherwise the entries of ['all_results'] are exactly the
    tried methods that completed, each with the status of its own error,
    the best entry is one of them with an error no larger than any
    other, the anatomical entry wins a tie, and ['improvement'], when
    set, is the best error itself, set only when both methods completed. *)
Theorem hybrid_processor_keeps_the_smallest_error (force_method : option method) :
  let out := fst (process force_method) in
  let tried := snd (process force_method) in
  tried = match force_method with
          | Some m => [m]
          | None => [anatomical; ultimate]
          end /\
  (out = None <-> forall m e, In m tried -> ~ (apply_alignment m = true /\ run_prediction m = Some e)) /\
  forall o : hybrid_outcome R, out = Some o ->
    (forall m r, In (m, r) (ho_all_results o) <->
       In m tried /\ (apply_alignment m = true /\ run_prediction m = Some (mr_ransac_error r)) /\
       mr_status r = assess_performance (mr_ransac_error r)) /\
    In (ho_best_method o, ho_best_result o) (ho_all_results o) /\
    (forall m r, In (m, r) (ho_all_results o) ->
       mr_ransac_error (ho_best_result o) <= mr_ransac_error r) /\
    (forall r, In (anatomical, r) (ho_all_results o) ->
       mr_ransac_error r <= mr_ransac_error (ho_best_result o) ->
       ho_best_method o = anatomical) /\
    (forall v, ho_improvement o = Some v ->
       v = mr_ransac_error (ho_best_result o) /\
       List.length (ho_all_results o) = 2%nat).
Proof.
  cbv zeta. unfold process_single_file_hybrid.
  destruct force_method as [[|]|]; run_methods; cbn [fst snd min_by_ransac];
    cbn [mr_ransac_error snd fst];
    try match goal with
        | |- context [if ?c then _ else _] =>
            change c with (Rltb r0 r);
            destruct (Rltb r0 r) eqn:Hlt;
            [apply Rltb_true in Hlt | apply Rltb_false in Hlt]
        end;
    (split; [reflexivity|]); split.
  all: try (split;
            [ intros H; try discriminate H; intros m e Hin [A B];
              cbn in Hin; intuition (subst; congruence)
            | intros H; try reflexivity; exfalso;
              first [ solve [eapply (H anatomical); [cbn; tauto | split; eassumption]]
                    | solve [eapply (H ultimate); [cbn; tauto | split; eassumption]] ] ]).
  all: intros o Ho; try discriminate Ho; injection Ho as <-;
    cbn [ho_all_results ho_best_method ho_best_result ho_improvement
         mr_ransac_error mr_status fst snd List.length].
  all: split;
    [ intros m x; split;
      [ intros Hin; cbn in Hin;
        repeat match goal with
               | H : _ \/ _ |- _ => destruct H
               | H : False |- _ => destruct H
               | H : (_, _) = (_, _) |- _ => injection H as <- <-
               end;
        cbn; repeat split; auto
      | intros (Hin & (A & B) & S); destruct x as [e s]; cbn in A, B, S, Hin;
        subst s;
        repeat match goal with
               | H : _ \/ _ |- _ => destruct H
               | H : False |- _ => destruct H
               end; subst m; try congruence;
        match goal with
        | H1 : run_prediction ?k = Some ?a, H2 : run_prediction ?k = Some ?b |- _ =>
            rewrite H1 in H2; injection H2 as <-
        end; cbn; auto ]
    | split; [cbn; auto|];
      split;
      [ intros m x Hin; cbn in Hin;
        repeat match goal with
               | H : _ \/ _ |- _ => destruct H
               | H : False |- _ => destruct H
               | H : (_, _) = (_, _) |- _ => injection H as <- <-
               end; cbn; lra
      | split;
        [ intros x Hin Hle; cbn in Hin;
          repeat match goal with
                 | H : _ \/ _ |- _ => destruct H
                 | H : False |- _ => destruct H
                 end; try discriminate; try reflexivity;
          match goal with
          | H : (_, _) = (_, _) |- _ => injection H as <-
          end; cbn in Hle; lra
        | intros v Hv; cbn in Hv; try discriminate Hv; injection Hv as <-;
          split; reflexivity ] ] ].
Qed.

End HybridProcessor.

Lemma hybrid_processor_keeps_the_smallest_error_witness :
  exists o : hybrid_outcome R,
    fst (process_single_file_hybrid (fun _ => true) (fun _ => Some 7%R) None) = Some o /\
    ho_best_method o = anatomical /\
    ho_improvement o = Some (mr_ransac_error (ho_best_result o)).
Proof.
  assert (Eo : exists o : hybrid_outcome R,
             fst (process_single_file_hybrid (fun _ => true) (fun _ => Some 7%R) None)
             = Some o /\
             ho_improvement o = Some 7%R /\
             In (anatomical,
                 {| mr_ransac_error := 7%R; mr_status := assess_performance 7%R |})
                (ho_all_results o) /\
             mr_ransac_error (ho_best_result o) = 7%R).
  { unfold process_single_file_hybrid. cbn -[Rltb assess_performance].
    change (ltb 7%R 7%R) with (Rltb 7 7).
    rewrite (proj2 (Rltb_false 7 7)) by lra.
    eexists. split; [reflexivity|]. cbn -[assess_performance]. auto. }
  destruct Eo as (o & Eo & Ei & Ea & Eb).
  exists o. split; [exact Eo|].
  destruct (hybrid_processor_keeps_the_smallest_error
              (fun _ => true) (fun _ => Some 7%R) None) as (_ & _ & H).
  destruct (H o Eo) as (_ & _ & _ & Htie & Himp).
  split.
  - apply (Htie _ Ea). rewrite Eb. cbn. lra.
  - destruct (Himp _ Ei) as [<- _]. exact Ei.
Defined.

(* ------------------------------------------------------------------ *)
(** ** The batch processor *)

Section BatchProcessor.
Local Open Scope R_scope.

Variable path_exists : string -> bool.
Variable load_path : string -> mesh R.
Variable run_prediction : mesh R -> vtkTransform R -> option R.

Local Notation "'batch'" := (process_batch path_exists load_path run_prediction).

Lemma process_batch_app (files1 files2 : list string) :
  batch (files1 ++ files2) = batch files1 ++ batch files2.
Proof.
  induction files1 as [|f rest IH]; [reflexivity|].
  cbn [app process_batch].
  destruct (negb (path_exists f)); [exact IH|].
  destruct (apply_anatomical_alignment (load_path f)) as [res|e]; [|exact IH].
  match goal with
  | |- context [run_prediction ?a ?b] => destruct (run_prediction a b)
  end; [|exact IH].
  cbn [app]. f_equal. exact IH.
Qed.

Lemma status_breakdown_total (results : list (batch_entry R)) :
  let '(a, b, c, d) := status_breakdown results in
  (a + b + c + d = List.length results)%nat.
Proof.
  unfold status_breakdown.
  induction results as [|r rest IH]; [reflexivity|].
  cbn [filter List.length]. destruct (be_status r); cbn [List.length]; lia.
Qed.

(** X23.  Over the reals, [process_batch] handles its files one by one
    and in order (a batch over a concatenation is the concatenation of
    the batches); every entry it returns belongs to an input file that
    exists, whose mesh has vertices and a non-zero Y extent, whose
    alignment returned and whose prediction gave the recorded error;
    the recorded scale factor is 190 over the Y extent and the recorded
    status is the status of the recorded error; files that fail any of
    these are left out, so there are at most as many entries as files;
    and the four status counts of the report add up to the number of
    entries. *)
Theorem batch_reports_completed_files (files1 files2 : list string) :
  batch (files1 ++ files2) = batch files1 ++ batch files2 /\
  (List.length (batch files1) <= List.length files1)%nat /\
  (forall e : batch_entry R, In e (batch files1) ->
     let m := load_path (be_input_path e) in
     In (be_input_path e) files1 /\
     path_exists (be_input_path e) = true /\
     points m <> [] /\
     ymax (mesh_bounds m) - ymin (mesh_bounds m) <> 0 /\
     (exists res, apply_anatomical_alignment m = Ok res /\
        run_prediction m (anatomical_vtk_transform (ar_transform_params res))
          = Some (be_ransac_error e)) /\
     be_scale_factor e = 190 / Rabs (ymax (mesh_bounds m) - ymin (mesh_bounds m)) /\
     be_status e = assess_performance (be_ransac_error e)) /\
  (forall f : string,
     In f files1 -> path_exists f = true ->
     forall res err,
       apply_anatomical_alignment (load_path f) = Ok res ->
       run_prediction (load_path f) (anatomical_vtk_transform (ar_transform_params res))
         = Some err ->
       exists e, In e (batch files1) /\ be_input_path e = f /\ be_ransac_error e = err) /\
  (let '(a, b, c, d) := status_breakdown (batch files1) in
   (a + b + c + d = List.length (batch files1))%nat).
Proof.
  split; [apply process_batch_app|].
  split.
  { induction files1 as [|f rest IH]; [apply Nat.le_refl|].
    cbn [process_batch List.length].
    destruct (negb (path_exists f)); [lia|].
    destruct (apply_anatomical_alignment (load_path f)) as [res|e]; [|lia].
    match goal with
    | |- context [run_prediction ?a ?b] => destruct (run_prediction a b)
    end; cbn [List.length]; lia. }
  split.
  { induction files1 as [|f rest IH]; [intros e []|].
    intros e. cbn [process_batch].
    assert (Hrest : In e (batch rest) ->
              let m := load_path (be_input_path e) in
              In (be_input_path e) (f :: rest) /\
              path_exists (be_input_path e) = true /\
              points m <> [] /\
              ymax (mesh_bounds m) - ymin (mesh_bounds m) <> 0 /\
              (exists res, apply_anatomical_alignment m = Ok res /\
                 run_prediction m (anatomical_vtk_transform (ar_transform_params res))
          = Some (be_ransac_error e)) /\
              be_scale_factor e = 190 / Rabs (ymax (mesh_bounds m) - ymin (mesh_bounds m)) /\
              be_status e = assess_performance (be_ransac_error e)).
    { intros H. destruct (IH e H) as (H1 & H2). split; [right; exact H1 | exact H2]. }
    destruct (path_exists f) eqn:Hex; cbn [negb]; [|exact Hrest].
    destruct (apply_anatomical_alignment_cases (load_path f))
      as [(Hp & E)|[(Hp & Hy & E)|(Hp & Hy & a & p & _ & _ & Hs & E)]];
      rewrite E; [exact Hrest | exact Hrest |].
    cbn [ar_transform_params].
    match goal with
    | |- context [run_prediction ?a ?b] =>
        destruct (run_prediction a b) as [err|] eqn:Hpred
    end; [|exact Hrest].
    intros [<-|H]; [|exact (Hrest H)].
    cbv zeta. cbn [be_input_path be_ransac_error be_scale_factor be_status].
    split; [left; reflexivity|]. split; [exact Hex|]. split; [exact Hp|].
    split; [exact Hy|]. split; [|split; [exact Hs | reflexivity]].
    eexists. split; [exact E | exact Hpred]. }
  split.
  { induction files1 as [|f rest IH]; [intros f []|].
    intros g Hin Hex res err Hal Hpred. cbn [process_batch].
    assert (Hrest : In g rest ->
              exists e, In e (batch rest) /\ be_input_path e = g /\ be_ransac_error e = err)
      by (intros H; exact (IH g H Hex res err Hal Hpred)).
    destruct Hin as [->|Hin].
    - rewrite Hex. cbn [negb]. rewrite Hal, Hpred.
      eexists. split; [left; reflexivity|]. split; reflexivity.
    - destruct (Hrest Hin) as (e & He & Hpath & Herr).
      exists e. split; [|split; assumption].
      destruct (negb (path_exists f)); [exact He|].
      destruct (apply_anatomical_alignment (load_path f)) as [res'|x]; [|exact He].
      match goal with
      | |- context [run_prediction ?a ?b] => destruct (run_prediction a b)
      end; [right; exact He | exact He]. }
  apply status_breakdown_total.
Qed.

End BatchProcessor.

Lemma batch_reports_completed_files_witness :
  exists e : batch_entry R,
    In e (process_batch (fun _ => true) (fun _ => z_up_segment) (fun _ _ => Some 5%R)
            ["assets/files/class1/men/1.ply"%string]) /\
    be_scale_factor e = (190 / Rabs (2 - 0))%R.
Proof.
  destruct (batch_reports_completed_files (fun _ => true) (fun _ => z_up_segment)
              (fun _ _ => Some 5%R) ["assets/files/class1/men/1.ply"%string] [])
    as (_ & _ & Hin & Hall & _).
  destruct (apply_anatomical_alignment_cases z_up_segment)
    as [(Hp & _)|[(_ & Hy & _)|(_ & _ & a & p & _ & _ & _ & E)]].
  - discriminate Hp.
  - cbn in Hy. lra.
  - destruct (Hall "assets/files/class1/men/1.ply"%string (or_introl eq_refl) eq_refl
                _ 5%R E eq_refl) as (e & He & _ & _).
    exists e. split; [exact He|].
    destruct (Hin e He) as (_ & _ & _ & _ & _ & Hs & _). exact Hs.
Defined.

(* ------------------------------------------------------------------ *)
(** ** The hybrid scale-free dispatch *)

Section HybridDispatch.
Local Open Scope R_scope.

Variable compute_pca_axes : list (vec3 R) -> option (mat3 R).

Local Notation "'hybrid_align'" := (apply_hybrid_scale_free_alignment compute_pca_axes).

Lemma apply_scale_free_alignment_returns (m : mesh R) :
  points m <> [] ->
  exists r, apply_scale_free_alignment m = Ok r /\
            scale_factor (ar_transform_params r) = 1.
Proof.
  intros Hne. destruct (analyze_ply_anatomy_ok m Hne) as (a & Ha & _).
  unfold apply_scale_free_alignment. rewrite Ha. cbn [bind].
  eexists. split; [reflexivity|].
  reflexivity.
Qed.

(** X24.  Over the reals, for meshes with vertices and a box with
    non-negative extents: [apply_hybrid_scale_free_alignment] raises
    [ZeroDivisionError] when an extent is zero, although the scale-free
    aligner alone returns on the same mesh.  When the three extents are
    strictly positive the analysis returns and the scorer decides: under
    the anatomical method the function returns, and under the ultimate
    method it returns exactly when a rotation was estimated and raises
    [AttributeError] otherwise; whenever it returns, the method it
    reports is the one the scorer selected and the scale factor it
    reports is 1. *)
Theorem hybrid_dispatch_follows_the_scorer (obj ply : mesh R) :
  points obj <> [] -> points ply <> [] ->
  let w := xmax (mesh_bounds ply) - xmin (mesh_bounds ply) in
  let h := ymax (mesh_bounds ply) - ymin (mesh_bounds ply) in
  let d := zmax (mesh_bounds ply) - zmin (mesh_bounds ply) in
  0 <= w -> 0 <= h -> 0 <= d ->
  (w = 0 \/ h = 0 \/ d = 0 ->
   hybrid_align obj ply = Raise ZeroDivisionError /\
   exists r, apply_scale_free_alignment ply = Ok r) /\
  (0 < w -> 0 < h -> 0 < d ->
   exists ch : characteristics R,
     analyze_ply_characteristics ply = Ok ch /\
     (forall res : hybrid_alignment R,
        hybrid_align obj ply = Ok res ->
        method_used res = fst (select_optimal_method ch) /\
        ha_scale_factor res = 1) /\
     match fst (select_optimal_method ch),
           estimate_rotation_alignment compute_pca_axes (points ply) (points obj) with
     | anatomical, _ => exists res, hybrid_align obj ply = Ok res
     | ultimate, Some _ => exists res, hybrid_align obj ply = Ok res
     | ultimate, None => hybrid_align obj ply = Raise AttributeError
     end).
Proof.
  intros Hobj Hply. cbv zeta. intros Hw Hh Hd.
  destruct (apply_scale_free_alignment_returns ply Hply) as (r & Er & Es).
  split.
  - intros Hz. split; [|exists r; exact Er].
    unfold apply_hybrid_scale_free_alignment.
    assert (E : analyze_ply_characteristics ply = Raise ZeroDivisionError).
    { unfold analyze_ply_characteristics.
      destruct (scan_point_arrays 0 (point_data ply) false false) as [hc hn].
      change (@sub R Num_R) with Rminus.
      destruct (Req_dec_T (xmax (mesh_bounds ply) - xmin (mesh_bounds ply)) 0) as [Zw|Zw];
        [rewrite aspect_ratio_zero by (try assumption; left; exact Zw); reflexivity|].
      destruct (Req_dec_T (ymax (mesh_bounds ply) - ymin (mesh_bounds ply)) 0) as [Zh|Zh];
        [rewrite aspect_ratio_zero by (try assumption; right; exact Zh); reflexivity|].
      assert (Zd : zmax (mesh_bounds ply) - zmin (mesh_bounds ply) = 0)
        by (destruct Hz as [?|[?|?]]; [contradiction|contradiction|assumption]).
      destruct (aspect_ratio_ok (xmax (mesh_bounds ply) - xmin (mesh_bounds ply))
                  (ymax (mesh_bounds ply) - ymin (mesh_bounds ply))) as (E1 & _);
        [lra|lra|].
      rewrite E1. cbn [bind].
      rewrite aspect_ratio_zero by (try assumption; right; exact Zd). reflexivity. }
    rewrite E. reflexivity.
  - intros Pw Ph Pd.
    destruct (analyze_ply_characteristics_returns ply Pw Ph Pd) as (ch & Ech).
    exists ch. split; [exact Ech|].
    unfold apply_hybrid_scale_free_alignment. rewrite Ech. cbn [bind].
    destruct (select_optimal_method ch) as [[|] scoring]; cbn [fst].
    + rewrite Er. cbn [bind]. split.
      * intros res H. injection H as <-. split; [reflexivity | exact Es].
      * eexists. reflexivity.
    + unfold align_ply_to_obj_system_scale_free.
      destruct (estimate_rotation_alignment compute_pca_axes (points ply) (points obj))
        as [rot|].
      * destruct (points ply) as [|v vs]; [contradiction|].
        destruct (points obj) as [|u us]; [contradiction|].
        cbn [bind]. split.
        -- intros res H. injection H as <-. split; reflexivity.
        -- eexists. reflexivity.
      * cbn [bind]. split; [intros res H; discriminate H | reflexivity].
Qed.

End HybridDispatch.

Lemma hybrid_dispatch_follows_the_scorer_witness :
  apply_hybrid_scale_free_alignment (fun _ => None) z_up_segment single_point_R
  = Raise ZeroDivisionError /\
  exists res : hybrid_alignment R,
    apply_hybrid_scale_free_alignment (fun _ => Some identity3)
      single_point_R z_up_segment = Ok res /\
    ha_scale_factor res = 1%R.
Proof.
  split.
  - destruct (hybrid_dispatch_follows_the_scorer (fun _ => None)
                z_up_segment single_point_R) as (H & _);
      try discriminate; try (cbn; lra).
    destruct H as (H & _); [left; cbn; lra | exact H].
  - destruct (hybrid_dispatch_follows_the_scorer (fun _ => Some identity3)
                single_point_R z_up_segment) as (_ & H);
      try discriminate; try (cbn; lra).
    destruct H as (ch & _ & H2 & H3); try (cbn; lra).
    unfold estimate_rotation_alignment in H3. cbv beta iota in H3.
    destruct (fst (select_optimal_method ch)); destruct H3 as [res Hres];
      exists res; (split; [exact Hres | apply (H2 res Hres)]).
Defined.
